(** * STKansys: the two satellite-network analysis scripts

    A shallow embedding of [phase2/Satellite Network Analysis33.py] and
    [phase2/Satellite Network Analysis88.py].  Both scripts define the same
    class [SatelliteNetworkAnalyzer]; the first evaluates its spherical
    trigonometry with numpy, the second with the [math] module.

    Layout:
    - Python outcomes (a value or a raised exception);
    - the arithmetic both scripts rest on, as an interface with two
      interpretations: IEEE binary64 over the libraries numpy and the [math]
      module evaluate with, and the real numbers;
    - the methods of the class, one module per script where they differ;
    - the properties. *)

From Stdlib Require Import Floats ZArith List String Bool Arith.
From Stdlib Require Import Reals Lra Lia Psatz.
From Stdlib Require Uint63 DecimalString.
Import ListNotations.

Set Implicit Arguments.

(* ================================================================== *)
(** * Python outcomes *)

(** The exceptions the modelled code can meet. [HostError] stands for any
    failure reported by the automation interface of the host application. *)
Inductive exn : Type :=
| ValueError
| ZeroDivisionError
| IndexError
| AttributeError
| HostError.

Inductive result (A : Type) : Type :=
| Ok (a : A)
| Raise (e : exn).

Arguments Ok {A} a.
Arguments Raise {A} e.

Definition bind {A B : Type} (m : result A) (k : A -> result B) : result B :=
  match m with
  | Ok a => k a
  | Raise e => Raise e
  end.

Declare Scope py_scope.
Delimit Scope py_scope with py.
Notation "x <- m ;; k" := (bind m (fun x => k))
  (at level 61, m at next level, right associativity) : py_scope.

(* ================================================================== *)
(** * The arithmetic under both scripts *)

(** What [_calculate_destination] needs from its number type: literals,
    the four operations, pi, and the sine, cosine, arcsine and two-argument
    arctangent, twice: as numpy's loops compute them ([npy_]) and as the C
    library behind the [math] module does ([lib_]), the latter with the test
    that makes the [math] module raise [ValueError] instead of returning.
    Nothing ties the two families to each other: numpy brings its own
    implementations and never raises. *)
Record Numeric (F : Type) : Type := {
  of_Z : Z -> F;
  n_pi : F;
  n_add : F -> F -> F;
  n_sub : F -> F -> F;
  n_mul : F -> F -> F;
  n_div : F -> F -> F;
  npy_sin : F -> F;
  npy_cos : F -> F;
  npy_arcsin : F -> F;
  npy_arctan2 : F -> F -> F;
  lib_sin : F -> F;
  lib_cos : F -> F;
  lib_asin : F -> F;
  lib_atan2 : F -> F -> F;
  sin_raises : F -> bool;
  cos_raises : F -> bool;
  asin_raises : F -> bool;
  atan2_raises : F -> F -> bool
}.

Section Libraries.
Context {F : Type} (N : Numeric F).

Local Notation "x + y" := (n_add N x y).
Local Notation "x * y" := (n_mul N x y).
Local Notation "x / y" := (n_div N x y).

(** [np.radians], [math.radians]: [x * (pi / 180)]. *)
Definition radians (x : F) : F := x * (n_pi N / of_Z N 180).
(** [np.degrees], [math.degrees]: [x * (180 / pi)]. *)
Definition degrees (x : F) : F := x * (of_Z N 180 / n_pi N).

(** numpy: its own function, whatever it returns. *)
Definition np_sin (x : F) : F := npy_sin N x.
Definition np_cos (x : F) : F := npy_cos N x.
Definition np_arcsin (x : F) : F := npy_arcsin N x.
Definition np_arctan2 (y x : F) : F := npy_arctan2 N y x.

(** math: the C function behind a check of its result. *)
Definition math_sin (x : F) : result F :=
  if sin_raises N x then Raise ValueError else Ok (lib_sin N x).
Definition math_cos (x : F) : result F :=
  if cos_raises N x then Raise ValueError else Ok (lib_cos N x).
Definition math_asin (x : F) : result F :=
  if asin_raises N x then Raise ValueError else Ok (lib_asin N x).
Definition math_atan2 (y x : F) : result F :=
  if atan2_raises N y x then Raise ValueError else Ok (lib_atan2 N y x).
End Libraries.

(* ------------------------------------------------------------------ *)
(** ** Interpretation 1: IEEE binary64 over two libraries *)

(** The C library and numpy's loops are outside the repository.  Each is
    taken as four functions on binary64 that honour what C99 fixes for them
    (7.12.4.4 and Annex F, F.9.1.2, F.9.1.4, F.9.1.5, F.9.1.6): sine and
    arcsine of zero, cosine of zero, the arctangent of 0 over 1, NaN for the
    cosine of an infinity, and an arctangent that is never infinite (it lies
    in [[-pi, pi]]).  Apart from these values the two may differ. *)
Record Libm : Type := {
  c_sin : float -> float;
  c_cos : float -> float;
  c_asin : float -> float;
  c_atan2 : float -> float -> float;
  c_sin_zero : c_sin 0%float = 0%float;
  c_cos_zero : c_cos 0%float = 1%float;
  c_asin_zero : c_asin 0%float = 0%float;
  c_atan2_zero_one : c_atan2 0%float 1%float = 0%float;
  c_cos_infinity : c_cos infinity = nan;
  c_atan2_bounded : forall y x : float, PrimFloat.is_infinity (c_atan2 y x) = false
}.

(** An integer literal as a float (exact below 2^53). *)
Definition float_of_Z (z : Z) : float :=
  match z with
  | Z0 => 0%float
  | Zpos _ => PrimFloat.of_uint63 (Uint63.of_Z z)
  | Zneg p => PrimFloat.opp (PrimFloat.of_uint63 (Uint63.of_Z (Zpos p)))
  end.

(** [M_PI], the double nearest to pi. *)
Definition float_pi : float := 0x1.921fb54442d18p+1%float.

(** CPython's wrapper [math_1] around a one-argument C function: a NaN
    result of a non-NaN argument, or an infinite result of a finite argument,
    is a domain error. *)
Definition invalid1 (x r : float) : bool :=
  (PrimFloat.is_nan r && negb (PrimFloat.is_nan x))
  || (PrimFloat.is_infinity r && PrimFloat.is_finite x).

(** The two-argument wrapper [math_2]: a NaN result of two non-NaN
    arguments is a domain error.  (It also reports an infinite result of
    finite arguments, as a range error; the arctangent has none.) *)
Definition invalid2 (y x r : float) : bool :=
  PrimFloat.is_nan r && negb (PrimFloat.is_nan y) && negb (PrimFloat.is_nan x).

(** [P] is what numpy evaluates with, [L] the C library under [math]. *)
Definition binary64 (P L : Libm) : Numeric float := {|
  of_Z := float_of_Z;
  n_pi := float_pi;
  n_add := PrimFloat.add;
  n_sub := PrimFloat.sub;
  n_mul := PrimFloat.mul;
  n_div := PrimFloat.div;
  npy_sin := c_sin P;
  npy_cos := c_cos P;
  npy_arcsin := c_asin P;
  npy_arctan2 := c_atan2 P;
  lib_sin := c_sin L;
  lib_cos := c_cos L;
  lib_asin := c_asin L;
  lib_atan2 := c_atan2 L;
  sin_raises := fun x => invalid1 x (c_sin L x);
  cos_raises := fun x => invalid1 x (c_cos L x);
  asin_raises := fun x => invalid1 x (c_asin L x);
  atan2_raises := fun y x => invalid2 y x (c_atan2 L y x)
|}.

(* ------------------------------------------------------------------ *)
(** ** Interpretation 2: the real numbers *)

(** The two-argument arctangent, by the quadrant of [(x, y)]. *)
Definition Ratan2 (y x : R) : R :=
  if Rlt_dec 0 x then atan (y / x)
  else if Rlt_dec x 0 then
    (if Rle_dec 0 y then atan (y / x) + PI else atan (y / x) - PI)%R
  else if Rlt_dec 0 y then (PI / 2)%R
  else if Rlt_dec y 0 then (- (PI / 2))%R
  else 0%R.

(** [math.asin] is defined on [[-1, 1]] and raises elsewhere. *)
Definition Rasin_raises (x : R) : bool :=
  if Rle_dec (-1) x then (if Rle_dec x 1 then false else true) else true.

Definition exact_reals : Numeric R := {|
  of_Z := IZR;
  n_pi := PI;
  n_add := Rplus;
  n_sub := Rminus;
  n_mul := Rmult;
  n_div := Rdiv;
  npy_sin := sin;
  npy_cos := cos;
  npy_arcsin := asin;
  npy_arctan2 := Ratan2;
  lib_sin := sin;
  lib_cos := cos;
  lib_asin := asin;
  lib_atan2 := Ratan2;
  sin_raises := fun _ => false;
  cos_raises := fun _ => false;
  asin_raises := Rasin_raises;
  atan2_raises := fun _ _ => false
|}.

(* ================================================================== *)
(** * [_calculate_destination] *)

(** The closed form as the specification words it: the great-circle
    destination on a sphere of radius 6371 km, angles taken from degrees to
    radians and the results back to degrees; over a sine, a cosine, an
    arcsine and a two-argument arctangent. *)
Section ClosedForm.
Context {F : Type} (N : Numeric F).
Variables (sin_ cos_ asin_ : F -> F) (atan2_ : F -> F -> F).

Local Notation "x + y" := (n_add N x y).
Local Notation "x - y" := (n_sub N x y).
Local Notation "x * y" := (n_mul N x y).
Local Notation "x / y" := (n_div N x y).

Definition earth_radius_km : F := of_Z N 6371.

Definition destination_latitude_rad (lat1 lon1 d b : F) : F :=
  asin_
    (sin_ (radians N lat1) * cos_ (d / earth_radius_km)
     + cos_ (radians N lat1) * sin_ (d / earth_radius_km)
       * cos_ (radians N b)).

Definition destination_longitude_rad (lat1 lon1 d b : F) : F :=
  radians N lon1
  + atan2_
      (sin_ (radians N b) * sin_ (d / earth_radius_km)
       * cos_ (radians N lat1))
      (cos_ (d / earth_radius_km)
       - sin_ (radians N lat1)
         * sin_ (destination_latitude_rad lat1 lon1 d b)).

Definition great_circle_destination (lat1 lon1 d b : F) : F * F :=
  (degrees N (destination_latitude_rad lat1 lon1 d b),
   degrees N (destination_longitude_rad lat1 lon1 d b)).
End ClosedForm.

(** The closed form over numpy's functions and over the C library's. *)
Definition numpy_destination {F : Type} (N : Numeric F) : F -> F -> F -> F -> F * F :=
  great_circle_destination N (npy_sin N) (npy_cos N) (npy_arcsin N)
                           (npy_arctan2 N).
Definition math_destination {F : Type} (N : Numeric F) : F -> F -> F -> F -> F * F :=
  great_circle_destination N (lib_sin N) (lib_cos N) (lib_asin N)
                           (lib_atan2 N).

(* ------------------------------------------------------------------ *)
(** ** A C library known at sample arguments *)

(** Lookup in a table of arguments and values; NaN where the table is
    silent. *)
Fixpoint tabulated (t : list (float * float)) (x : float) : float :=
  match t with
  | [] => nan
  | (k, v) :: t' => if PrimFloat.eqb x k then v else tabulated t' x
  end.

Fixpoint tabulated2 (t : list (float * float * float)) (y x : float) : float :=
  match t with
  | [] => nan
  | (ky, kx, v) :: t' =>
      if PrimFloat.eqb y ky && PrimFloat.eqb x kx then v else tabulated2 t' y x
  end.

(** Sine, cosine, arcsine and arctangent at the arguments the examples of
    this file evaluate, with the values glibc's libm returns there (the ones
    CPython's [math] hands back on x86-64 Linux). *)
Definition sin_table : list (float * float) :=
  [ (0x1.6bd0258912f4ap-1, 0x1.4df60a13e2412p-1);
    (0x1.4174e3c083278p-3, 0x1.40236652a746fp-3);
    (0x1.921fb54442d18p-1, 0x1.6a09e667f3bccp-1);
    (0x1.a1824ab9d3d2fp-1, 0x1.74c0a3e22c996p-1);
    (0x1.7cfd855c9fd3bp+0, 0x1.fe41a07e68cf5p-1);
    (0x1.5222fe7a2fdd3p-4, 0x1.51c0b4e8a7701p-4) ]%float.

Definition cos_table : list (float * float) :=
  [ (0, 1);
    (0x1.4174e3c083278p-3, 0x1.f9b4b687bfc5bp-1);
    (0x1.6bd0258912f4ap-1, 0x1.8417162e27c5ap-1);
    (0x1.921fb54442d18p-1, 0x1.6a09e667f3bcdp-1);
    (0x1.5222fe7a2fdd3p-4, 0x1.fe41a07e68cf5p-1);
    (0x1.7cfd855c9fd3bp+0, 0x1.51c0b4e8a7702p-4) ]%float.

Definition asin_table : list (float * float) :=
  [ (0x1.74c0a3e22c996p-1, 0x1.a1824ab9d3d2fp-1) ]%float.

Definition atan2_table : list (float * float * float) :=
  [ (0x1.572cbb181f3ccp-4, 0x1.06924c0c2b069p-1, 0x1.4ba7efbed9092p-3) ]%float.

(** Zero goes to itself under sine and arcsine, and under the arctangent
    over a positive abscissa (the sign of the zero is kept). *)
Definition sample_sin (x : float) : float :=
  if PrimFloat.is_zero x then x else tabulated sin_table x.
Definition sample_cos (x : float) : float := tabulated cos_table x.
Definition sample_asin (x : float) : float :=
  if PrimFloat.is_zero x then x else tabulated asin_table x.
Definition sample_atan2 (y x : float) : float :=
  if PrimFloat.is_zero y && PrimFloat.ltb 0 x
  then (if PrimFloat.get_sign y then neg_zero else zero)
  else tabulated2 atan2_table y x.

Definition sample_libm : Libm := {|
  c_sin := sample_sin;
  c_cos := sample_cos;
  c_asin := sample_asin;
  c_atan2 := sample_atan2;
  c_sin_zero := eq_refl;
  c_cos_zero := eq_refl;
  c_asin_zero := eq_refl;
  c_atan2_zero_one := eq_refl;
  c_cos_infinity := eq_refl;
  c_atan2_bounded :=
    ltac:(intros y x; unfold sample_atan2, atan2_table, tabulated2;
          repeat match goal with
                 | |- context [if ?c then _ else _] => destruct c
                 end; reflexivity)
|}.

(** Comparison of binary64 values, as Python's [<] and [<=]. *)
Definition in_latitude_range (lat : float) : bool :=
  PrimFloat.ltb (-90)%float lat && PrimFloat.ltb lat 90%float.
Definition nonnegative (d : float) : bool := PrimFloat.leb 0%float d.

(* ================================================================== *)
(** * The host application's objects *)

(** The members of the host's enumerations that the scripts name, each with
    one further member for a state the scripts did not choose. *)
Inductive AgEVePropagatorType : Type :=
| ePropagatorTwoBody
| ePropagatorJ2Perturbation
| ePropagatorGreatArc.

Inductive AgEClassicalSizeShape : Type :=
| eSizeShapeAltitude
| eSizeShapeSemimajorAxis.

Inductive AgEOrientationAscNode : Type :=
| eAscNodeLAN
| eAscNodeRAAN.

Inductive AgEClassicalLocation : Type :=
| eLocationMeanAnomaly
| eLocationTrueAnomaly.

Section Objects.
Variable F : Type.

(** An orbit state in classical elements ([coe_axes] in the scripts), with
    its sub-objects [SizeShape], [Orientation] and [Location] flattened. *)
Record ClassicalElements : Type := {
  SizeShapeType : AgEClassicalSizeShape;
  SemiMajorAxis : F;
  Eccentricity : F;
  AscNodeType : AgEOrientationAscNode;
  Inclination : F;
  ArgOfPerigee : F;
  AscNode : F;
  LocationType : AgEClassicalLocation;
  LocationValue : F
}.

(** [sat_Ephemeris] is the initial state [Propagate] ran from, once it has
    run. *)
Record Satellite : Type := {
  sat_InstanceName : string;
  sat_PropagatorType : AgEVePropagatorType;
  sat_InitialState : ClassicalElements;
  sat_Ephemeris : option ClassicalElements
}.

(** A facility.  The last two fields are the attributes the second script
    tries to write; the two flags say whether the host lets it. *)
Record Facility : Type := {
  fac_InstanceName : string;
  fac_Latitude : F;
  fac_Longitude : F;
  fac_Altitude : F;
  accepts_ElevationAngleConstraint : bool;
  accepts_VO_MinElevationAngle : bool;
  ElevationAngleConstraint : option F;
  VO_MinElevationAngle : option F
}.

Record Waypoint : Type := {
  Latitude : F;
  Longitude : F;
  Altitude : F;
  Speed : F
}.

(** [ac_Propagated] holds the waypoints [route.Propagate()] ran over. *)
Record Aircraft : Type := {
  ac_InstanceName : string;
  ac_RouteType : AgEVePropagatorType;
  ac_Waypoints : list Waypoint;
  ac_Propagated : option (list Waypoint)
}.

Inductive StkObject : Type :=
| ObjSatellite (s : Satellite)
| ObjFacility (f : Facility)
| ObjAircraft (a : Aircraft).

Definition ClassName (o : StkObject) : string :=
  match o with
  | ObjSatellite _ => "Satellite"
  | ObjFacility _ => "Facility"
  | ObjAircraft _ => "Aircraft"
  end.

Definition InstanceName (o : StkObject) : string :=
  match o with
  | ObjSatellite s => sat_InstanceName s
  | ObjFacility f => fac_InstanceName f
  | ObjAircraft a => ac_InstanceName a
  end.

(** An access object: its two ends, the minimum of its elevation-angle
    constraint when [EnableMin] is set, and whether it was computed. *)
Record Access : Type := {
  acc_from : StkObject;
  acc_to : StkObject;
  acc_ElevationMin : option F;
  acc_Computed : bool
}.

(** What the host answers while the intervals of an access are read: each
    step returns or raises. *)
Record AccessData : Type := {
  Item_Access_Data : result unit;
  Exec : result unit;
  StartTime_values : result (list string);
  StopTime_values : result (list string);
  Duration_values : result (list F)
}.

(** An interval dictionary: keys ['start'], ['stop'], ['duration']. *)
Record Interval : Type := {
  start : string;
  stop : string;
  duration : F
}.

Record Scenario : Type := {
  StartTime : string;
  StopTime : string
}.

(** The analyzer object ([self]). *)
Record SatelliteNetworkAnalyzer : Type := {
  scenario_name : string;
  scenario : option Scenario;
  satellites : list Satellite;
  ground_stations : list Facility;
  aircraft : list Aircraft
}.

(** What the host decides on its own: the state of a new satellite, the
    propagator it starts with, a new waypoint, how a new facility treats the
    two attributes, and the data of a computed access. *)
Record Host : Type := {
  new_satellite_state : string -> ClassicalElements;
  new_satellite_propagator : AgEVePropagatorType;
  new_waypoint : Waypoint;
  new_facility_position : F * F * F;
  new_facility_accepts : string -> bool * bool;
  new_aircraft_route : AgEVePropagatorType;
  access_data : Access -> AccessData
}.

(** ** Attribute writes *)

Definition set_SizeShapeType (v : AgEClassicalSizeShape) (c : ClassicalElements) :=
  {| SizeShapeType := v; SemiMajorAxis := SemiMajorAxis c;
     Eccentricity := Eccentricity c; AscNodeType := AscNodeType c;
     Inclination := Inclination c; ArgOfPerigee := ArgOfPerigee c;
     AscNode := AscNode c; LocationType := LocationType c;
     LocationValue := LocationValue c |}.
Definition set_SemiMajorAxis (v : F) (c : ClassicalElements) :=
  {| SizeShapeType := SizeShapeType c; SemiMajorAxis := v;
     Eccentricity := Eccentricity c; AscNodeType := AscNodeType c;
     Inclination := Inclination c; ArgOfPerigee := ArgOfPerigee c;
     AscNode := AscNode c; LocationType := LocationType c;
     LocationValue := LocationValue c |}.
Definition set_Eccentricity (v : F) (c : ClassicalElements) :=
  {| SizeShapeType := SizeShapeType c; SemiMajorAxis := SemiMajorAxis c;
     Eccentricity := v; AscNodeType := AscNodeType c;
     Inclination := Inclination c; ArgOfPerigee := ArgOfPerigee c;
     AscNode := AscNode c; LocationType := LocationType c;
     LocationValue := LocationValue c |}.
Definition set_AscNodeType (v : AgEOrientationAscNode) (c : ClassicalElements) :=
  {| SizeShapeType := SizeShapeType c; SemiMajorAxis := SemiMajorAxis c;
     Eccentricity := Eccentricity c; AscNodeType := v;
     Inclination := Inclination c; ArgOfPerigee := ArgOfPerigee c;
     AscNode := AscNode c; LocationType := LocationType c;
     LocationValue := LocationValue c |}.
Definition set_Inclination (v : F) (c : ClassicalElements) :=
  {| SizeShapeType := SizeShapeType c; SemiMajorAxis := SemiMajorAxis c;
     Eccentricity := Eccentricity c; AscNodeType := AscNodeType c;
     Inclination := v; ArgOfPerigee := ArgOfPerigee c;
     AscNode := AscNode c; LocationType := LocationType c;
     LocationValue := LocationValue c |}.
Definition set_ArgOfPerigee (v : F) (c : ClassicalElements) :=
  {| SizeShapeType := SizeShapeType c; SemiMajorAxis := SemiMajorAxis c;
     Eccentricity := Eccentricity c; AscNodeType := AscNodeType c;
     Inclination := Inclination c; ArgOfPerigee := v;
     AscNode := AscNode c; LocationType := LocationType c;
     LocationValue := LocationValue c |}.
Definition set_AscNode (v : F) (c : ClassicalElements) :=
  {| SizeShapeType := SizeShapeType c; SemiMajorAxis := SemiMajorAxis c;
     Eccentricity := Eccentricity c; AscNodeType := AscNodeType c;
     Inclination := Inclination c; ArgOfPerigee := ArgOfPerigee c;
     AscNode := v; LocationType := LocationType c;
     LocationValue := LocationValue c |}.
Definition set_LocationType (v : AgEClassicalLocation) (c : ClassicalElements) :=
  {| SizeShapeType := SizeShapeType c; SemiMajorAxis := SemiMajorAxis c;
     Eccentricity := Eccentricity c; AscNodeType := AscNodeType c;
     Inclination := Inclination c; ArgOfPerigee := ArgOfPerigee c;
     AscNode := AscNode c; LocationType := v;
     LocationValue := LocationValue c |}.
Definition set_LocationValue (v : F) (c : ClassicalElements) :=
  {| SizeShapeType := SizeShapeType c; SemiMajorAxis := SemiMajorAxis c;
     Eccentricity := Eccentricity c; AscNodeType := AscNodeType c;
     Inclination := Inclination c; ArgOfPerigee := ArgOfPerigee c;
     AscNode := AscNode c; LocationType := LocationType c;
     LocationValue := v |}.

Definition set_Latitude (v : F) (w : Waypoint) :=
  {| Latitude := v; Longitude := Longitude w; Altitude := Altitude w;
     Speed := Speed w |}.
Definition set_Longitude (v : F) (w : Waypoint) :=
  {| Latitude := Latitude w; Longitude := v; Altitude := Altitude w;
     Speed := Speed w |}.
Definition set_Altitude (v : F) (w : Waypoint) :=
  {| Latitude := Latitude w; Longitude := Longitude w; Altitude := v;
     Speed := Speed w |}.
Definition set_Speed (v : F) (w : Waypoint) :=
  {| Latitude := Latitude w; Longitude := Longitude w; Altitude := Altitude w;
     Speed := v |}.

(** A write through a waypoint handle: handles are positions in the route's
    collection, so a waypoint added earlier stays reachable. *)
Fixpoint write_at {A : Type} (i : nat) (f : A -> A) (l : list A) : list A :=
  match l, i with
  | [], _ => []
  | x :: l', O => f x :: l'
  | x :: l', S j => x :: write_at j f l'
  end.

(** [waypoints.Add()]: a new waypoint at the end, and its handle. *)
Definition Waypoints_Add (h : Host) (a : Aircraft) : nat * Aircraft :=
  (List.length (ac_Waypoints a),
   {| ac_InstanceName := ac_InstanceName a; ac_RouteType := ac_RouteType a;
      ac_Waypoints := ac_Waypoints a ++ [new_waypoint h];
      ac_Propagated := ac_Propagated a |}).

Definition write_waypoint (wp : nat) (f : Waypoint -> Waypoint) (a : Aircraft)
  : Aircraft :=
  {| ac_InstanceName := ac_InstanceName a; ac_RouteType := ac_RouteType a;
     ac_Waypoints := write_at wp f (ac_Waypoints a);
     ac_Propagated := ac_Propagated a |}.

Definition SetRouteType (t : AgEVePropagatorType) (a : Aircraft) : Aircraft :=
  {| ac_InstanceName := ac_InstanceName a; ac_RouteType := t;
     ac_Waypoints := []; ac_Propagated := None |}.

Definition Route_Propagate (a : Aircraft) : Aircraft :=
  {| ac_InstanceName := ac_InstanceName a; ac_RouteType := ac_RouteType a;
     ac_Waypoints := ac_Waypoints a;
     ac_Propagated := Some (ac_Waypoints a) |}.

(** [scenario.Children.New(eSatellite, name)] and its siblings. *)
Definition New_Satellite (h : Host) (name : string) : Satellite :=
  {| sat_InstanceName := name;
     sat_PropagatorType := new_satellite_propagator h;
     sat_InitialState := new_satellite_state h name;
     sat_Ephemeris := None |}.

Definition New_Aircraft (h : Host) (name : string) : Aircraft :=
  {| ac_InstanceName := name; ac_RouteType := new_aircraft_route h;
     ac_Waypoints := []; ac_Propagated := None |}.

Definition New_Facility (h : Host) (name : string) : Facility :=
  {| fac_InstanceName := name;
     fac_Latitude := fst (fst (new_facility_position h));
     fac_Longitude := snd (fst (new_facility_position h));
     fac_Altitude := snd (new_facility_position h);
     accepts_ElevationAngleConstraint := fst (new_facility_accepts h name);
     accepts_VO_MinElevationAngle := snd (new_facility_accepts h name);
     ElevationAngleConstraint := None;
     VO_MinElevationAngle := None |}.

(** [facility.Position.AssignGeodetic(latitude, longitude, altitude_m)]. *)
Definition AssignGeodetic (lat lon alt : F) (f : Facility) : Facility :=
  {| fac_InstanceName := fac_InstanceName f;
     fac_Latitude := lat; fac_Longitude := lon; fac_Altitude := alt;
     accepts_ElevationAngleConstraint := accepts_ElevationAngleConstraint f;
     accepts_VO_MinElevationAngle := accepts_VO_MinElevationAngle f;
     ElevationAngleConstraint := ElevationAngleConstraint f;
     VO_MinElevationAngle := VO_MinElevationAngle f |}.

(** The two attribute writes of the second script's [compute_access]: the
    host takes the value or raises. *)
Definition write_ElevationAngleConstraint (v : F) (o : StkObject)
  : result StkObject :=
  match o with
  | ObjFacility f =>
      if accepts_ElevationAngleConstraint f then
        Ok (ObjFacility
              {| fac_InstanceName := fac_InstanceName f;
                 fac_Latitude := fac_Latitude f;
                 fac_Longitude := fac_Longitude f;
                 fac_Altitude := fac_Altitude f;
                 accepts_ElevationAngleConstraint :=
                   accepts_ElevationAngleConstraint f;
                 accepts_VO_MinElevationAngle := accepts_VO_MinElevationAngle f;
                 ElevationAngleConstraint := Some v;
                 VO_MinElevationAngle := VO_MinElevationAngle f |})
      else Raise HostError
  | _ => Raise AttributeError
  end.

Definition write_VO_MinElevationAngle (v : F) (o : StkObject)
  : result StkObject :=
  match o with
  | ObjFacility f =>
      if accepts_VO_MinElevationAngle f then
        Ok (ObjFacility
              {| fac_InstanceName := fac_InstanceName f;
                 fac_Latitude := fac_Latitude f;
                 fac_Longitude := fac_Longitude f;
                 fac_Altitude := fac_Altitude f;
                 accepts_ElevationAngleConstraint :=
                   accepts_ElevationAngleConstraint f;
                 accepts_VO_MinElevationAngle := accepts_VO_MinElevationAngle f;
                 ElevationAngleConstraint := ElevationAngleConstraint f;
                 VO_MinElevationAngle := Some v |})
      else Raise HostError
  | _ => Raise AttributeError
  end.

Definition SetPropagatorType (t : AgEVePropagatorType) (s : Satellite) : Satellite :=
  {| sat_InstanceName := sat_InstanceName s; sat_PropagatorType := t;
     sat_InitialState := sat_InitialState s; sat_Ephemeris := None |}.

(** [initial_state.ConvertTo(AgEOrbitStateType.eOrbitStateClassical)]: the
    state is kept in classical elements throughout. *)
Definition ConvertTo_Classical (c : ClassicalElements) : ClassicalElements := c.

(** [propagator.InitialState.Representation.Assign(coe_axes)]. *)
Definition Assign (c : ClassicalElements) (s : Satellite) : Satellite :=
  {| sat_InstanceName := sat_InstanceName s;
     sat_PropagatorType := sat_PropagatorType s;
     sat_InitialState := c; sat_Ephemeris := sat_Ephemeris s |}.

Definition Propagate (s : Satellite) : Satellite :=
  {| sat_InstanceName := sat_InstanceName s;
     sat_PropagatorType := sat_PropagatorType s;
     sat_InitialState := sat_InitialState s;
     sat_Ephemeris := Some (sat_InitialState s) |}.

(** [self.satellites.append], [self.ground_stations.append],
    [self.aircraft.append]. *)
Definition append_satellite (s : Satellite) (self : SatelliteNetworkAnalyzer) :=
  {| scenario_name := scenario_name self; scenario := scenario self;
     satellites := satellites self ++ [s];
     ground_stations := ground_stations self; aircraft := aircraft self |}.
Definition append_ground_station (f : Facility) (self : SatelliteNetworkAnalyzer) :=
  {| scenario_name := scenario_name self; scenario := scenario self;
     satellites := satellites self;
     ground_stations := ground_stations self ++ [f]; aircraft := aircraft self |}.
Definition append_aircraft (a : Aircraft) (self : SatelliteNetworkAnalyzer) :=
  {| scenario_name := scenario_name self; scenario := scenario self;
     satellites := satellites self;
     ground_stations := ground_stations self; aircraft := aircraft self ++ [a] |}.

(** [from_object.GetAccessToObject(to_object)] and [access.ComputeAccess()]. *)
Definition GetAccessToObject (from_object to_object : StkObject) : Access :=
  {| acc_from := from_object; acc_to := to_object; acc_ElevationMin := None;
     acc_Computed := false |}.

(** [constraint_active.EnableMin = True; constraint_active.Min = v] on the
    access's elevation-angle constraint. *)
Definition enable_ElevationMin (v : F) (a : Access) : Access :=
  {| acc_from := acc_from a; acc_to := acc_to a; acc_ElevationMin := Some v;
     acc_Computed := acc_Computed a |}.

(** The access refers to its first end; a write to that object shows
    through the access. *)
Definition with_from (o : StkObject) (a : Access) : Access :=
  {| acc_from := o; acc_to := acc_to a; acc_ElevationMin := acc_ElevationMin a;
     acc_Computed := acc_Computed a |}.

Definition ComputeAccess (a : Access) : Access :=
  {| acc_from := acc_from a; acc_to := acc_to a;
     acc_ElevationMin := acc_ElevationMin a; acc_Computed := true |}.
End Objects.

Arguments ObjSatellite {F} s.
Arguments ObjFacility {F} f.
Arguments ObjAircraft {F} a.

(* ================================================================== *)
(** * Statements under [try] *)

(** A block that mutates a local of type [S] and may raise: the local keeps
    what was done to it before the exception. *)
Definition Block (S A : Type) : Type := S -> result A * S.

Definition block_ret {S A : Type} (a : A) : Block S A := fun s => (Ok a, s).

Definition block_bind {S A B : Type} (m : Block S A) (k : A -> Block S B)
  : Block S B :=
  fun s => match m s with
           | (Ok a, s') => k a s'
           | (Raise e, s') => (Raise e, s')
           end.

Definition lift {S A : Type} (r : result A) : Block S A := fun s => (r, s).

Definition modify {S : Type} (f : S -> S) : Block S unit :=
  fun s => (Ok tt, f s).

(** [try: body except Exception as e: handler]. *)
Definition try_except {S A : Type} (body : Block S A) (handler : exn -> Block S A)
  : Block S A :=
  fun s => match body s with
           | (Ok a, s') => (Ok a, s')
           | (Raise e, s') => handler e s'
           end.

Declare Scope block_scope.
Delimit Scope block_scope with block.
Notation "x <- m ;; k" := (block_bind m (fun x => k))
  (at level 61, m at next level, right associativity) : block_scope.

(** [for x in l: body]. *)
Fixpoint for_each {S A : Type} (l : list A) (body : A -> Block S unit)
  : Block S unit :=
  match l with
  | [] => block_ret tt
  | x :: l' => block_bind (body x) (fun _ => for_each l' body)
  end.

(** [l[i]] for [i >= 0]. *)
Definition getitem {A : Type} (l : list A) (i : nat) : result A :=
  match nth_error l i with
  | Some v => Ok v
  | None => Raise IndexError
  end.

(** [for x in l] over a computation that may raise. *)
Fixpoint foldM {A B : Type} (f : B -> A -> result B) (l : list A) (b : B)
  : result B :=
  match l with
  | [] => Ok b
  | x :: l' => bind (f b x) (foldM f l')
  end.

(* ================================================================== *)
(** * Python dictionaries with string keys *)

(** Insertion-ordered: [d[k] = v] overwrites in place or appends. *)
Fixpoint dict_set {V : Type} (k : string) (v : V) (d : list (string * V))
  : list (string * V) :=
  match d with
  | [] => [(k, v)]
  | (k', v') :: d' =>
      if String.eqb k' k then (k', v) :: d' else (k', v') :: dict_set k v d'
  end.

Definition dict_keys {V : Type} (d : list (string * V)) : list string :=
  map fst d.

Fixpoint dict_get {V : Type} (k : string) (d : list (string * V)) : option V :=
  match d with
  | [] => None
  | (k', v) :: d' => if String.eqb k' k then Some v else dict_get k d'
  end.

(* ================================================================== *)
(** * Text *)

Definition nl : string := String (Ascii.ascii_of_nat 10) EmptyString.

(** ["c" * n]. *)
Fixpoint repeat_string (c : string) (n : nat) : string :=
  match n with
  | O => EmptyString
  | S m => (c ++ repeat_string c m)%string
  end.

(** [str(n)] of a length. *)
Definition str_nat (n : nat) : string :=
  DecimalString.NilZero.string_of_uint (Nat.to_uint n).

(* ================================================================== *)
(** * Methods the two scripts share word for word *)

Section Shared.
Context {F : Type} (N : Numeric F) (h : Host F).

(** An attribute of [self.scenario] ([.StartTime], [.Children]) when
    [self.scenario] may still be [None]. *)
Definition scenario_of (self : SatelliteNetworkAnalyzer F) : result (Scenario) :=
  match scenario self with
  | Some sc => Ok sc
  | None => Raise AttributeError
  end.

(** [create_ground_station] (33: lines 103-116, 88: lines 111-124);
    [self.scenario.Children] raises [AttributeError] while [self.scenario]
    is [None]. *)
Definition create_ground_station (self : SatelliteNetworkAnalyzer F)
    (name : string) (latitude longitude altitude_m : F)
  : result (Facility F * SatelliteNetworkAnalyzer F) :=
  bind (scenario_of self) (fun _ =>
  let facility := New_Facility h name in
  let facility := AssignGeodetic latitude longitude altitude_m facility in
  Ok (facility, append_ground_station facility self)).

(** The body of the loop of [get_access_intervals]: the three values at
    index [i], then the append. *)
Definition append_at (start_times stop_times : list string) (durations : list F)
    (i : nat) : Block (list (Interval F)) unit :=
  (s <- lift (getitem start_times i) ;;
   p <- lift (getitem stop_times i) ;;
   u <- lift (getitem durations i) ;;
   modify (fun intervals =>
             intervals ++ [ {| start := s; stop := p; duration := u |} ]))%block.

(** The statements under [try] in [get_access_intervals]; the local is the
    list [intervals]. *)
Definition read_intervals (self : SatelliteNetworkAnalyzer F) (d : AccessData F)
  : Block (list (Interval F)) unit :=
  (_ <- lift (Item_Access_Data d) ;;
   _ <- lift (scenario_of self) ;;
   _ <- lift (Exec d) ;;
   start_times <- lift (StartTime_values d) ;;
   stop_times <- lift (StopTime_values d) ;;
   durations <- lift (Duration_values d) ;;
   for_each (seq 0 (List.length start_times))
            (append_at start_times stop_times durations))%block.

(** [get_access_intervals] (33: lines 198-223, 88: lines 223-248).  The
    access is given by what the host answers for it. *)
Definition get_access_intervals (self : SatelliteNetworkAnalyzer F)
    (access : AccessData F) : result (list (Interval F)) :=
  let intervals := [] in
  match try_except (read_intervals self access)
                   (fun _ => block_ret tt) intervals with
  | (Ok _, intervals) => Ok intervals
  | (Raise e, _) => Raise e
  end.

(** The dictionary [results], with the accesses computed so far. *)
Definition Links : Type := list (string * list (Interval F)) * list (Access F).

(** The body of each of the three inner loops of [analyze_network]. *)
Definition link (compute_access : StkObject F -> StkObject F -> F -> Access F)
    (self : SatelliteNetworkAnalyzer F)
    (from_object to_object : StkObject F) (min_elevation_deg : F)
    (key : string) (st : Links) : result Links :=
  let access := compute_access from_object to_object min_elevation_deg in
  bind (get_access_intervals self (access_data h access)) (fun intervals =>
  Ok (dict_set key intervals (fst st), snd st ++ [access])).

(** The f-string ["{a}-{b}"]. *)
Definition hyphen (a b : string) : string := (a ++ "-" ++ b)%string.

(** [analyze_network] (33: lines 225-275, 88: lines 250-300), over the
    script's own [compute_access].  The print statements are left out. *)
Definition analyze_network_with
    (compute_access : StkObject F -> StkObject F -> F -> Access F)
    (self : SatelliteNetworkAnalyzer F) (min_elevation_deg : F)
  : result Links :=
  let results : Links := ([], []) in
  bind (foldM (fun results sat =>
          foldM (fun results gs =>
                   link compute_access self (ObjFacility gs) (ObjSatellite sat)
                        min_elevation_deg
                        (hyphen (sat_InstanceName sat) (fac_InstanceName gs))
                        results)
                (ground_stations self) results)
        (satellites self) results) (fun results =>
  bind (foldM (fun results sat =>
          foldM (fun results ac =>
                   link compute_access self (ObjAircraft ac) (ObjSatellite sat)
                        (of_Z N 10)
                        (hyphen (sat_InstanceName sat) (ac_InstanceName ac))
                        results)
                (aircraft self) results)
        (satellites self) results) (fun results =>
  foldM (fun results gs =>
           foldM (fun results ac =>
                    link compute_access self (ObjFacility gs) (ObjAircraft ac)
                         min_elevation_deg
                         (hyphen (ac_InstanceName ac) (fac_InstanceName gs))
                         results)
                 (aircraft self) results)
        (ground_stations self) results)).

(** ** Export *)

Inductive Cell : Type :=
| CellStr (s : string)
| CellNum (x : F).

(** A row dictionary of [export_results_to_csv]. *)
Definition row_of (link : string) (interval : Interval F)
  : list (string * Cell) :=
  [ ("Link", CellStr link);
    ("Start Time", CellStr (start interval));
    ("Stop Time", CellStr (stop interval));
    ("Duration (sec)", CellNum (duration interval)) ]%string.

(** [pd.DataFrame(data)] for a list of dictionaries with the same keys, and
    what [to_csv(index=False)] writes of it: the column names, then a line
    of values per row. *)
Record DataFrame : Type := {
  columns : list string;
  values : list (list Cell)
}.

Definition pd_DataFrame (data : list (list (string * Cell))) : DataFrame :=
  {| columns := match data with
                | [] => []
                | r :: _ => dict_keys r
                end;
     values := map (map snd) data |}.

(** [export_results_to_csv] (33: lines 277-295, 88: lines 302-329): the
    list [data] and the frame written to the file. *)
Definition export_data (results : list (string * list (Interval F)))
  : list (list (string * Cell)) :=
  fold_left (fun data (item : string * list (Interval F)) =>
               let (link, intervals) := item in
               fold_left (fun data interval => data ++ [row_of link interval])
                         intervals data)
            results [].

Definition export_results_to_csv (results : list (string * list (Interval F)))
  : DataFrame :=
  let data := export_data results in
  pd_DataFrame data.

(** ** Report *)

Variable format_2f : F -> string.

(** [x / n] for a float [x] and an int [n]. *)
Definition truediv_int (x : F) (n : Z) : result F :=
  if Z.eqb n 0 then Raise ZeroDivisionError else Ok (n_div N x (of_Z N n)).

(** [sum(l)]. *)
Definition py_sum (l : list F) : F := fold_left (n_add N) l (of_Z N 0).

(** The truth value of a list. *)
Definition truthy {A : Type} (l : list A) : bool :=
  negb (Nat.eqb (List.length l) 0).

(** The body of the loop of [generate_report] (33: lines 349-358, 88:
    lines 401-410): the strings written for one link. *)
Definition report_link (item : string * list (Interval F))
  : result (list string) :=
  let (link, intervals) := item in
  let header := (nl ++ link ++ ":" ++ nl)%string in
  if truthy intervals then
    let total_duration := py_sum (map (@duration F) intervals) in
    bind (truediv_int total_duration 3600) (fun hours =>
    bind (truediv_int total_duration (Z.of_nat (List.length intervals)))
         (fun average =>
    Ok [ header;
         ("  Number of access periods: " ++ str_nat (List.length intervals)
          ++ nl)%string;
         ("  Total access time: " ++ format_2f total_duration ++ " seconds ("
          ++ format_2f hours ++ " hours)" ++ nl)%string;
         ("  Average access duration: " ++ format_2f average ++ " seconds"
          ++ nl)%string ]))
  else
    Ok [ header; ("  No access periods found" ++ nl)%string ].

(** The loop itself, from what was written before it. *)
Definition write_links (written : list string)
    (results : list (string * list (Interval F))) : result (list string) :=
  foldM (fun written item => bind (report_link item) (fun w => Ok (written ++ w)))
        results written.

(** [generate_report] (33: lines 328-360, 88: lines 371-412): the strings
    passed to [f.write], in order. *)
Definition generate_report (self : SatelliteNetworkAnalyzer F)
    (results : list (string * list (Interval F))) : result (list string) :=
  let rule70 := repeat_string "=" 70 in
  let dash70 := repeat_string "-" 70 in
  bind (scenario_of self) (fun sc =>
  let preamble :=
    [ (rule70 ++ nl)%string;
      ("SATELLITE COMMUNICATION NETWORK ANALYSIS REPORT" ++ nl)%string;
      (rule70 ++ nl ++ nl)%string;
      ("Scenario: " ++ scenario_name self ++ nl)%string;
      ("Analysis Period: " ++ StartTime sc ++ " to " ++ StopTime sc
       ++ nl ++ nl)%string;
      ("Network Components:" ++ nl)%string;
      ("  Satellites: " ++ str_nat (List.length (satellites self)) ++ nl)%string;
      ("  Ground Stations: " ++ str_nat (List.length (ground_stations self))
       ++ nl)%string;
      ("  Aircraft: " ++ str_nat (List.length (aircraft self)) ++ nl ++ nl)%string;
      (dash70 ++ nl)%string;
      ("ACCESS ANALYSIS RESULTS" ++ nl)%string;
      (dash70 ++ nl ++ nl)%string ] in
  write_links preamble results).
End Shared.

Arguments Cell : clear implicits.
Arguments DataFrame : clear implicits.
Arguments Links : clear implicits.

(* ================================================================== *)
(** * Satellite Network Analysis33.py *)

Module Script33.
Section Methods.
Context {F : Type} (N : Numeric F) (h : Host F).

Local Notation "x + y" := (n_add N x y).
Local Notation "x - y" := (n_sub N x y).
Local Notation "x * y" := (n_mul N x y).
Local Notation "x / y" := (n_div N x y).

(** Lines 55-101.  [self.scenario.Children] raises [AttributeError] while
    [self.scenario] is [None]; the calls on the host after it return. *)
Definition create_satellite (self : SatelliteNetworkAnalyzer F) (name : string)
    (semi_major_axis_km eccentricity inclination_deg raan_deg arg_perigee_deg
     true_anomaly_deg : F)
  : result (Satellite F * SatelliteNetworkAnalyzer F) :=
  bind (scenario_of self) (fun _ =>
  let satellite := New_Satellite h name in
  let satellite := SetPropagatorType ePropagatorJ2Perturbation satellite in
  let initial_state := sat_InitialState satellite in
  let coe_axes := ConvertTo_Classical initial_state in
  let coe_axes := set_SizeShapeType eSizeShapeSemimajorAxis coe_axes in
  let coe_axes := set_SemiMajorAxis semi_major_axis_km coe_axes in
  let coe_axes := set_Eccentricity eccentricity coe_axes in
  let coe_axes := set_Inclination inclination_deg coe_axes in
  let coe_axes := set_ArgOfPerigee arg_perigee_deg coe_axes in
  let coe_axes := set_AscNode raan_deg coe_axes in
  let coe_axes := set_LocationType eLocationTrueAnomaly coe_axes in
  let coe_axes := set_LocationValue true_anomaly_deg coe_axes in
  let satellite := Assign coe_axes satellite in
  let satellite := Propagate satellite in
  Ok (satellite, append_satellite satellite self)).

(** Lines 159-176: numpy. *)
Definition _calculate_destination (lat1 lon1 distance_km bearing_deg : F)
  : F * F :=
  let R := of_Z N 6371 in
  let lat1_rad := radians N lat1 in
  let lon1_rad := radians N lon1 in
  let bearing_rad := radians N bearing_deg in
  let lat2_rad :=
    np_arcsin N (np_sin N lat1_rad * np_cos N (distance_km / R)
                 + np_cos N lat1_rad * np_sin N (distance_km / R)
                   * np_cos N bearing_rad) in
  let lon2_rad :=
    lon1_rad + np_arctan2 N (np_sin N bearing_rad
                             * np_sin N (distance_km / R) * np_cos N lat1_rad)
                            (np_cos N (distance_km / R)
                             - np_sin N lat1_rad * np_sin N lat2_rad) in
  (degrees N lat2_rad, degrees N lon2_rad).

(** Lines 118-157.  [self.scenario.Children] raises [AttributeError] while
    [self.scenario] is [None]. *)
Definition create_aircraft (self : SatelliteNetworkAnalyzer F) (name : string)
    (latitude_start longitude_start altitude_m speed_mps heading_deg : F)
  : result (Aircraft F * SatelliteNetworkAnalyzer F) :=
  bind (scenario_of self) (fun _ =>
  let aircraft := New_Aircraft h name in
  let aircraft := SetRouteType ePropagatorGreatArc aircraft in
  let (wp1, aircraft) := Waypoints_Add h aircraft in
  let aircraft := write_waypoint wp1 (set_Latitude latitude_start) aircraft in
  let aircraft := write_waypoint wp1 (set_Longitude longitude_start) aircraft in
  let aircraft := write_waypoint wp1 (set_Altitude altitude_m) aircraft in
  let aircraft := write_waypoint wp1 (set_Speed speed_mps) aircraft in
  let distance_km := of_Z N 1000 in
  let (lat2, lon2) :=
    _calculate_destination latitude_start longitude_start distance_km
                           heading_deg in
  let (wp2, aircraft) := Waypoints_Add h aircraft in
  let aircraft := write_waypoint wp2 (set_Latitude lat2) aircraft in
  let aircraft := write_waypoint wp2 (set_Longitude lon2) aircraft in
  let aircraft := write_waypoint wp2 (set_Altitude altitude_m) aircraft in
  let aircraft := write_waypoint wp2 (set_Speed speed_mps) aircraft in
  let aircraft := Route_Propagate aircraft in
  Ok (aircraft, append_aircraft aircraft self)).

(** Lines 178-196. *)
Definition compute_access (from_object to_object : StkObject F)
    (min_elevation_deg : F) : Access F :=
  let access := GetAccessToObject from_object to_object in
  let access :=
    if String.eqb (ClassName from_object) "Facility"
    then enable_ElevationMin min_elevation_deg access
    else access in
  let access := ComputeAccess access in
  access.

(** Lines 225-275. *)
Definition analyze_network (self : SatelliteNetworkAnalyzer F)
    (min_elevation_deg : F) : result (Links F) :=
  analyze_network_with N h compute_access self min_elevation_deg.
End Methods.
End Script33.

(* ================================================================== *)
(** * Satellite Network Analysis88.py *)

Module Script88.
Section Methods.
Context {F : Type} (N : Numeric F) (h : Host F).

Local Notation "x + y" := (n_add N x y).
Local Notation "x - y" := (n_sub N x y).
Local Notation "x * y" := (n_mul N x y).
Local Notation "x / y" := (n_div N x y).

(** Lines 58-109.  As in the first script, with the RAAN form of the
    ascending node selected before its value is written. *)
Definition create_satellite (self : SatelliteNetworkAnalyzer F) (name : string)
    (semi_major_axis_km eccentricity inclination_deg raan_deg arg_perigee_deg
     true_anomaly_deg : F)
  : result (Satellite F * SatelliteNetworkAnalyzer F) :=
  bind (scenario_of self) (fun _ =>
  let satellite := New_Satellite h name in
  let satellite := SetPropagatorType ePropagatorJ2Perturbation satellite in
  let initial_state := sat_InitialState satellite in
  let coe_axes := ConvertTo_Classical initial_state in
  let coe_axes := set_SizeShapeType eSizeShapeSemimajorAxis coe_axes in
  let coe_axes := set_SemiMajorAxis semi_major_axis_km coe_axes in
  let coe_axes := set_Eccentricity eccentricity coe_axes in
  let coe_axes := set_AscNodeType eAscNodeRAAN coe_axes in
  let coe_axes := set_Inclination inclination_deg coe_axes in
  let coe_axes := set_ArgOfPerigee arg_perigee_deg coe_axes in
  let coe_axes := set_AscNode raan_deg coe_axes in
  let coe_axes := set_LocationType eLocationTrueAnomaly coe_axes in
  let coe_axes := set_LocationValue true_anomaly_deg coe_axes in
  let satellite := Assign coe_axes satellite in
  let satellite := Propagate satellite in
  Ok (satellite, append_satellite satellite self)).

(** Lines 167-195: the [math] module.  Python evaluates the operands left
    to right; the first call that raises ends the function. *)
Definition _calculate_destination (lat1 lon1 distance_km bearing_deg : F)
  : result (F * F) :=
  let R := of_Z N 6371 in
  let lat1_rad := radians N lat1 in
  let lon1_rad := radians N lon1 in
  let bearing_rad := radians N bearing_deg in
  let d_R := distance_km / R in
  (s1 <- math_sin N lat1_rad ;;
   c1 <- math_cos N d_R ;;
   c2 <- math_cos N lat1_rad ;;
   s2 <- math_sin N d_R ;;
   c3 <- math_cos N bearing_rad ;;
   lat2_rad <- math_asin N (s1 * c1 + c2 * s2 * c3) ;;
   s3 <- math_sin N bearing_rad ;;
   s4 <- math_sin N d_R ;;
   c4 <- math_cos N lat1_rad ;;
   c5 <- math_cos N d_R ;;
   s5 <- math_sin N lat1_rad ;;
   s6 <- math_sin N lat2_rad ;;
   a <- math_atan2 N (s3 * s4 * c4) (c5 - s5 * s6) ;;
   let lon2_rad := lon1_rad + a in
   let lat2 := degrees N lat2_rad in
   let lon2 := degrees N lon2_rad in
   Ok (lat2, lon2))%py.

(** Lines 126-165.  [self.scenario.Children] raises [AttributeError] while
    [self.scenario] is [None]; an exception of [_calculate_destination]
    ends the call. *)
Definition create_aircraft (self : SatelliteNetworkAnalyzer F) (name : string)
    (latitude_start longitude_start altitude_m speed_mps heading_deg : F)
  : result (Aircraft F * SatelliteNetworkAnalyzer F) :=
  bind (scenario_of self) (fun _ =>
  let aircraft := New_Aircraft h name in
  let aircraft := SetRouteType ePropagatorGreatArc aircraft in
  let (wp1, aircraft) := Waypoints_Add h aircraft in
  let aircraft := write_waypoint wp1 (set_Latitude latitude_start) aircraft in
  let aircraft := write_waypoint wp1 (set_Longitude longitude_start) aircraft in
  let aircraft := write_waypoint wp1 (set_Altitude altitude_m) aircraft in
  let aircraft := write_waypoint wp1 (set_Speed speed_mps) aircraft in
  let distance_km := of_Z N 1000 in
  bind (_calculate_destination latitude_start longitude_start distance_km
                               heading_deg) (fun dest =>
  let (lat2, lon2) := dest in
  let (wp2, aircraft) := Waypoints_Add h aircraft in
  let aircraft := write_waypoint wp2 (set_Latitude lat2) aircraft in
  let aircraft := write_waypoint wp2 (set_Longitude lon2) aircraft in
  let aircraft := write_waypoint wp2 (set_Altitude altitude_m) aircraft in
  let aircraft := write_waypoint wp2 (set_Speed speed_mps) aircraft in
  let aircraft := Route_Propagate aircraft in
  Ok (aircraft, append_aircraft aircraft self))).

(** Lines 197-221.  Both [except:] clauses are bare: whatever the write
    raises is swallowed. *)
Definition compute_access (from_object to_object : StkObject F)
    (min_elevation_deg : F) : Access F :=
  let access := GetAccessToObject from_object to_object in
  let from_object :=
    if String.eqb (ClassName from_object) "Facility" then
      match write_ElevationAngleConstraint min_elevation_deg from_object with
      | Ok o => o
      | Raise _ =>
          match write_VO_MinElevationAngle min_elevation_deg from_object with
          | Ok o => o
          | Raise _ => from_object
          end
      end
    else from_object in
  let access := with_from from_object access in
  let access := ComputeAccess access in
  access.

(** Lines 250-300. *)
Definition analyze_network (self : SatelliteNetworkAnalyzer F)
    (min_elevation_deg : F) : result (Links F) :=
  analyze_network_with N h compute_access self min_elevation_deg.
End Methods.
End Script88.

(* ================================================================== *)
(** * Vocabulary of the statements *)

Section Vocabulary.
Context {F : Type}.

Definition waypoint_at (lat lon alt speed : F) : Waypoint F :=
  {| Latitude := lat; Longitude := lon; Altitude := alt; Speed := speed |}.

(** A route of two waypoints at one altitude and speed. *)
Definition two_leg_route (lat lon alt speed : F) (dest : F * F)
  : list (Waypoint F) :=
  [ waypoint_at lat lon alt speed;
    waypoint_at (fst dest) (snd dest) alt speed ].

(** The six classical elements of an orbit state, in the order of the
    parameters of [create_satellite]. *)
Definition six_elements (c : ClassicalElements F) : list F :=
  [ SemiMajorAxis c; Eccentricity c; Inclination c; AscNode c;
    ArgOfPerigee c; LocationValue c ].

(** The keys of the pairs of the three products as the specification
    writes them, ["<sat>-<gs>"], ["<sat>-<aircraft>"] and
    ["<aircraft>-<gs>"], in the order satellites by ground stations,
    satellites by aircraft, ground stations by aircraft. *)
Definition product_keys (self : SatelliteNetworkAnalyzer F) : list string :=
  flat_map (fun sat => map (fun gs => (sat_InstanceName sat ++ "-"
                                       ++ fac_InstanceName gs)%string)
                           (ground_stations self)) (satellites self)
  ++ flat_map (fun sat => map (fun ac => (sat_InstanceName sat ++ "-"
                                          ++ ac_InstanceName ac)%string)
                              (aircraft self)) (satellites self)
  ++ flat_map (fun gs => map (fun ac => (ac_InstanceName ac ++ "-"
                                         ++ fac_InstanceName gs)%string)
                             (aircraft self)) (ground_stations self).

(** A call of [compute_access] with the key its result is stored under:
    [(from_object, to_object, min_elevation_deg, key)]. *)
Definition Call : Type := (StkObject F * StkObject F * F * string)%type.

Definition call_key (c : Call) : string := snd c.

Definition access_of
    (compute_access : StkObject F -> StkObject F -> F -> Access F) (c : Call)
  : Access F :=
  compute_access (fst (fst (fst c))) (snd (fst (fst c))) (snd (fst c)).

(** The calls of the three products, in the same order, each with the key
    of its pair. *)
Definition product_calls (N : Numeric F) (self : SatelliteNetworkAnalyzer F)
    (m : F) : list Call :=
  flat_map (fun sat => map (fun gs => (ObjFacility gs, ObjSatellite sat, m,
                                        (sat_InstanceName sat ++ "-"
                                         ++ fac_InstanceName gs)%string))
                           (ground_stations self)) (satellites self)
  ++ flat_map (fun sat => map (fun ac => (ObjAircraft ac, ObjSatellite sat,
                                           of_Z N 10,
                                           (sat_InstanceName sat ++ "-"
                                            ++ ac_InstanceName ac)%string))
                              (aircraft self)) (satellites self)
  ++ flat_map (fun gs => map (fun ac => (ObjFacility gs, ObjAircraft ac, m,
                                          (ac_InstanceName ac ++ "-"
                                           ++ fac_InstanceName gs)%string))
                             (aircraft self)) (ground_stations self).

(** One pass of a loop body of [analyze_network], as a function. *)
Definition record_call (h : Host F)
    (compute_access : StkObject F -> StkObject F -> F -> Access F)
    (self : SatelliteNetworkAnalyzer F) (st : Links F) (c : Call) : Links F :=
  (dict_set (call_key c)
            (snd (read_intervals self
                    (access_data h (access_of compute_access c)) []))
            (fst st),
   snd st ++ [access_of compute_access c]).

(** The rows of one link, the header of the file, and a line of values. *)
Definition rows_of_link (item : string * list (Interval F))
  : list (list (string * Cell F)) :=
  map (row_of (fst item)) (snd item).

Definition csv_header : list string :=
  [ "Link"; "Start Time"; "Stop Time"; "Duration (sec)" ]%string.

Definition csv_line (link : string) (interval : Interval F) : list (Cell F) :=
  [ CellStr link; CellStr (start interval); CellStr (stop interval);
    CellNum (duration interval) ].

(** The three datasets, when every step of the retrieval returns. *)
Definition datasets (self : SatelliteNetworkAnalyzer F) (d : AccessData F)
  : result (list string * list string * list F) :=
  bind (Item_Access_Data d) (fun _ =>
  bind (scenario_of self) (fun _ =>
  bind (Exec d) (fun _ =>
  bind (StartTime_values d) (fun st =>
  bind (StopTime_values d) (fun sp =>
  bind (Duration_values d) (fun du =>
  Ok (st, sp, du))))))).

(** Records of the values at equal indices, as far as all three lists go. *)
Fixpoint zip3 (st sp : list string) (du : list F) : list (Interval F) :=
  match st, sp, du with
  | s :: st', p :: sp', u :: du' =>
      {| start := s; stop := p; duration := u |} :: zip3 st' sp' du'
  | _, _, _ => []
  end.

(** Whether the script left a minimum elevation on the access or on its
    first end. *)
Definition elevation_constraint (a : Access F) : option F :=
  match acc_ElevationMin a with
  | Some v => Some v
  | None =>
      match acc_from a with
      | ObjFacility f =>
          match ElevationAngleConstraint f with
          | Some v => Some v
          | None => VO_MinElevationAngle f
          end
      | _ => None
      end
  end.

Definition is_Facility (o : StkObject F) : bool :=
  String.eqb (ClassName o) "Facility".
End Vocabulary.

(* ================================================================== *)
(** * A sample scenario *)

(** A host over binary64 with fixed answers, and the objects of [main] as
    far as the examples need them. *)
Definition sample_state : ClassicalElements float :=
  {| SizeShapeType := eSizeShapeAltitude; SemiMajorAxis := 6678.5;
     Eccentricity := 0; AscNodeType := eAscNodeLAN; Inclination := 28.5;
     ArgOfPerigee := 0; AscNode := 0; LocationType := eLocationMeanAnomaly;
     LocationValue := 0 |}%float.

Definition sample_access_data : AccessData float :=
  {| Item_Access_Data := Ok tt;
     Exec := Ok tt;
     StartTime_values := Ok [ "1 Jan 2025 01:10:00.000";
                              "1 Jan 2025 02:45:30.000" ]%string;
     StopTime_values := Ok [ "1 Jan 2025 01:18:30.000";
                             "1 Jan 2025 02:52:00.000" ]%string;
     Duration_values := Ok [ 510; 390 ]%float |}.

Definition sample_host : Host float :=
  {| new_satellite_state := fun _ => sample_state;
     new_satellite_propagator := ePropagatorTwoBody;
     new_waypoint := waypoint_at 0 0 0 0;
     new_facility_position := (0, 0, 0);
     new_facility_accepts := fun _ => (false, false);
     new_aircraft_route := ePropagatorGreatArc;
     access_data := fun _ => sample_access_data |}%float.

Definition sample_self : SatelliteNetworkAnalyzer float :=
  {| scenario_name := "MultiLayer_SatComm";
     scenario := Some {| StartTime := "1 Jan 2025 00:00:00.000";
                         StopTime := "02 Jan 2025 00:00:00.000" |};
     satellites := []; ground_stations := []; aircraft := [] |}.

(* ================================================================== *)
(** * The remaining methods *)

(** What the methods below need besides the scenario's objects: Python's
    [datetime], the file system, and the root object of the host. *)
Section Environment.
Variable F : Type.

(** [datetime.strptime] with the format ["%d %b %Y %H:%M:%S.%f"], the sum
    with [timedelta(hours=h)], and [strftime] with the same format; [DT] is
    the type of the date-times. *)
Record Datetime : Type := {
  DT : Type;
  strptime : string -> result DT;
  plus_hours : DT -> F -> result DT;
  strftime : DT -> string
}.

(** [os.path.expanduser("~")], [os.path.join], [os.path.exists],
    [os.makedirs], and of the root object: the period a new scenario starts
    with, [SaveScenarioAs], the scenario's [Unload], [ExecuteCommand]. *)
Record Desktop : Type := {
  expanduser_home : string;
  path_join : list string -> string;
  path_exists : string -> bool;
  makedirs : string -> result unit;
  NewScenario : string -> Scenario;
  SaveScenarioAs : string -> result unit;
  Unload : result unit;
  ExecuteCommand : string -> result unit
}.

(** A horizontal bar of the timeline, [ax.barh(y, width, left=..., color=...)],
    the color given by its row in the color table. *)
Record Bar : Type := {
  bar_y : nat;
  bar_width : F;
  bar_left : nat;
  bar_color : nat
}.

Record Figure : Type := {
  bars : list Bar;
  yticks : list nat;
  yticklabels : list string
}.
End Environment.

Arguments DT {F} d.
Arguments strptime {F} d s.
Arguments strftime {F} d t.
Arguments plus_hours {F} d t hours.

(** [s[:-3]]: all but the last three characters. *)
Definition drop_last3 (s : string) : string :=
  String.substring 0 (String.length s - 3) s.

(** [enumerate(l)]. *)
Definition enumerate {A : Type} (l : list A) : list (nat * A) :=
  combine (seq 0 (List.length l)) l.

Section Remaining.
Context {F : Type} (N : Numeric F).

(** [__init__] (33: lines 19-28, 88: lines 18-31), after the application
    has started. *)
Definition __init__ (name : string) : SatelliteNetworkAnalyzer F :=
  {| scenario_name := name; scenario := None; satellites := [];
     ground_stations := []; aircraft := [] |}.

Definition with_scenario (sc : option Scenario)
    (self : SatelliteNetworkAnalyzer F) : SatelliteNetworkAnalyzer F :=
  {| scenario_name := scenario_name self; scenario := sc;
     satellites := satellites self; ground_stations := ground_stations self;
     aircraft := aircraft self |}.

(** [create_scenario] (33: lines 30-53, 88: lines 33-56).  The analyzer is
    returned with the outcome: what was done before an exception stays
    done. *)
Definition create_scenario (dt : Datetime F) (dk : Desktop)
    (self : SatelliteNetworkAnalyzer F) (start_time : string)
    (duration_hours : F) : result unit * SatelliteNetworkAnalyzer F :=
  let self := with_scenario (Some (NewScenario dk (scenario_name self))) self in
  match strptime dt start_time with
  | Raise e => (Raise e, self)
  | Ok start_dt =>
      match plus_hours dt start_dt duration_hours with
      | Raise e => (Raise e, self)
      | Ok stop_dt =>
          let stop_time := drop_last3 (strftime dt stop_dt) in
          let self :=
            with_scenario
              (Some {| StartTime := start_time; StopTime := stop_time |}) self in
          (Ok tt, self)
      end
  end.

(** The body of the inner loop of [visualize_access_timeline]: one bar,
    [colors[idx]] looked up in the color table. *)
Definition draw_bar (colors : list nat) (idx : nat) (drawn : list (Bar F))
    (interval : Interval F) : result (list (Bar F)) :=
  let start_hour := idx * 2 in
  let duration_hour := n_div N (duration interval) (of_Z N 3600) in
  bind (getitem colors idx) (fun color =>
  Ok (drawn ++ [ {| bar_y := idx; bar_width := duration_hour;
                    bar_left := start_hour; bar_color := color |} ])).

(** The body of the outer loop, over [enumerate(results.items())]. *)
Definition draw_link (colors : list nat) (drawn : list (Bar F))
    (entry : nat * (string * list (Interval F))) : result (list (Bar F)) :=
  let (idx, item) := entry in
  let (link, intervals) := item in
  foldM (draw_bar colors idx) intervals drawn.

(** [visualize_access_timeline] (33: lines 297-326, 88: lines 331-369): the
    bars drawn and the ticks set.  The color table has one row per link. *)
Definition visualize_access_timeline
    (results : list (string * list (Interval F))) : result (Figure F) :=
  let link_names := dict_keys results in
  let y_positions := seq 0 (List.length link_names) in
  let colors := seq 0 (List.length link_names) in
  bind (foldM (draw_link colors) (enumerate results) []) (fun drawn =>
  Ok {| bars := drawn; yticks := y_positions; yticklabels := link_names |}).

(** [save_scenario] (88: lines 414-442). *)
Definition save_scenario (dk : Desktop) (self : SatelliteNetworkAnalyzer F)
    (filepath : option string) : result (option string) :=
  bind (match filepath with
        | None =>
            let user_home := expanduser_home dk in
            let output_dir :=
              path_join dk [user_home; "Desktop"; "STK_Analysis_Output"]%string in
            bind (if negb (path_exists dk output_dir)
                  then makedirs dk output_dir else Ok tt) (fun _ =>
            Ok (path_join dk [output_dir; (scenario_name self ++ ".sc")%string]))
        | Some p => Ok p
        end) (fun filepath =>
  match SaveScenarioAs dk filepath with
  | Ok _ => Ok (Some filepath)
  | Raise _ =>
      match bind (scenario_of self) (fun _ => Unload dk) with
      | Ok _ => Ok (Some filepath)
      | Raise _ => Ok None
      end
  end).

(** [open_3d_graphics] (88: lines 444-453) and [zoom_to_objects] (88: lines
    455-461): the commands sent to the host, in a block under [try]. *)
Definition send (dk : Desktop) (command : string) : Block (list string) unit :=
  (_ <- modify (fun sent => sent ++ [command]) ;;
   lift (ExecuteCommand dk command))%block.

Definition open_3d_graphics (dk : Desktop) : result unit * list string :=
  try_except
    (_ <- send dk "Graphics * CreateWindow" ;;
     send dk "Window3D * ViewVolume 0 45000000")%block
    (fun _ => block_ret tt) [].

Definition zoom_to_objects (dk : Desktop) : result unit * list string :=
  try_except (send dk "VO * View ZoomToAllObjects") (fun _ => block_ret tt) [].

(** The bars of one link, and the strings [generate_report] writes before
    its loop. *)
Definition bars_of_link (entry : nat * (string * list (Interval F)))
  : list (Bar F) :=
  map (fun interval =>
         {| bar_y := fst entry;
            bar_width := n_div N (duration interval) (of_Z N 3600);
            bar_left := fst entry * 2;
            bar_color := fst entry |})
      (snd (snd entry)).

(** The number of strings [generate_report] writes for a link. *)
Definition lines_of_link (item : string * list (Interval F)) : nat :=
  if truthy (snd item) then 4 else 2.

(** The entry [analyze_network] stores for a call: its key, with the list
    [get_access_intervals] returns for its access. *)
Definition entry_of (h : Host F)
    (compute_access : StkObject F -> StkObject F -> F -> Access F)
    (self : SatelliteNetworkAnalyzer F) (c : Call)
  : string * list (Interval F) :=
  (call_key c,
   match get_access_intervals self
           (access_data h (access_of compute_access c)) with
   | Ok intervals => intervals
   | Raise _ => []
   end).

(** The last value stored under a key by a sequence of entries. *)
Fixpoint last_entry (k : string) (entries : list (string * list (Interval F)))
  : option (list (Interval F)) :=
  match entries with
  | [] => None
  | (k', v) :: rest =>
      match last_entry k rest with
      | Some v' => Some v'
      | None => if String.eqb k' k then Some v else None
      end
  end.
End Remaining.

(* ================================================================== *)
(** * Sample networks *)

(** The analyzer a creation call leaves, when it returns. *)
Definition analyzer_after {A : Type}
    (r : result (A * SatelliteNetworkAnalyzer float))
  : SatelliteNetworkAnalyzer float :=
  match r with
  | Ok (_, self) => self
  | Raise _ => sample_self
  end.

(** The sample scenario after one aircraft, one satellite and one ground
    station were created, and the same analyzer with its scenario attribute
    back at [None]. *)
Definition sample_network : SatelliteNetworkAnalyzer float :=
  analyzer_after
    (create_ground_station sample_host
       (analyzer_after
          (Script33.create_satellite sample_host
             (analyzer_after
                (Script33.create_aircraft (binary64 sample_libm sample_libm)
                   sample_host sample_self "Flight_BA200" 0 0 11000 240 0))
             "LEO_Sat_1" 7000 0 98 0 0 0))
       "GS_London" 0 0 11)%float.

Definition network_without_scenario : SatelliteNetworkAnalyzer float :=
  with_scenario None sample_network.

(** The sample scenario after a satellite was created and then a ground
    station and an aircraft of one name. *)
Definition twin_network : SatelliteNetworkAnalyzer float :=
  analyzer_after
    (Script33.create_aircraft (binary64 sample_libm sample_libm) sample_host
       (analyzer_after
          (create_ground_station sample_host
             (analyzer_after
                (Script33.create_satellite sample_host sample_self
                   "LEO_Sat_1" 7000 0 98 0 0 0))
             "GS_London" 0 0 11))
       "GS_London" 0 0 11000 240 0)%float.

(** A host that reports the two sample intervals for an access computed
    from a facility and none for any other access. *)
Definition no_access_data : AccessData float :=
  {| Item_Access_Data := Ok tt;
     Exec := Ok tt;
     StartTime_values := Ok [];
     StopTime_values := Ok [];
     Duration_values := Ok [] |}.

Definition facility_host : Host float :=
  {| new_satellite_state := new_satellite_state sample_host;
     new_satellite_propagator := new_satellite_propagator sample_host;
     new_waypoint := new_waypoint sample_host;
     new_facility_position := new_facility_position sample_host;
     new_facility_accepts := new_facility_accepts sample_host;
     new_aircraft_route := new_aircraft_route sample_host;
     access_data := fun a => match acc_from a with
                             | ObjFacility _ => sample_access_data
                             | _ => no_access_data
                             end |}.

(** The intervals [get_access_intervals] returns for a computed access. *)
Definition intervals_of {F : Type} (h : Host F)
    (self : SatelliteNetworkAnalyzer F) (a : Access F) : list (Interval F) :=
  match get_access_intervals self (access_data h a) with
  | Ok intervals => intervals
  | Raise _ => []
  end.

(* ================================================================== *)
(** * Sequences of creation calls *)

Section Creations.
Context {F : Type} (h : Host F).

(** A call of one of the three creation methods, with its arguments. *)
Inductive Creation : Type :=
| NewSatellite (name : string) (a e i raan argp nu : F)
| NewGroundStation (name : string) (lat lon alt : F)
| NewAircraft (name : string) (lat lon alt speed heading : F).

(** One call on the analyzer, over a script's [create_satellite] and
    [create_aircraft]; the object returned is dropped. *)
Definition creation_step
    (create_satellite :
       SatelliteNetworkAnalyzer F -> string -> F -> F -> F -> F -> F -> F ->
       result (Satellite F * SatelliteNetworkAnalyzer F))
    (create_aircraft :
       SatelliteNetworkAnalyzer F -> string -> F -> F -> F -> F -> F ->
       result (Aircraft F * SatelliteNetworkAnalyzer F))
    (self : SatelliteNetworkAnalyzer F) (c : Creation)
  : result (SatelliteNetworkAnalyzer F) :=
  match c with
  | NewSatellite name a e i raan argp nu =>
      bind (create_satellite self name a e i raan argp nu)
           (fun r => Ok (snd r))
  | NewGroundStation name lat lon alt =>
      bind (create_ground_station h self name lat lon alt)
           (fun r => Ok (snd r))
  | NewAircraft name lat lon alt speed heading =>
      bind (create_aircraft self name lat lon alt speed heading)
           (fun r => Ok (snd r))
  end.

(** The names the calls of each kind were given, in call order. *)
Definition satellite_names (cs : list Creation) : list string :=
  flat_map (fun c => match c with
                     | NewSatellite name _ _ _ _ _ _ => [name]
                     | _ => []
                     end) cs.
Definition ground_station_names (cs : list Creation) : list string :=
  flat_map (fun c => match c with
                     | NewGroundStation name _ _ _ => [name]
                     | _ => []
                     end) cs.
Definition aircraft_names (cs : list Creation) : list string :=
  flat_map (fun c => match c with
                     | NewAircraft name _ _ _ _ _ => [name]
                     | _ => []
                     end) cs.

(** What one returned call leaves behind. *)
Definition grown_by (c : Creation) (self self' : SatelliteNetworkAnalyzer F)
  : Prop :=
  scenario self' = scenario self
  /\ scenario_name self' = scenario_name self
  /\ map (@sat_InstanceName F) (satellites self')
     = map (@sat_InstanceName F) (satellites self) ++ satellite_names [c]
  /\ map (@fac_InstanceName F) (ground_stations self')
     = map (@fac_InstanceName F) (ground_stations self)
       ++ ground_station_names [c]
  /\ map (@ac_InstanceName F) (aircraft self')
     = map (@ac_InstanceName F) (aircraft self) ++ aircraft_names [c]
  /\ (Forall (fun ac => List.length (ac_Waypoints ac) = 2) (aircraft self) ->
      Forall (fun ac => List.length (ac_Waypoints ac) = 2) (aircraft self')).
End Creations.

(** The calls one after another, in each script; the first call that raises
    ends the sequence. *)
Definition creations33 {F : Type} (N : Numeric F) (h : Host F)
    (cs : list (@Creation F)) (self : SatelliteNetworkAnalyzer F)
  : result (SatelliteNetworkAnalyzer F) :=
  foldM (creation_step h (Script33.create_satellite h)
                       (Script33.create_aircraft N h)) cs self.
Definition creations88 {F : Type} (N : Numeric F) (h : Host F)
    (cs : list (@Creation F)) (self : SatelliteNetworkAnalyzer F)
  : result (SatelliteNetworkAnalyzer F) :=
  foldM (creation_step h (Script88.create_satellite h)
                       (Script88.create_aircraft N h)) cs self.

(** The calls [main] makes for its first satellite, ground station and
    aircraft. *)
Definition sample_creations : list (@Creation float) :=
  [ NewSatellite "LEO_Sat_1" 7000 0x1.0624dd2f1a9fcp-10 98 0 0 0;
    NewGroundStation "GS_NewYork" 0x1.45b3d07c84b5ep+5
                     (-0x1.280624dd2f1aap+6) 10;
    NewAircraft "Flight_AA100" 0x1.45b3d07c84b5ep+5 (-0x1.280624dd2f1aap+6)
                10000 250 45 ]%float.

(* ================================================================== *)
(** * Properties of [_calculate_destination] *)

(** The numpy version is the closed form over numpy's functions, in any
    arithmetic. *)
Lemma calculate_destination_33_is_closed_form :
  forall (F : Type) (N : Numeric F) (lat1 lon1 d b : F),
    Script33._calculate_destination N lat1 lon1 d b
    = numpy_destination N lat1 lon1 d b.
Proof. reflexivity. Qed.

Ltac split_domain_test :=
  match goal with
  | |- context [if ?c then Raise ValueError else _] =>
      destruct c; cbn [bind]; [right; reflexivity|]
  end.

(** The [math] version returns the closed form over the C library's
    functions, unless one of its calls raises. *)
Lemma calculate_destination_88_returns_or_raises :
  forall (F : Type) (N : Numeric F) (lat1 lon1 d b : F),
    Script88._calculate_destination N lat1 lon1 d b
    = Ok (math_destination N lat1 lon1 d b)
    \/ Script88._calculate_destination N lat1 lon1 d b = Raise ValueError.
Proof.
  intros F N lat1 lon1 d b.
  unfold Script88._calculate_destination.
  unfold math_sin, math_cos, math_asin, math_atan2.
  cbv zeta.
  repeat split_domain_test.
  left. reflexivity.
Qed.

(** ** Over the real numbers *)

(** The argument of the arcsine is a cosine of an angle between two unit
    vectors: it lies in [[-1, 1]]. *)
Lemma asin_argument_in_domain :
  forall a dl be : R,
    (-1 <= sin a * cos dl + cos a * sin dl * cos be <= 1)%R.
Proof.
  intros a dl be.
  pose proof (sin2_cos2 a) as Ha. pose proof (sin2_cos2 dl) as Hd.
  pose proof (COS_bound be) as Hb.
  unfold Rsqr in Ha, Hd.
  generalize dependent (cos be). generalize dependent (sin dl).
  generalize dependent (cos dl). generalize dependent (sin a).
  generalize dependent (cos a).
  intros c s Ha C S Hd k Hk.
  assert (Hkk : (k * k <= 1)%R) by nra.
  assert (Hcs : (0 <= (s * S * k - c * C) * (s * S * k - c * C))%R)
    by apply Rle_0_sqr.
  assert (HS : (S * S * (k * k) <= S * S)%R).
  { rewrite <- (Rmult_1_r (S * S)) at 2.
    apply Rmult_le_compat_l; [apply Rle_0_sqr | exact Hkk]. }
  assert (Hsq : ((s * C + c * S * k) * (s * C + c * S * k) <= 1)%R).
  { replace ((s * C + c * S * k) * (s * C + c * S * k))%R
      with ((s * s + c * c) * (C * C + S * S * (k * k))
            - (s * S * k - c * C) * (s * S * k - c * C))%R by ring.
    rewrite Ha. lra. }
  nra.
Qed.

Lemma Rasin_raises_false :
  forall x : R, (-1 <= x <= 1)%R -> Rasin_raises x = false.
Proof.
  intros x [H1 H2]. unfold Rasin_raises.
  destruct (Rle_dec (-1) x); [|contradiction].
  destruct (Rle_dec x 1); [reflexivity|contradiction].
Qed.

Lemma calculate_destination_88_over_reals :
  forall lat1 lon1 d b : R,
    Script88._calculate_destination exact_reals lat1 lon1 d b
    = Ok (Script33._calculate_destination exact_reals lat1 lon1 d b).
Proof.
  intros.
  destruct (calculate_destination_88_returns_or_raises exact_reals lat1 lon1 d b)
    as [H|H]; [exact H|].
  exfalso. revert H.
  unfold Script88._calculate_destination, math_sin, math_cos, math_asin,
    math_atan2.
  cbn [exact_reals sin_raises cos_raises asin_raises atan2_raises bind lib_sin
       lib_cos lib_asin lib_atan2 n_mul n_add n_sub n_div].
  rewrite Rasin_raises_false by apply asin_argument_in_domain.
  cbn [bind]. discriminate.
Qed.

Lemma degrees_radians_over_reals :
  forall x : R, degrees exact_reals (radians exact_reals x) = x.
Proof.
  intro x. unfold degrees, radians. cbn.
  field. apply PI_neq0.
Qed.

Lemma radians_quarter_turn :
  forall x : R, (-90 < x < 90)%R ->
    (- (PI / 2) < radians exact_reals x < PI / 2)%R.
Proof.
  intros x [H1 H2]. unfold radians. cbn.
  pose proof PI_RGT_0 as Hpi.
  replace (PI / 2)%R with (90 * (PI / 180))%R by field.
  assert (0 < PI / 180)%R by lra.
  split; nra.
Qed.

Lemma Ratan2_zero_right : forall x : R, (0 < x)%R -> Ratan2 0 x = 0%R.
Proof.
  intros x Hx. unfold Ratan2.
  destruct (Rlt_dec 0 x); [|contradiction].
  unfold Rdiv. rewrite Rmult_0_l. apply atan_0.
Qed.

Lemma zero_distance_33_over_reals :
  forall lat1 lon1 b : R, (-90 < lat1 < 90)%R ->
    Script33._calculate_destination exact_reals lat1 lon1 0%R b = (lat1, lon1).
Proof.
  intros lat1 lon1 b Hlat.
  pose proof (radians_quarter_turn Hlat) as Ha.
  unfold Script33._calculate_destination, np_sin, np_cos, np_arcsin, np_arctan2.
  cbv zeta.
  cbn [exact_reals npy_sin npy_cos npy_arcsin npy_arctan2 n_mul n_add n_sub
       n_div of_Z].
  set (a := radians exact_reals lat1) in *.
  replace (0 / 6371)%R with 0%R by field.
  rewrite sin_0, cos_0.
  replace (sin a * 1 + cos a * 0 * cos (radians exact_reals b))%R
    with (sin a) by ring.
  rewrite asin_sin by lra.
  replace (sin (radians exact_reals b) * 0 * cos a)%R with 0%R by ring.
  rewrite Ratan2_zero_right.
  - rewrite Rplus_0_r. subst a. rewrite !degrees_radians_over_reals.
    reflexivity.
  - pose proof (sin2_cos2 a) as H2. unfold Rsqr in H2.
    assert (0 < cos a)%R by (apply cos_gt_0; lra).
    nra.
Qed.

Lemma zero_distance_88_over_reals :
  forall lat1 lon1 b : R, (-90 < lat1 < 90)%R ->
    Script88._calculate_destination exact_reals lat1 lon1 0%R b
    = Ok (lat1, lon1).
Proof.
  intros lat1 lon1 b Hlat.
  rewrite calculate_destination_88_over_reals.
  rewrite (zero_distance_33_over_reals lon1 b Hlat). reflexivity.
Qed.

(** ** Over binary64 *)

(** Evaluate the binary64 arguments of the C functions, then apply the
    special values. *)
Ltac eval_arg f :=
  match goal with
  | |- context [f ?x] =>
      lazymatch x with
      | context [c_sin] => fail
      | context [c_cos] => fail
      | context [c_asin] => fail
      | context [c_atan2] => fail
      | _ => let v := eval vm_compute in x in progress change x with v
      end
  end.

Ltac eval_arg2 f :=
  match goal with
  | |- context [f ?y ?x] =>
      lazymatch constr:((y, x)) with
      | context [c_sin] => fail
      | context [c_cos] => fail
      | context [c_asin] => fail
      | context [c_atan2] => fail
      | _ => let v := eval vm_compute in y in
             let w := eval vm_compute in x in
             progress change (f y x) with (f v w)
      end
  end.

Ltac libm_step L :=
  first [ eval_arg (c_sin L) | eval_arg (c_cos L) | eval_arg (c_asin L)
        | eval_arg2 (c_atan2 L)
        | rewrite (c_sin_zero L) | rewrite (c_cos_zero L)
        | rewrite (c_asin_zero L) | rewrite (c_atan2_zero_one L)
        | let H := fresh "H" in
          pose proof (c_cos_infinity L) as H; unfold infinity, nan in H;
          rewrite H; clear H ].

(** A domain test on known values is evaluated; one on an unknown value of
    the C library is split. *)
Ltac domain_step :=
  match goal with
  | |- context [if ?c then Raise ValueError else _] =>
      lazymatch c with
      | context [c_sin] => destruct c; cbn [bind]; [reflexivity|]
      | context [c_cos] => destruct c; cbn [bind]; [reflexivity|]
      | context [c_asin] => destruct c; cbn [bind]; [reflexivity|]
      | context [c_atan2] => destruct c; cbn [bind]; [reflexivity|]
      | _ => let v := eval vm_compute in c in
             change c with v; cbv iota; cbn [bind]
      end
  end.

(** From latitude 0, longitude 3, over no distance, on any libraries:
    longitude 3.0000000000000004. *)
Lemma zero_distance_33_on_binary64 :
  forall P L : Libm,
    Script33._calculate_destination (binary64 P L) 0%float 3%float 0%float
                                    0%float
    = (0%float, 0x1.8000000000001p+1%float).
Proof.
  intros P L.
  unfold Script33._calculate_destination, np_sin, np_cos, np_arcsin, np_arctan2,
    radians, degrees.
  cbv zeta.
  cbn [binary64 npy_sin npy_cos npy_arcsin npy_arctan2 n_mul n_add n_sub n_div
       of_Z n_pi].
  repeat libm_step P.
  vm_compute. reflexivity.
Qed.

Lemma zero_distance_88_on_binary64 :
  forall P L : Libm,
    Script88._calculate_destination (binary64 P L) 0%float 3%float 0%float
                                    0%float
    = Ok (0%float, 0x1.8000000000001p+1%float).
Proof.
  intros P L.
  unfold Script88._calculate_destination, math_sin, math_cos, math_asin,
    math_atan2, radians, degrees.
  cbv zeta.
  cbn [binary64 lib_sin lib_cos lib_asin lib_atan2 n_mul n_add n_sub n_div of_Z
       n_pi sin_raises cos_raises asin_raises atan2_raises].
  repeat first [ libm_step L | domain_step ].
  vm_compute. reflexivity.
Qed.

(** The cosine of an infinite bearing is a domain error, whatever the other
    arguments. *)
Lemma infinite_bearing_raises :
  forall (P L : Libm) (lat1 lon1 d : float),
    Script88._calculate_destination (binary64 P L) lat1 lon1 d infinity
    = Raise ValueError.
Proof.
  intros P L lat1 lon1 d.
  unfold Script88._calculate_destination, math_sin, math_cos, math_asin,
    math_atan2, radians, degrees.
  cbv zeta.
  cbn [binary64 lib_sin lib_cos lib_asin lib_atan2 n_mul n_add n_sub n_div of_Z
       n_pi sin_raises cos_raises asin_raises atan2_raises].
  repeat first [ libm_step L | domain_step ].
  try reflexivity.
Qed.

(** [main]'s first aircraft: from (40.7128, -74.0060), 1000 km on heading
    45, to (46.721681445623844, -64.72744083818), with glibc's values. *)
Example flight_AA100_destination :
  forall P : Libm,
    Script88._calculate_destination (binary64 P sample_libm)
      0x1.45b3d07c84b5ep+5%float (-0x1.280624dd2f1aap+6)%float 1000%float
      45%float
    = Ok (0x1.75c600ebf8acep+5%float, (-0x1.02e8e64047082p+6)%float).
Proof. intro P. vm_compute. reflexivity. Qed.

(* ------------------------------------------------------------------ *)
(** ** C1: the closed form *)

(** C1.  From latitude 85.2700670040213, inside (-90, 90), due north over
    525.9445525215295 km, with the values glibc's libm returns, the argument
    of the arcsine rounds to 1.0000000000000002 and the [math] version
    raises [ValueError] where the claim has it return the closed-form
    destination, whatever numpy computes.  Its sibling returns a pair at
    the same input: the NaN coordinates of the closed form when numpy
    evaluates with the same values. *)
Theorem calculate_destination_raises_in_domain :
  in_latitude_range 0x1.55148c71d8003p+6%float = true
  /\ nonnegative 0x1.06f8e718d6a97p+9%float = true
  /\ (forall P : Libm,
         Script88._calculate_destination (binary64 P sample_libm)
           0x1.55148c71d8003p+6%float 0%float 0x1.06f8e718d6a97p+9%float
           0%float
         = Raise ValueError)
  /\ math_destination (binary64 sample_libm sample_libm)
       0x1.55148c71d8003p+6%float 0%float 0x1.06f8e718d6a97p+9%float 0%float
     = (nan, nan)
  /\ Script33._calculate_destination (binary64 sample_libm sample_libm)
       0x1.55148c71d8003p+6%float 0%float 0x1.06f8e718d6a97p+9%float 0%float
     = (nan, nan).
Proof.
  split; [reflexivity|]. split; [reflexivity|]. split; [|split].
  - intro P. vm_compute. reflexivity.
  - vm_compute. reflexivity.
  - vm_compute. reflexivity.
Qed.

(* ------------------------------------------------------------------ *)
(** ** C2: the two scripts against each other *)



(* ------------------------------------------------------------------ *)
(** ** C10: no distance *)

(** C10, counterexample.  On binary64, on any libraries, the destination
    over distance 0 from (0, 3) is (0, 3.0000000000000004): the round trip
    through radians does not give 3 back. *)
Lemma zero_distance_not_exact_on_binary64 :
  ~ exists P L : Libm,
      forall lat1 lon1 b : float,
        in_latitude_range lat1 = true ->
        Script33._calculate_destination (binary64 P L) lat1 lon1 0%float b
        = (lat1, lon1).
Proof.
  intros (P & L & H).
  specialize (H 0%float 3%float 0%float eq_refl).
  rewrite zero_distance_33_on_binary64 in H.
  discriminate H.
Qed.

(** C10, amended.  Over the real numbers, for a latitude strictly between
    -90 and 90, any longitude and any bearing, both versions return the
    starting point over distance 0. *)
Theorem zero_distance_identity_over_reals :
  forall lat1 lon1 b : R,
    (-90 < lat1 < 90)%R ->
    Script33._calculate_destination exact_reals lat1 lon1 0%R b = (lat1, lon1)
    /\ Script88._calculate_destination exact_reals lat1 lon1 0%R b
       = Ok (lat1, lon1).
Proof.
  intros lat1 lon1 b Hlat. split.
  - apply zero_distance_33_over_reals. exact Hlat.
  - apply zero_distance_88_over_reals. exact Hlat.
Qed.

(** C10, witness: latitude 45, longitude -74, bearing 30. *)
Lemma zero_distance_identity_witness :
  (-90 < 45 < 90)%R
  /\ Script33._calculate_destination exact_reals 45%R (-74)%R 0%R 30%R
     = (45%R, (-74)%R)
  /\ Script88._calculate_destination exact_reals 45%R (-74)%R 0%R 30%R
     = Ok (45%R, (-74)%R).
Proof.
  assert (H : (-90 < 45 < 90)%R) by lra.
  split; [exact H|].
  exact (zero_distance_identity_over_reals (-74)%R 30%R H).
Defined.

(* ================================================================== *)
(** * Properties of [create_aircraft] *)

Lemma create_aircraft_33_route :
  forall (F : Type) (N : Numeric F) (h : Host F)
         (self : SatelliteNetworkAnalyzer F) (name : string)
         (lat lon alt speed heading : F),
    Script33.create_aircraft N h self name lat lon alt speed heading
    = match scenario self with
      | Some _ =>
          let dest :=
            Script33._calculate_destination N lat lon (of_Z N 1000) heading in
          let route := two_leg_route lat lon alt speed dest in
          let ac := {| ac_InstanceName := name;
                       ac_RouteType := ePropagatorGreatArc;
                       ac_Waypoints := route; ac_Propagated := Some route |} in
          Ok (ac, append_aircraft ac self)
      | None => Raise AttributeError
      end.
Proof.
  intros.
  unfold Script33.create_aircraft, scenario_of.
  destruct (scenario self) as [sc|]; [|reflexivity]. cbn [bind].
  destruct (Script33._calculate_destination N lat lon (of_Z N 1000) heading)
    as [lat2 lon2].
  reflexivity.
Qed.

Lemma create_aircraft_88_route :
  forall (F : Type) (N : Numeric F) (h : Host F)
         (self : SatelliteNetworkAnalyzer F) (name : string)
         (lat lon alt speed heading : F),
    Script88.create_aircraft N h self name lat lon alt speed heading
    = match scenario self with
      | Some _ =>
          match Script88._calculate_destination N lat lon (of_Z N 1000)
                                                heading with
          | Ok dest =>
              let route := two_leg_route lat lon alt speed dest in
              let ac := {| ac_InstanceName := name;
                           ac_RouteType := ePropagatorGreatArc;
                           ac_Waypoints := route;
                           ac_Propagated := Some route |} in
              Ok (ac, append_aircraft ac self)
          | Raise e => Raise e
          end
      | None => Raise AttributeError
      end.
Proof.
  intros.
  unfold Script88.create_aircraft, scenario_of.
  destruct (scenario self) as [sc|]; [|reflexivity]. cbn [bind].
  cbv zeta. cbn [Waypoints_Add].
  destruct (Script88._calculate_destination N lat lon (of_Z N 1000) heading)
    as [[lat2 lon2]|e]; reflexivity.
Qed.

(** C3, counterexample.  Not every call of [create_aircraft] leaves an
    aircraft with two waypoints: on an analyzer whose scenario was not
    created yet, [self.scenario.Children] raises [AttributeError], in both
    scripts, and no aircraft is made. *)
Lemma create_aircraft_can_raise :
  Script33.create_aircraft (binary64 sample_libm sample_libm) sample_host
    (__init__ "MultiLayer_SatComm") "Flight_AA100"
    0x1.45b3d07c84b5ep+5%float (-0x1.280624dd2f1aap+6)%float
    10000%float 250%float 45%float
  = Raise AttributeError
  /\ Script88.create_aircraft (binary64 sample_libm sample_libm) sample_host
       (__init__ "MultiLayer_SatComm") "Flight_AA100"
       0x1.45b3d07c84b5ep+5%float (-0x1.280624dd2f1aap+6)%float
       10000%float 250%float 45%float
     = Raise AttributeError.
Proof. split; reflexivity. Qed.

(** C3, amended.  On an analyzer whose scenario exists, every call of the
    first script's [create_aircraft] returns an aircraft whose route has
    exactly two waypoints, the first at [(lat, lon)], the second at the
    result of [_calculate_destination] for 1000 km along the heading, both
    with the given altitude and speed; the route is propagated and the
    aircraft is appended to [self.aircraft].  In the second script the same
    holds for every call in which [_calculate_destination] returns. *)
Theorem create_aircraft_two_waypoints :
  forall (F : Type) (N : Numeric F) (h : Host F)
         (self : SatelliteNetworkAnalyzer F) (name : string)
         (lat lon alt speed heading : F),
    scenario self <> None ->
    (exists ac self',
        Script33.create_aircraft N h self name lat lon alt speed heading
        = Ok (ac, self')
        /\ ac_Waypoints ac
           = [ waypoint_at lat lon alt speed;
               waypoint_at
                 (fst (Script33._calculate_destination N lat lon (of_Z N 1000)
                                                       heading))
                 (snd (Script33._calculate_destination N lat lon (of_Z N 1000)
                                                       heading))
                 alt speed ]
        /\ ac_Propagated ac = Some (ac_Waypoints ac)
        /\ aircraft self' = aircraft self ++ [ac])
    /\ (forall lat2 lon2 : F,
           Script88._calculate_destination N lat lon (of_Z N 1000) heading
           = Ok (lat2, lon2) ->
           exists ac self',
             Script88.create_aircraft N h self name lat lon alt speed heading
             = Ok (ac, self')
             /\ ac_Waypoints ac
                = [ waypoint_at lat lon alt speed;
                    waypoint_at lat2 lon2 alt speed ]
             /\ ac_Propagated ac = Some (ac_Waypoints ac)
             /\ aircraft self' = aircraft self ++ [ac]).
Proof.
  intros F N h self name lat lon alt speed heading Hsc.
  destruct (scenario self) as [sc|] eqn:E; [clear Hsc|contradiction].
  split.
  - rewrite create_aircraft_33_route, E.
    eexists. eexists. split; [reflexivity|]. cbn. auto.
  - intros lat2 lon2 Hdest.
    rewrite create_aircraft_88_route, E, Hdest.
    eexists. eexists. split; [reflexivity|]. cbn. auto.
Qed.

(** C3, witness: [main]'s first aircraft in the sample scenario. *)
Lemma create_aircraft_two_waypoints_witness :
  scenario sample_self <> None
  /\ exists ac self',
       Script88.create_aircraft (binary64 sample_libm sample_libm) sample_host
         sample_self "Flight_AA100" 0x1.45b3d07c84b5ep+5%float
         (-0x1.280624dd2f1aap+6)%float 10000%float 250%float 45%float
       = Ok (ac, self')
       /\ ac_Waypoints ac
          = [ waypoint_at 0x1.45b3d07c84b5ep+5%float
                          (-0x1.280624dd2f1aap+6)%float 10000%float 250%float;
              waypoint_at 0x1.75c600ebf8acep+5%float
                          (-0x1.02e8e64047082p+6)%float 10000%float
                          250%float ]
       /\ ac_Propagated ac = Some (ac_Waypoints ac)
       /\ aircraft self' = aircraft sample_self ++ [ac].
Proof.
  assert (H : scenario sample_self <> None) by discriminate.
  split; [exact H|].
  exact (proj2 (@create_aircraft_two_waypoints float
                  (binary64 sample_libm sample_libm) sample_host sample_self
                  "Flight_AA100"%string 0x1.45b3d07c84b5ep+5%float
                  (-0x1.280624dd2f1aap+6)%float 10000%float 250%float
                  45%float H)
               0x1.75c600ebf8acep+5%float (-0x1.02e8e64047082p+6)%float
               eq_refl).
Defined.

(* ================================================================== *)
(** * Properties of [create_satellite] *)

(** C7, counterexample.  Not every call of [create_satellite] passes the
    elements on: on an analyzer whose scenario was not created yet both
    scripts raise [AttributeError] at [self.scenario.Children]; and in the
    first script, which writes [orientation.AscNode] without selecting the
    RAAN form first, a host whose new satellite has its ascending node in
    the LAN form keeps that form. *)
Lemma create_satellite_can_raise :
  Script33.create_satellite sample_host (__init__ "MultiLayer_SatComm")
    "LEO_Sat_1" 7000%float 0x1.0624dd2f1a9fcp-10%float 98%float 120%float
    0%float 0%float
  = Raise AttributeError
  /\ Script88.create_satellite sample_host (__init__ "MultiLayer_SatComm")
       "LEO_Sat_1" 7000%float 0x1.0624dd2f1a9fcp-10%float 98%float 120%float
       0%float 0%float
     = Raise AttributeError
  /\ exists sat self',
       Script33.create_satellite sample_host sample_self "LEO_Sat_1"
         7000%float 0x1.0624dd2f1a9fcp-10%float 98%float 120%float 0%float
         0%float
       = Ok (sat, self')
       /\ AscNodeType (sat_InitialState sat) = eAscNodeLAN.
Proof.
  split; [reflexivity|]. split; [reflexivity|].
  eexists. eexists. split; reflexivity.
Qed.

(** C7, amended.  On an analyzer whose scenario exists, [create_satellite]
    returns a satellite with the given name whose propagator is J2
    Perturbation and whose initial state, whatever state the host started
    from, has the arguments, unchanged, as semi-major axis, eccentricity,
    inclination, argument of perigee and true anomaly; that state is
    assigned and then propagated from, and the satellite is appended to
    [self.satellites].  The second script also selects the RAAN form of the
    ascending node and writes the sixth argument as its value. *)
Theorem create_satellite_passes_six_elements :
  forall (F : Type) (h : Host F) (self : SatelliteNetworkAnalyzer F)
         (name : string) (a e i raan argp nu : F),
    scenario self <> None ->
    (exists sat self',
        Script33.create_satellite h self name a e i raan argp nu
        = Ok (sat, self')
        /\ sat_InstanceName sat = name
        /\ sat_PropagatorType sat = ePropagatorJ2Perturbation
        /\ SizeShapeType (sat_InitialState sat) = eSizeShapeSemimajorAxis
        /\ SemiMajorAxis (sat_InitialState sat) = a
        /\ Eccentricity (sat_InitialState sat) = e
        /\ Inclination (sat_InitialState sat) = i
        /\ ArgOfPerigee (sat_InitialState sat) = argp
        /\ LocationType (sat_InitialState sat) = eLocationTrueAnomaly
        /\ LocationValue (sat_InitialState sat) = nu
        /\ sat_Ephemeris sat = Some (sat_InitialState sat)
        /\ satellites self' = satellites self ++ [sat])
    /\ (exists sat self',
           Script88.create_satellite h self name a e i raan argp nu
           = Ok (sat, self')
           /\ sat_InstanceName sat = name
           /\ sat_PropagatorType sat = ePropagatorJ2Perturbation
           /\ SizeShapeType (sat_InitialState sat) = eSizeShapeSemimajorAxis
           /\ SemiMajorAxis (sat_InitialState sat) = a
           /\ Eccentricity (sat_InitialState sat) = e
           /\ Inclination (sat_InitialState sat) = i
           /\ AscNodeType (sat_InitialState sat) = eAscNodeRAAN
           /\ AscNode (sat_InitialState sat) = raan
           /\ ArgOfPerigee (sat_InitialState sat) = argp
           /\ LocationType (sat_InitialState sat) = eLocationTrueAnomaly
           /\ LocationValue (sat_InitialState sat) = nu
           /\ sat_Ephemeris sat = Some (sat_InitialState sat)
           /\ satellites self' = satellites self ++ [sat]).
Proof.
  intros F h self name a e i raan argp nu Hsc.
  unfold Script33.create_satellite, Script88.create_satellite, scenario_of.
  destruct (scenario self) as [sc|]; [clear Hsc|contradiction].
  cbn [bind]. split; eexists; eexists; (split; [reflexivity|]);
    cbn; repeat split; reflexivity.
Qed.

(** C7, witness: [main]'s first satellite in the sample scenario. *)
Lemma create_satellite_passes_six_elements_witness :
  scenario sample_self <> None
  /\ exists sat self',
       Script88.create_satellite sample_host sample_self "LEO_Sat_1"
         7000%float 0x1.0624dd2f1a9fcp-10%float 98%float 0%float 0%float
         0%float
       = Ok (sat, self')
       /\ sat_PropagatorType sat = ePropagatorJ2Perturbation
       /\ AscNodeType (sat_InitialState sat) = eAscNodeRAAN
       /\ six_elements (sat_InitialState sat)
          = [7000; 0x1.0624dd2f1a9fcp-10; 98; 0; 0; 0]%float.
Proof.
  assert (H : scenario sample_self <> None) by discriminate.
  split; [exact H|].
  destruct (proj2 (@create_satellite_passes_six_elements float sample_host
                     sample_self "LEO_Sat_1"%string 7000%float
                     0x1.0624dd2f1a9fcp-10%float 98%float 0%float 0%float
                     0%float H))
    as (sat & self' & Hret & _ & HJ2 & _ & Ha & He & Hi & Htype & Hraan & Hargp
        & _ & Hnu & _).
  exists sat, self'. split; [exact Hret|]. split; [exact HJ2|].
  split; [exact Htype|].
  unfold six_elements. rewrite Ha, He, Hi, Hraan, Hargp, Hnu. reflexivity.
Defined.

(* ================================================================== *)
(** * Properties of [compute_access] *)

Lemma is_Facility_false_not_facility :
  forall (F : Type) (o : StkObject F),
    is_Facility o = false ->
    match o with ObjFacility _ => False | _ => True end.
Proof.
  intros F o H. destruct o; cbn in *; try exact I. discriminate H.
Qed.

(** C5, counterexample.  In the second script a facility whose host takes
    neither attribute write gets no minimum elevation, although its class is
    Facility. *)
Lemma constraint_not_always_applied :
  ~ forall (from_object to_object : StkObject float) (m : float),
      elevation_constraint (Script88.compute_access from_object to_object m)
      = Some m
      <-> is_Facility from_object = true.
Proof.
  intro H.
  pose (gs := ObjFacility (New_Facility sample_host "GS_NewYork")).
  destruct (H gs gs 10%float) as [_ H2].
  specialize (H2 eq_refl). vm_compute in H2. discriminate H2.
Qed.

(** C5, amended.  The first script enables the minimum of the access's
    elevation-angle constraint, at [min_elevation_deg], exactly when
    [from_object] is a Facility.  The second script, for a Facility, writes
    [min_elevation_deg] to the facility's [ElevationAngleConstraint] when the
    host takes it, otherwise to its [VO.MinElevationAngle] when the host
    takes that, and otherwise writes nothing.  For any other class neither
    script adds anything before the access is computed. *)
Theorem compute_access_elevation_constraint :
  (forall (F : Type) (from_object to_object : StkObject F) (m : F),
      let access := Script33.compute_access from_object to_object m in
      acc_ElevationMin access = (if is_Facility from_object then Some m else None)
      /\ acc_from access = from_object
      /\ acc_to access = to_object
      /\ acc_Computed access = true
      /\ (elevation_constraint access = Some m
          <-> is_Facility from_object = true))
  /\ (forall (F : Type) (f : Facility F) (to_object : StkObject F) (m : F),
         let access := Script88.compute_access (ObjFacility f) to_object m in
         acc_ElevationMin access = None
         /\ acc_to access = to_object
         /\ acc_Computed access = true
         /\ exists f' : Facility F,
              acc_from access = ObjFacility f'
              /\ fac_InstanceName f' = fac_InstanceName f
              /\ (ElevationAngleConstraint f', VO_MinElevationAngle f')
                 = if accepts_ElevationAngleConstraint f
                   then (Some m, VO_MinElevationAngle f)
                   else if accepts_VO_MinElevationAngle f
                        then (ElevationAngleConstraint f, Some m)
                        else (ElevationAngleConstraint f,
                              VO_MinElevationAngle f))
  /\ (forall (F : Type) (from_object to_object : StkObject F) (m : F),
         is_Facility from_object = false ->
         Script33.compute_access from_object to_object m
         = ComputeAccess (GetAccessToObject from_object to_object)
         /\ Script88.compute_access from_object to_object m
            = ComputeAccess (GetAccessToObject from_object to_object)
         /\ elevation_constraint
              (ComputeAccess (GetAccessToObject from_object to_object)) = None).
Proof.
  split; [|split].
  - intros F from_object to_object m. cbv zeta.
    unfold Script33.compute_access, elevation_constraint, is_Facility.
    destruct (String.eqb (ClassName from_object) "Facility") eqn:E; cbn.
    + repeat split; reflexivity.
    + repeat split; try reflexivity; try discriminate.
      pose proof (@is_Facility_false_not_facility F from_object E) as Hn.
      destruct from_object; try discriminate; contradiction.
  - intros F f to_object m. cbv zeta. unfold Script88.compute_access. cbn.
    destruct (accepts_ElevationAngleConstraint f) eqn:E1; cbn.
    + repeat split; eexists; repeat split.
    + destruct (accepts_VO_MinElevationAngle f) eqn:E2; cbn;
        repeat split; eexists; repeat split.
  - intros F from_object to_object m H.
    unfold Script33.compute_access, Script88.compute_access.
    unfold is_Facility in H. rewrite H.
    repeat split.
    pose proof (@is_Facility_false_not_facility F from_object H) as Hn.
    unfold elevation_constraint. cbn.
    destruct from_object; try reflexivity; contradiction.
Qed.

(* ================================================================== *)
(** * Properties of [get_access_intervals] *)

Section Intervals.
Context {F : Type}.

Lemma skipn_nth_error_some :
  forall (A : Type) (l : list A) (k : nat) (x : A),
    nth_error l k = Some x -> skipn k l = x :: skipn (S k) l.
Proof.
  intros A l. induction l as [|y l IH]; intros [|k] x H; cbn in *;
    try discriminate.
  - injection H as ->. reflexivity.
  - apply IH. exact H.
Qed.

Lemma skipn_nth_error_none :
  forall (A : Type) (l : list A) (k : nat),
    nth_error l k = None -> skipn k l = [].
Proof.
  intros A l. induction l as [|y l IH]; intros [|k] H; cbn in *;
    try discriminate; auto.
Qed.

(** The loop from index [k] appends the records of the indices from [k] on,
    up to the first index that one of the lists lacks. *)
Lemma loop_appends_zip3 :
  forall (st sp : list string) (du : list F) (n k : nat)
         (acc : list (Interval F)),
    k + n = List.length st ->
    snd (for_each (seq k n) (append_at st sp du) acc)
    = acc ++ zip3 (skipn k st) (skipn k sp) (skipn k du).
Proof.
  intros st sp du n. induction n as [|n IH]; intros k acc Hk.
  - cbn. rewrite Nat.add_0_r in Hk. subst k. rewrite skipn_all.
    cbn. rewrite app_nil_r. reflexivity.
  - cbn [seq for_each]. unfold block_bind at 1.
    assert (Hlt : k < List.length st) by lia.
    destruct (nth_error st k) as [s|] eqn:Es;
      [|apply nth_error_None in Es; lia].
    rewrite (skipn_nth_error_some _ _ Es).
    unfold append_at at 1, block_bind, lift, getitem, modify. rewrite Es.
    destruct (nth_error sp k) as [p|] eqn:Ep.
    + rewrite (skipn_nth_error_some _ _ Ep).
      destruct (nth_error du k) as [u|] eqn:Eu.
      * rewrite (skipn_nth_error_some _ _ Eu).
        rewrite IH by lia. rewrite <- app_assoc. reflexivity.
      * rewrite (skipn_nth_error_none _ _ Eu). cbn. rewrite app_nil_r.
        reflexivity.
    + rewrite (skipn_nth_error_none _ _ Ep). cbn. rewrite app_nil_r.
      reflexivity.
Qed.

Lemma read_intervals_result :
  forall (self : SatelliteNetworkAnalyzer F) (d : AccessData F),
    snd (read_intervals self d [])
    = match datasets self d with
      | Ok (st, sp, du) => zip3 st sp du
      | Raise _ => []
      end.
Proof.
  intros self d. unfold read_intervals, datasets.
  unfold block_bind at 1, lift at 1.
  destruct (Item_Access_Data d) as [[]|e]; cbn [bind]; [|reflexivity].
  unfold block_bind at 1, lift at 1.
  destruct (scenario_of self) as [sc|e]; cbn [bind]; [|reflexivity].
  unfold block_bind at 1, lift at 1.
  destruct (Exec d) as [[]|e]; cbn [bind]; [|reflexivity].
  unfold block_bind at 1, lift at 1.
  destruct (StartTime_values d) as [st|e]; cbn [bind]; [|reflexivity].
  unfold block_bind at 1, lift at 1.
  destruct (StopTime_values d) as [sp|e]; cbn [bind]; [|reflexivity].
  unfold block_bind at 1, lift at 1.
  destruct (Duration_values d) as [du|e]; cbn [bind]; [|reflexivity].
  rewrite loop_appends_zip3 by reflexivity. reflexivity.
Qed.

(** Whatever the body under [try] does, the handler ends the function
    normally with the list as it stands. *)
Lemma get_access_intervals_total :
  forall (self : SatelliteNetworkAnalyzer F) (d : AccessData F),
    get_access_intervals self d = Ok (snd (read_intervals self d [])).
Proof.
  intros self d. unfold get_access_intervals, try_except, block_ret.
  destruct (read_intervals self d []) as [[[]|e] l]; reflexivity.
Qed.

Lemma zip3_length :
  forall (st sp : list string) (du : list F),
    List.length st <= List.length sp -> List.length st <= List.length du ->
    List.length (zip3 st sp du) = List.length st.
Proof.
  induction st as [|s st IH]; intros [|p sp] [|u du] H1 H2; cbn in *;
    try lia. rewrite IH by lia. reflexivity.
Qed.

Lemma zip3_nth_error :
  forall (st sp : list string) (du : list F) (i : nat) (iv : Interval F),
    nth_error (zip3 st sp du) i = Some iv ->
    nth_error st i = Some (start iv)
    /\ nth_error sp i = Some (stop iv)
    /\ nth_error du i = Some (duration iv).
Proof.
  induction st as [|s st IH]; intros [|p sp] [|u du] i iv H;
    try (destruct i; discriminate H).
  destruct i as [|i]; cbn in H.
  - injection H as <-. cbn. auto.
  - cbn. apply IH. exact H.
Qed.

(** C6.  [get_access_intervals] always returns a list.  When a step of the
    retrieval raises, the list is empty.  When the three datasets arrive, the
    list holds the records of the values at equal indices, up to the first
    index one of the datasets lacks: one record per start time when the stop
    times and durations are at least as many. *)
Theorem get_access_intervals_never_raises :
  forall (self : SatelliteNetworkAnalyzer F) (d : AccessData F),
  exists intervals : list (Interval F),
    get_access_intervals self d = Ok intervals
    /\ match datasets self d with
       | Raise _ => intervals = []
       | Ok (st, sp, du) =>
           intervals = zip3 st sp du
           /\ (List.length st <= List.length sp ->
               List.length st <= List.length du ->
               List.length intervals = List.length st)
           /\ (forall (i : nat) (iv : Interval F),
                  nth_error intervals i = Some iv ->
                  nth_error st i = Some (start iv)
                  /\ nth_error sp i = Some (stop iv)
                  /\ nth_error du i = Some (duration iv))
       end.
Proof.
  intros self d. exists (snd (read_intervals self d [])).
  split; [apply get_access_intervals_total|].
  rewrite read_intervals_result.
  destruct (datasets self d) as [[[st sp] du]|e]; [|reflexivity].
  split; [reflexivity|]. split.
  - apply zip3_length.
  - apply zip3_nth_error.
Qed.
End Intervals.

(** The sample access: two intervals; a host without the data provider:
    none; a stop-time dataset one short: one. *)
Example sample_intervals :
  get_access_intervals sample_self sample_access_data
  = Ok [ {| start := "1 Jan 2025 01:10:00.000";
            stop := "1 Jan 2025 01:18:30.000"; duration := 510%float |};
         {| start := "1 Jan 2025 02:45:30.000";
            stop := "1 Jan 2025 02:52:00.000"; duration := 390%float |} ]
  /\ get_access_intervals sample_self
       {| Item_Access_Data := Raise HostError; Exec := Ok tt;
          StartTime_values := Ok ["a"%string]; StopTime_values := Ok ["b"%string];
          Duration_values := Ok [1%float] |}
     = Ok []
  /\ get_access_intervals sample_self
       {| Item_Access_Data := Ok tt; Exec := Ok tt;
          StartTime_values := Ok ["a"; "c"]%string;
          StopTime_values := Ok ["b"%string];
          Duration_values := Ok [1; 2]%float |}
     = Ok [ {| start := "a"; stop := "b"; duration := 1%float |} ].
Proof. repeat split. Qed.

(* ================================================================== *)
(** * Properties of [analyze_network] *)

Section Dictionaries.
Context {V : Type}.

Lemma dict_set_keys :
  forall (k k' : string) (v : V) (d : list (string * V)),
    In k (dict_keys (dict_set k' v d)) <-> k = k' \/ In k (dict_keys d).
Proof.
  intros k k' v d. induction d as [|[k0 v0] d IH]; cbn.
  - intuition auto.
  - destruct (String.eqb k0 k') eqn:E; cbn.
    + apply String.eqb_eq in E. subst k0. intuition auto.
    + rewrite IH. intuition auto.
Qed.

Lemma dict_set_NoDup :
  forall (k' : string) (v : V) (d : list (string * V)),
    NoDup (dict_keys d) -> NoDup (dict_keys (dict_set k' v d)).
Proof.
  intros k' v d. induction d as [|[k0 v0] d IH]; cbn; intro H.
  - constructor; [intros []|constructor].
  - inversion H as [|? ? Hn Hd]; subst.
    destruct (String.eqb k0 k') eqn:E; cbn.
    + constructor; assumption.
    + constructor; [|apply IH; assumption].
      intro Hin. apply dict_set_keys in Hin. destruct Hin as [->|Hin].
      * rewrite String.eqb_refl in E. discriminate E.
      * apply Hn. exact Hin.
Qed.

Lemma dict_get_set :
  forall (k k' : string) (v : V) (d : list (string * V)),
    dict_get k (dict_set k' v d)
    = if String.eqb k' k then Some v else dict_get k d.
Proof.
  intros k k' v d. induction d as [|[k0 v0] d IH]; cbn.
  - reflexivity.
  - destruct (String.eqb k0 k') eqn:E; cbn.
    + apply String.eqb_eq in E. subst k0.
      destruct (String.eqb k' k); reflexivity.
    + rewrite IH. destruct (String.eqb k0 k) eqn:E0; [|reflexivity].
      apply String.eqb_eq in E0. subst k0. rewrite String.eqb_sym, E.
      reflexivity.
Qed.
End Dictionaries.

Lemma foldM_total :
  forall (A B : Type) (f : B -> A -> result B) (g : B -> A -> B),
    (forall b x, f b x = Ok (g b x)) ->
    forall (l : list A) (b : B), foldM f l b = Ok (fold_left g l b).
Proof.
  intros A B f g H l. induction l as [|x l IH]; intro b; cbn.
  - reflexivity.
  - rewrite H. cbn. apply IH.
Qed.

(** Two nested loops are one loop over the product. *)
Lemma fold_left_product :
  forall (A B C S : Type) (g : S -> C -> S) (mk : A -> B -> C)
         (xs : list A) (ys : list B) (s : S),
    fold_left (fun s x => fold_left (fun s y => g s (mk x y)) ys s) xs s
    = fold_left g (flat_map (fun x => map (mk x) ys) xs) s.
Proof.
  intros A B C S g mk xs ys. induction xs as [|x xs IH]; intro s; cbn.
  - reflexivity.
  - rewrite fold_left_app. rewrite <- IH. f_equal.
    clear. revert s. induction ys as [|y ys IHy]; intro s; cbn; auto.
Qed.

Lemma map_product :
  forall (A B C D : Type) (f : C -> D) (mk : A -> B -> C)
         (xs : list A) (ys : list B),
    map f (flat_map (fun x => map (mk x) ys) xs)
    = flat_map (fun x => map (fun y => f (mk x y)) ys) xs.
Proof.
  intros. induction xs as [|x xs IH]; cbn; [reflexivity|].
  rewrite map_app, map_map, IH. reflexivity.
Qed.

Lemma length_product :
  forall (A B C : Type) (mk : A -> B -> C) (xs : list A) (ys : list B),
    List.length (flat_map (fun x => map (mk x) ys) xs)
    = List.length xs * List.length ys.
Proof.
  intros. induction xs as [|x xs IH]; cbn; [reflexivity|].
  rewrite length_app, length_map, IH. reflexivity.
Qed.

Lemma product_calls_keys :
  forall (F : Type) (N : Numeric F) (self : SatelliteNetworkAnalyzer F) (m : F),
    map (@call_key F) (product_calls N self m) = product_keys self.
Proof.
  intros. unfold product_calls, product_keys.
  rewrite !map_app, !map_product. reflexivity.
Qed.

Lemma product_calls_length :
  forall (F : Type) (N : Numeric F) (self : SatelliteNetworkAnalyzer F) (m : F),
    List.length (product_calls N self m)
    = List.length (satellites self) * List.length (ground_stations self)
      + List.length (satellites self) * List.length (aircraft self)
      + List.length (ground_stations self) * List.length (aircraft self).
Proof.
  intros. unfold product_calls. rewrite !length_app, !length_product. lia.
Qed.

Section Network.
Context {F : Type} (N : Numeric F) (h : Host F).
Variable compute_access : StkObject F -> StkObject F -> F -> Access F.
Variable self : SatelliteNetworkAnalyzer F.

Lemma link_records :
  forall (from_object to_object : StkObject F) (m : F) (key : string)
         (st : Links F),
    link h compute_access self from_object to_object m key st
    = Ok (record_call h compute_access self st
            (from_object, to_object, m, key)).
Proof.
  intros. unfold link. rewrite get_access_intervals_total. reflexivity.
Qed.

Lemma nested_loop_records :
  forall (A B : Type) (mk : A -> B -> Call) (xs : list A) (ys : list B)
         (st : Links F),
    foldM (fun results x =>
             foldM (fun results y =>
                      link h compute_access self
                           (fst (fst (fst (mk x y)))) (snd (fst (fst (mk x y))))
                           (snd (fst (mk x y))) (snd (mk x y)) results)
                   ys results) xs st
    = Ok (fold_left (record_call h compute_access self)
                    (flat_map (fun x => map (mk x) ys) xs) st).
Proof.
  intros A B mk xs ys st.
  rewrite <- fold_left_product.
  apply foldM_total. intros b x.
  apply foldM_total. intros b' y.
  rewrite link_records. destruct (mk x y) as [[[fo to] m] k]. reflexivity.
Qed.

(** The three pairs of loops run the calls of the three products in order;
    none of them raises. *)
Lemma analyze_network_records :
  forall m : F,
    analyze_network_with N h compute_access self m
    = Ok (fold_left (record_call h compute_access self)
                    (product_calls N self m) ([], [])).
Proof.
  intro m. unfold analyze_network_with, product_calls.
  rewrite !fold_left_app.
  rewrite (nested_loop_records
             (fun sat gs => (ObjFacility gs, ObjSatellite sat, m,
                             hyphen (sat_InstanceName sat)
                                    (fac_InstanceName gs)))).
  cbn [bind].
  rewrite (nested_loop_records
             (fun sat ac => (ObjAircraft ac, ObjSatellite sat, of_Z N 10,
                             hyphen (sat_InstanceName sat)
                                    (ac_InstanceName ac)))).
  cbn [bind].
  rewrite (nested_loop_records
             (fun gs ac => (ObjFacility gs, ObjAircraft ac, m,
                            hyphen (ac_InstanceName ac)
                                   (fac_InstanceName gs)))).
  reflexivity.
Qed.

Lemma records_keys :
  forall (calls : list (@Call F)) (st : Links F) (k : string),
    In k (dict_keys (fst (fold_left (record_call h compute_access self)
                                    calls st)))
    <-> In k (dict_keys (fst st)) \/ In k (map (@call_key F) calls).
Proof.
  induction calls as [|c calls IH]; intros st k; cbn [fold_left map In].
  - intuition auto.
  - rewrite IH. unfold record_call. cbn [fst]. rewrite dict_set_keys.
    intuition auto.
Qed.

Lemma records_NoDup :
  forall (calls : list (@Call F)) (st : Links F),
    NoDup (dict_keys (fst st)) ->
    NoDup (dict_keys (fst (fold_left (record_call h compute_access self)
                                     calls st))).
Proof.
  induction calls as [|c calls IH]; intros st H; cbn [fold_left].
  - exact H.
  - apply IH. unfold record_call. cbn [fst]. apply dict_set_NoDup. exact H.
Qed.

Lemma records_accesses :
  forall (calls : list (@Call F)) (st : Links F),
    snd (fold_left (record_call h compute_access self) calls st)
    = snd st ++ map (access_of compute_access) calls.
Proof.
  induction calls as [|c calls IH]; intros st; cbn [fold_left map].
  - rewrite app_nil_r. reflexivity.
  - rewrite IH. unfold record_call. cbn [snd]. rewrite <- app_assoc.
    reflexivity.
Qed.

Lemma records_values :
  forall (calls : list (@Call F)) (st : Links F) (k : string)
         (v : list (Interval F)),
    dict_get k (fst (fold_left (record_call h compute_access self) calls st))
    = Some v ->
    dict_get k (fst st) = Some v
    \/ exists c, In c calls /\ call_key c = k
                 /\ get_access_intervals self
                      (access_data h (access_of compute_access c)) = Ok v.
Proof.
  induction calls as [|c calls IH]; intros st k v H; cbn [fold_left] in H.
  - left. exact H.
  - apply IH in H. destruct H as [H|(c' & Hin & Hk & Hv)].
    + unfold record_call in H. cbn [fst] in H. rewrite dict_get_set in H.
      destruct (String.eqb (call_key c) k) eqn:E.
      * right. exists c. apply String.eqb_eq in E.
        split; [left; reflexivity|]. split; [exact E|].
        injection H as <-. apply get_access_intervals_total.
      * left. exact H.
    + right. exists c'. split; [right; exact Hin|]. split; assumption.
Qed.

(** [analyze_network] over any [compute_access]. *)
Lemma analyze_network_with_products :
  forall m : F,
  exists (results : list (string * list (Interval F)))
         (accesses : list (Access F)),
    analyze_network_with N h compute_access self m = Ok (results, accesses)
    /\ (forall k : string,
           In k (dict_keys results) <-> In k (product_keys self))
    /\ NoDup (dict_keys results)
    /\ accesses = map (access_of compute_access) (product_calls N self m)
    /\ List.length accesses
       = List.length (satellites self) * List.length (ground_stations self)
         + List.length (satellites self) * List.length (aircraft self)
         + List.length (ground_stations self) * List.length (aircraft self)
    /\ (forall (k : string) (v : list (Interval F)),
           dict_get k results = Some v ->
           exists c : Call,
             In c (product_calls N self m) /\ call_key c = k
             /\ get_access_intervals self
                  (access_data h (access_of compute_access c)) = Ok v).
Proof.
  intro m.
  exists (fst (fold_left (record_call h compute_access self)
                         (product_calls N self m) ([], []))).
  exists (snd (fold_left (record_call h compute_access self)
                         (product_calls N self m) ([], []))).
  rewrite analyze_network_records, <- surjective_pairing.
  split; [reflexivity|]. split; [|split; [|split; [|split]]].
  - intro k. rewrite records_keys, product_calls_keys. cbn. tauto.
  - apply records_NoDup. constructor.
  - rewrite records_accesses. reflexivity.
  - rewrite records_accesses. cbn [snd app].
    rewrite length_map. apply product_calls_length.
  - intros k v H. apply records_values in H.
    destruct H as [H|H]; [discriminate H|exact H].
Qed.
End Network.

Section DictionaryFolds.
Context {V : Type}.

Lemma dict_set_fresh :
  forall (k : string) (v : V) (d : list (string * V)),
    ~ In k (dict_keys d) -> dict_set k v d = d ++ [(k, v)].
Proof.
  intros k v d. induction d as [|[k0 v0] d IH]; cbn; intro H.
  - reflexivity.
  - destruct (String.eqb k0 k) eqn:E.
    + apply String.eqb_eq in E. subst k0. exfalso. apply H. left. reflexivity.
    + rewrite IH; [reflexivity|]. intro Hin. apply H. right. exact Hin.
Qed.

(** Stores under keys that are new and distinct append in order. *)
Lemma fold_dict_set_distinct :
  forall (es d : list (string * V)),
    NoDup (dict_keys d ++ dict_keys es) ->
    fold_left (fun d e => dict_set (fst e) (snd e) d) es d = d ++ es.
Proof.
  induction es as [|[k v] es IH]; intros d H; cbn [fold_left].
  - rewrite app_nil_r. reflexivity.
  - cbn [fst snd]. cbn [dict_keys map fst] in H.
    assert (Hk : ~ In k (dict_keys d)).
    { intro Hin. apply NoDup_remove_2 in H. apply H.
      apply in_or_app. left. exact Hin. }
    rewrite (dict_set_fresh k v d Hk).
    rewrite IH.
    + rewrite <- app_assoc. reflexivity.
    + unfold dict_keys in *. rewrite map_app. cbn [map fst].
      rewrite <- app_assoc. cbn [app].
      apply NoDup_Add with (a := k) (l := map fst d ++ map fst es).
      * apply Add_app.
      * split.
        -- apply NoDup_remove_1 in H. exact H.
        -- apply NoDup_remove_2 in H. exact H.
Qed.
End DictionaryFolds.

Section NetworkEntries.
Context {F : Type} (N : Numeric F) (h : Host F).
Variable compute_access : StkObject F -> StkObject F -> F -> Access F.
Variable self : SatelliteNetworkAnalyzer F.

Lemma entry_of_read :
  forall c : Call,
    entry_of h compute_access self c
    = (call_key c,
       snd (read_intervals self
              (access_data h (access_of compute_access c)) [])).
Proof.
  intro c. unfold entry_of. rewrite get_access_intervals_total. reflexivity.
Qed.

Lemma records_entries :
  forall (calls : list (@Call F)) (st : Links F),
    fst (fold_left (record_call h compute_access self) calls st)
    = fold_left (fun d e => dict_set (fst e) (snd e) d)
                (map (entry_of h compute_access self) calls) (fst st).
Proof.
  induction calls as [|c calls IH]; intro st; cbn [fold_left map].
  - reflexivity.
  - rewrite IH, entry_of_read. reflexivity.
Qed.

Lemma no_scenario_no_intervals :
  forall d : AccessData F,
    scenario self = None -> get_access_intervals self d = Ok [].
Proof.
  intros d Hsc. rewrite get_access_intervals_total, read_intervals_result.
  unfold datasets, scenario_of.
  rewrite Hsc. destruct (Item_Access_Data d); reflexivity.
Qed.

(** A store after the last store under a key does not touch the key. *)
Lemma fold_dict_set_last :
  forall (k : string) (es d : list (string * list (Interval F))),
    dict_get k (fold_left (fun d e => dict_set (fst e) (snd e) d) es d)
    = match last_entry k es with
      | Some v => Some v
      | None => dict_get k d
      end.
Proof.
  intros k es. induction es as [|[k0 v0] es IH]; intro d; cbn [fold_left].
  - reflexivity.
  - rewrite IH. cbn [last_entry fst snd].
    destruct (last_entry k es) as [v|]; [reflexivity|].
    rewrite dict_get_set. destruct (String.eqb k0 k); reflexivity.
Qed.

Lemma analyze_network_with_entries :
  forall m : F,
  exists results : list (string * list (Interval F)),
    analyze_network_with N h compute_access self m
    = Ok (results, map (access_of compute_access) (product_calls N self m))
    /\ results
       = fold_left (fun d e => dict_set (fst e) (snd e) d)
                   (map (entry_of h compute_access self)
                        (product_calls N self m)) [].
Proof.
  intro m.
  exists (fst (fold_left (record_call h compute_access self)
                         (product_calls N self m) ([], []))).
  split.
  - rewrite analyze_network_records.
    pose proof (records_accesses h compute_access self
                  (product_calls N self m) ([], [])) as Hacc.
    cbn [snd app] in Hacc. rewrite <- Hacc.
    rewrite <- surjective_pairing. reflexivity.
  - apply records_entries.
Qed.

Lemma entry_keys :
  forall calls : list (@Call F),
    dict_keys (map (entry_of h compute_access self) calls)
    = map (@call_key F) calls.
Proof.
  intro calls. unfold dict_keys. rewrite map_map. reflexivity.
Qed.

Lemma analyze_network_with_distinct_keys :
  forall m : F,
    NoDup (product_keys self) ->
    analyze_network_with N h compute_access self m
    = Ok (map (entry_of h compute_access self) (product_calls N self m),
          map (access_of compute_access) (product_calls N self m)).
Proof.
  intros m Hnd.
  destruct (analyze_network_with_entries m) as (results & Hres & Hfold).
  rewrite Hres, Hfold, fold_dict_set_distinct; [reflexivity|].
  cbn [dict_keys map app]. rewrite entry_keys, product_calls_keys. exact Hnd.
Qed.

Lemma analyze_network_with_last_wins :
  forall m : F,
  exists (results : list (string * list (Interval F)))
         (accesses : list (Access F)),
    analyze_network_with N h compute_access self m = Ok (results, accesses)
    /\ forall k : string,
         dict_get k results
         = last_entry k (map (entry_of h compute_access self)
                             (product_calls N self m)).
Proof.
  intro m.
  destruct (analyze_network_with_entries m) as (results & Hres & Hfold).
  eexists. eexists. split; [exact Hres|].
  intro k. rewrite Hfold, fold_dict_set_last.
  destruct (last_entry k _); reflexivity.
Qed.

Lemma analyze_network_with_no_scenario :
  forall m : F,
    scenario self = None ->
    exists (results : list (string * list (Interval F)))
           (accesses : list (Access F)),
      analyze_network_with N h compute_access self m = Ok (results, accesses)
      /\ (forall k : string,
             In k (dict_keys results) <-> In k (product_keys self))
      /\ (forall (k : string) (v : list (Interval F)),
             dict_get k results = Some v -> v = [])
      /\ List.length accesses = List.length (product_calls N self m).
Proof.
  intros m Hsc.
  destruct (analyze_network_with_products N h compute_access self m)
    as (results & accesses & Hres & Hkeys & _ & Hacc & _ & Hval).
  exists results, accesses. split; [exact Hres|]. split; [exact Hkeys|].
  split.
  - intros k v Hk. destruct (Hval k v Hk) as (c & _ & _ & Hget).
    rewrite (no_scenario_no_intervals _ Hsc) in Hget.
    injection Hget as <-. reflexivity.
  - rewrite Hacc. apply length_map.
Qed.
End NetworkEntries.

Lemma Forall2_map_entries :
  forall (A B : Type) (f : A -> B) (R : B -> A -> Prop) (l : list A),
    (forall x : A, In x l -> R (f x) x) -> Forall2 R (map f l) l.
Proof.
  intros A B f R l. induction l as [|x l IH]; intro H; cbn.
  - constructor.
  - constructor.
    + apply H. left. reflexivity.
    + apply IH. intros y Hy. apply H. right. exact Hy.
Qed.

Section NetworkPairs.
Context {F : Type} (N : Numeric F) (h : Host F).
Variable compute_access : StkObject F -> StkObject F -> F -> Access F.
Variable self : SatelliteNetworkAnalyzer F.

(** [analyze_network] over any [compute_access], with the pairs and their
    keys written out. *)
Lemma analyze_network_with_pairs :
  forall m : F,
    let pairs : list (StkObject F * StkObject F * F * string) :=
      flat_map (fun sat =>
                  map (fun gs => (ObjFacility gs, ObjSatellite sat, m,
                                  (sat_InstanceName sat ++ "-"
                                   ++ fac_InstanceName gs)%string))
                      (ground_stations self)) (satellites self)
      ++ flat_map (fun sat =>
                     map (fun ac => (ObjAircraft ac, ObjSatellite sat,
                                     of_Z N 10,
                                     (sat_InstanceName sat ++ "-"
                                      ++ ac_InstanceName ac)%string))
                         (aircraft self)) (satellites self)
      ++ flat_map (fun gs =>
                     map (fun ac => (ObjFacility gs, ObjAircraft ac, m,
                                     (ac_InstanceName ac ++ "-"
                                      ++ fac_InstanceName gs)%string))
                         (aircraft self)) (ground_stations self) in
    exists (results : list (string * list (Interval F)))
           (accesses : list (Access F)),
      analyze_network_with N h compute_access self m = Ok (results, accesses)
      /\ accesses
         = map (fun '(from_object, to_object, elevation, _) =>
                  compute_access from_object to_object elevation) pairs
      /\ List.length accesses
         = List.length (satellites self) * List.length (ground_stations self)
           + List.length (satellites self) * List.length (aircraft self)
           + List.length (ground_stations self) * List.length (aircraft self)
      /\ (forall k : string,
             In k (dict_keys results)
             <-> In k (map (fun '(_, _, _, key) => key) pairs))
      /\ NoDup (dict_keys results)
      /\ (forall (k : string) (v : list (Interval F)),
             dict_get k results = Some v ->
             exists (from_object to_object : StkObject F) (elevation : F),
               In (from_object, to_object, elevation, k) pairs
               /\ get_access_intervals self
                    (access_data h
                       (compute_access from_object to_object elevation))
                  = Ok v)
      /\ (NoDup (map (fun '(_, _, _, key) => key) pairs) ->
          Forall2 (fun entry '(from_object, to_object, elevation, key) =>
                     fst entry = key
                     /\ get_access_intervals self
                          (access_data h
                             (compute_access from_object to_object elevation))
                        = Ok (snd entry))
                  results pairs).
Proof.
  intros m pairs.
  change pairs with (product_calls N self m). clear pairs.
  assert (Hkeys : map (fun '(_, _, _, key) => key) (product_calls N self m)
                  = product_keys self).
  { rewrite <- (product_calls_keys N self m). apply map_ext.
    intros [[[f t] el] k]. reflexivity. }
  destruct (analyze_network_with_products N h compute_access self m)
    as (results & accesses & Hres & Hin & Hnd & Hacc & Hlen & Hval).
  exists results, accesses. split; [exact Hres|].
  split; [|split; [exact Hlen|split; [|split; [exact Hnd|split]]]].
  - rewrite Hacc. apply map_ext. intros [[[f t] el] k]. reflexivity.
  - intro k. rewrite Hkeys. apply Hin.
  - intros k v Hk. destruct (Hval k v Hk) as ([[[f t] el] k'] & Hc & Hkey & Hget).
    cbn in Hkey. subst k'. exists f, t, el. split; [exact Hc|exact Hget].
  - rewrite Hkeys. intro Hdist.
    rewrite (analyze_network_with_distinct_keys N h compute_access self m Hdist)
      in Hres.
    injection Hres as <- _.
    apply Forall2_map_entries. intros [[[f t] el] k] _.
    split; [reflexivity|].
    unfold entry_of, access_of. cbn [fst snd].
    rewrite get_access_intervals_total. reflexivity.
Qed.
End NetworkPairs.

(** C4, counterexample.  The dictionary does not keep an entry for every
    pair.  With a ground station and an aircraft both named GS_London and
    one satellite, three accesses are computed, and the host reports two
    intervals for the first and the third and none for the second; the first
    two pairs share the key LEO_Sat_1-GS_London, and the dictionary has two
    entries: the intervals of the first pair are overwritten. *)
Lemma shared_key_keeps_one_entry :
  exists results accesses,
    Script33.analyze_network (binary64 sample_libm sample_libm) facility_host
      twin_network 10%float
    = Ok (results, accesses)
    /\ map (fun a => List.length (intervals_of facility_host twin_network a))
           accesses
       = [2; 0; 2]
    /\ map (fun entry => (fst entry, List.length (snd entry))) results
       = [ ("LEO_Sat_1-GS_London", 0); ("GS_London-GS_London", 2) ]%string.
Proof.
  eexists. eexists. split; [vm_compute; reflexivity|].
  split; vm_compute; reflexivity.
Qed.

(** C4, amended.  In both scripts [analyze_network] returns; it computes one
    access per element of the three products (satellite, ground station),
    (satellite, aircraft) and (ground station, aircraft), in that order; the
    keys of the returned dictionary are exactly the keys of those pairs,
    ["<sat>-<gs>"], ["<sat>-<aircraft>"] and ["<aircraft>-<gs>"], each once;
    each value is the interval list read from the access of a pair with that
    key; and when the keys of the pairs are pairwise distinct the dictionary
    has exactly one entry per pair, in the order of the loops, holding the
    interval list read for that pair. *)
Theorem analyze_network_one_entry_per_pair :
  forall (F : Type) (N : Numeric F) (h : Host F)
         (self : SatelliteNetworkAnalyzer F) (m : F),
    let pairs : list (StkObject F * StkObject F * F * string) :=
      flat_map (fun sat =>
                  map (fun gs => (ObjFacility gs, ObjSatellite sat, m,
                                  (sat_InstanceName sat ++ "-"
                                   ++ fac_InstanceName gs)%string))
                      (ground_stations self)) (satellites self)
      ++ flat_map (fun sat =>
                     map (fun ac => (ObjAircraft ac, ObjSatellite sat,
                                     of_Z N 10,
                                     (sat_InstanceName sat ++ "-"
                                      ++ ac_InstanceName ac)%string))
                         (aircraft self)) (satellites self)
      ++ flat_map (fun gs =>
                     map (fun ac => (ObjFacility gs, ObjAircraft ac, m,
                                     (ac_InstanceName ac ++ "-"
                                      ++ fac_InstanceName gs)%string))
                         (aircraft self)) (ground_stations self) in
    let one_entry_per_pair
          (compute_access : StkObject F -> StkObject F -> F -> Access F)
          (outcome : result (Links F)) : Prop :=
      exists (results : list (string * list (Interval F)))
             (accesses : list (Access F)),
        outcome = Ok (results, accesses)
        /\ accesses
           = map (fun '(from_object, to_object, elevation, _) =>
                    compute_access from_object to_object elevation) pairs
        /\ List.length accesses
           = List.length (satellites self) * List.length (ground_stations self)
             + List.length (satellites self) * List.length (aircraft self)
             + List.length (ground_stations self) * List.length (aircraft self)
        /\ (forall k : string,
               In k (dict_keys results)
               <-> In k (map (fun '(_, _, _, key) => key) pairs))
        /\ NoDup (dict_keys results)
        /\ (forall (k : string) (v : list (Interval F)),
               dict_get k results = Some v ->
               exists (from_object to_object : StkObject F) (elevation : F),
                 In (from_object, to_object, elevation, k) pairs
                 /\ get_access_intervals self
                      (access_data h
                         (compute_access from_object to_object elevation))
                    = Ok v)
        /\ (NoDup (map (fun '(_, _, _, key) => key) pairs) ->
            Forall2 (fun entry '(from_object, to_object, elevation, key) =>
                       fst entry = key
                       /\ get_access_intervals self
                            (access_data h
                               (compute_access from_object to_object
                                               elevation))
                          = Ok (snd entry))
                    results pairs) in
    one_entry_per_pair (@Script33.compute_access F)
                       (Script33.analyze_network N h self m)
    /\ one_entry_per_pair (@Script88.compute_access F)
                          (Script88.analyze_network N h self m).
Proof.
  intros F N h self m pairs one_entry_per_pair.
  subst one_entry_per_pair pairs. cbv beta. split.
  - apply (analyze_network_with_pairs N h (@Script33.compute_access F)).
  - apply (analyze_network_with_pairs N h (@Script88.compute_access F)).
Qed.

(** C4, witness: in the sample network the three keys are distinct, and the
    dictionary has three entries for the three accesses. *)
Lemma analyze_network_one_entry_per_pair_witness :
  exists results accesses,
    Script33.analyze_network (binary64 sample_libm sample_libm) sample_host
      sample_network 10%float
    = Ok (results, accesses)
    /\ List.length results = 3
    /\ List.length accesses = 3.
Proof.
  destruct (proj1 (@analyze_network_one_entry_per_pair float
                     (binary64 sample_libm sample_libm) sample_host
                     sample_network 10%float))
    as (results & accesses & Hres & _ & Hlen & _ & _ & _ & Hall).
  exists results, accesses. split; [exact Hres|]. split.
  - assert (Hnd : NoDup [ "LEO_Sat_1-GS_London"; "LEO_Sat_1-Flight_BA200";
                          "Flight_BA200-GS_London" ]%string)
      by (repeat constructor; cbn; intuition discriminate).
    exact (Forall2_length (Hall Hnd)).
  - exact Hlen.
Defined.

(* ================================================================== *)
(** * Properties of [export_results_to_csv] *)

Section ExportCsv.
Context {F : Type}.

Lemma inner_loop_appends :
  forall (link : string) (intervals : list (Interval F))
         (data : list (list (string * Cell F))),
    fold_left (fun data interval => data ++ [row_of link interval])
              intervals data
    = data ++ map (row_of link) intervals.
Proof.
  intros link intervals. induction intervals as [|iv ivs IH]; intro data; cbn.
  - rewrite app_nil_r. reflexivity.
  - rewrite IH, <- app_assoc. reflexivity.
Qed.

Lemma outer_loop_appends :
  forall (results : list (string * list (Interval F)))
         (data : list (list (string * Cell F))),
    fold_left (fun data (item : string * list (Interval F)) =>
                 let (link, intervals) := item in
                 fold_left (fun data interval => data ++ [row_of link interval])
                           intervals data)
              results data
    = data ++ flat_map rows_of_link results.
Proof.
  induction results as [|[link ivs] results IH]; intro data;
    cbn [fold_left flat_map].
  - rewrite app_nil_r. reflexivity.
  - rewrite IH, inner_loop_appends, <- app_assoc. reflexivity.
Qed.

Lemma export_data_rows :
  forall results : list (string * list (Interval F)),
    export_data results = flat_map rows_of_link results.
Proof.
  intro results. unfold export_data. rewrite outer_loop_appends. reflexivity.
Qed.

Lemma length_rows :
  forall results : list (string * list (Interval F)),
    List.length (flat_map rows_of_link results)
    = list_sum (map (fun item => List.length (snd item)) results).
Proof.
  induction results as [|item results IH]; cbn; [reflexivity|].
  rewrite length_app, IH. unfold rows_of_link. rewrite length_map. reflexivity.
Qed.

(** C8.  The frame [export_results_to_csv] writes has one line of values
    per interval: their number is the sum over the links of the number of
    intervals of the link; the lines are, link by link and in order, the
    link's name with the interval's start, stop and duration; each row
    dictionary holds them under 'Link', 'Start Time', 'Stop Time' and
    'Duration (sec)', which are the columns whenever there is a row. *)
Theorem export_one_row_per_interval :
  forall results : list (string * list (Interval F)),
    let df := export_results_to_csv results in
    List.length (values df)
    = list_sum (map (fun item => List.length (snd item)) results)
    /\ values df
       = flat_map (fun item => map (csv_line (fst item)) (snd item)) results
    /\ export_data results = flat_map rows_of_link results
    /\ (forall (link : string) (interval : Interval F),
           dict_get "Link" (row_of link interval) = Some (CellStr link)
           /\ dict_get "Start Time" (row_of link interval)
              = Some (CellStr (start interval))
           /\ dict_get "Stop Time" (row_of link interval)
              = Some (CellStr (stop interval))
           /\ dict_get "Duration (sec)" (row_of link interval)
              = Some (CellNum (duration interval)))
    /\ (values df <> [] -> columns df = csv_header).
Proof.
  intro results. cbv zeta. unfold export_results_to_csv, pd_DataFrame.
  cbn [values columns]. rewrite export_data_rows.
  split; [|split; [|split; [|split]]].
  - rewrite length_map. apply length_rows.
  - rewrite flat_map_concat_map, concat_map, map_map, <- flat_map_concat_map.
    apply flat_map_ext. intros [link ivs]. unfold rows_of_link. cbn [fst snd].
    rewrite map_map. reflexivity.
  - reflexivity.
  - intros. repeat split.
  - intro H. destruct (flat_map rows_of_link results) as [|r rest] eqn:E.
    + exfalso. apply H. reflexivity.
    + clear H. revert r rest E.
      induction results as [|[link ivs] results IH]; intros r rest E.
      * discriminate E.
      * cbn [flat_map] in E. unfold rows_of_link at 1 in E. cbn [fst snd] in E.
        destruct ivs as [|iv ivs]; cbn [map app] in E.
        -- apply (IH r rest). exact E.
        -- injection E as <- _. reflexivity.
Qed.
End ExportCsv.

(** Two links, one without intervals: two rows. *)
Example sample_export :
  let iv1 := {| start := "t0"; stop := "t1"; duration := 510%float |} in
  let iv2 := {| start := "t2"; stop := "t3"; duration := 390%float |} in
  export_results_to_csv
    [ ("LEO_Sat_1-GS_London", [iv1; iv2]); ("LEO_Sat_1-GS_Tokyo", []) ]%string
  = {| columns := csv_header;
       values := [ [ CellStr "LEO_Sat_1-GS_London"; CellStr "t0"; CellStr "t1";
                     CellNum 510%float ];
                   [ CellStr "LEO_Sat_1-GS_London"; CellStr "t2"; CellStr "t3";
                     CellNum 390%float ] ] |}.
Proof. reflexivity. Qed.

(* ================================================================== *)
(** * Properties of [generate_report] *)

Section Report.
Context {F : Type} (N : Numeric F) (format_2f : F -> string).

Lemma truediv_int_nonzero :
  forall (x : F) (n : Z), n <> 0%Z ->
    truediv_int N x n = Ok (n_div N x (of_Z N n)).
Proof.
  intros x n H. unfold truediv_int.
  destruct (Z.eqb n 0) eqn:E; [|reflexivity].
  apply Z.eqb_eq in E. contradiction.
Qed.

Lemma truediv_int_zero :
  forall x : F, truediv_int N x 0 = Raise ZeroDivisionError.
Proof. reflexivity. Qed.



End Report.

(* ================================================================== *)
(** * Further properties of [_calculate_destination], over the reals *)

Section RealGeometry.
Local Open Scope R_scope.

Lemma calculate_destination_33_reals_unfold :
  forall lat1 lon1 d b : R,
    Script33._calculate_destination exact_reals lat1 lon1 d b
    = (degrees exact_reals
         (asin (sin (radians exact_reals lat1) * cos (d / 6371)
                + cos (radians exact_reals lat1) * sin (d / 6371)
                  * cos (radians exact_reals b))),
       degrees exact_reals
         (radians exact_reals lon1
          + Ratan2 (sin (radians exact_reals b) * sin (d / 6371)
                    * cos (radians exact_reals lat1))
                   (cos (d / 6371)
                    - sin (radians exact_reals lat1)
                      * sin (asin (sin (radians exact_reals lat1) * cos (d / 6371)
                                   + cos (radians exact_reals lat1) * sin (d / 6371)
                                     * cos (radians exact_reals b)))))).
Proof. reflexivity. Qed.

Lemma degrees_reals : forall x : R, degrees exact_reals x = x * (180 / PI).
Proof. reflexivity. Qed.

Lemma radians_reals : forall x : R, radians exact_reals x = x * (PI / 180).
Proof. reflexivity. Qed.

Lemma radians_degrees_over_reals :
  forall x : R, radians exact_reals (degrees exact_reals x) = x.
Proof.
  intro x. rewrite radians_reals, degrees_reals. field. apply PI_neq0.
Qed.

Lemma atan_nonpos : forall q : R, q <= 0 -> atan q <= 0.
Proof.
  intros q [Hq|Hq].
  - left. rewrite <- atan_0. apply atan_increasing. exact Hq.
  - subst q. rewrite atan_0. lra.
Qed.

Lemma atan_pos : forall q : R, 0 < q -> 0 < atan q.
Proof.
  intros q Hq. rewrite <- atan_0. apply atan_increasing. exact Hq.
Qed.

Lemma quotient_sign :
  forall y x : R, x < 0 -> (0 <= y -> y / x <= 0) /\ (y < 0 -> 0 < y / x).
Proof.
  intros y x Hx.
  assert (Hq : y / x * x = y) by (field; lra).
  split; intro Hy; nra.
Qed.

Lemma Ratan2_bound : forall y x : R, - PI <= Ratan2 y x <= PI.
Proof.
  intros y x. unfold Ratan2.
  pose proof PI_RGT_0 as Hpi.
  pose proof (atan_bound (y / x)) as [H1 H2].
  destruct (Rlt_dec 0 x); [lra|].
  destruct (Rlt_dec x 0) as [Hx|Hx].
  - destruct (quotient_sign y Hx) as [Hq1 Hq2].
    destruct (Rle_dec 0 y) as [Hy|Hy].
    + pose proof (atan_nonpos (Hq1 Hy)). lra.
    + assert (Hy' : y < 0) by lra. pose proof (atan_pos (Hq2 Hy')). lra.
  - destruct (Rlt_dec 0 y); [lra|]. destruct (Rlt_dec y 0); lra.
Qed.

(** X1.  Over the real numbers the destination latitude is a latitude: it
    lies in [[-90, 90]], in both scripts and for every input. *)
Theorem destination_latitude_in_range :
  forall lat1 lon1 d b : R,
    -90 <= fst (Script33._calculate_destination exact_reals lat1 lon1 d b) <= 90
    /\ exists lat2 lon2 : R,
         Script88._calculate_destination exact_reals lat1 lon1 d b
         = Ok (lat2, lon2)
         /\ -90 <= lat2 <= 90.
Proof.
  intros lat1 lon1 d b.
  assert (H : -90 <= fst (Script33._calculate_destination exact_reals lat1 lon1 d b) <= 90).
  { rewrite calculate_destination_33_reals_unfold. cbn [fst].
    rewrite degrees_reals.
    match goal with |- context [asin ?S] => pose proof (asin_bound S) as [H1 H2] end.
    pose proof PI_RGT_0 as Hpi.
    assert (Hk : 0 < 180 / PI) by (apply Rdiv_lt_0_compat; lra).
    assert (Hh : PI / 2 * (180 / PI) = 90) by (field; lra).
    split; nra. }
  split; [exact H|].
  rewrite calculate_destination_88_over_reals.
  destruct (Script33._calculate_destination exact_reals lat1 lon1 d b) as [lat2 lon2].
  exists lat2, lon2. split; [reflexivity|exact H].
Qed.

(** X2.  Over the real numbers the destination longitude is within 180
    degrees of the starting longitude; it is not wrapped into
    [[-180, 180]]. *)
Theorem destination_longitude_offset_in_range :
  forall lat1 lon1 d b : R,
    -180 <= snd (Script33._calculate_destination exact_reals lat1 lon1 d b) - lon1
         <= 180.
Proof.
  intros lat1 lon1 d b.
  rewrite calculate_destination_33_reals_unfold. cbn [snd].
  rewrite degrees_reals, radians_reals.
  match goal with |- context [Ratan2 ?y ?x] =>
    pose proof (Ratan2_bound y x) as [H1 H2]; set (A := Ratan2 y x) in * end.
  pose proof PI_RGT_0 as Hpi.
  assert (Hk : 0 < 180 / PI) by (apply Rdiv_lt_0_compat; lra).
  assert (Hh : PI * (180 / PI) = 180) by (field; lra).
  replace ((lon1 * (PI / 180) + A) * (180 / PI) - lon1) with (A * (180 / PI))
    by (field; lra).
  split; nra.
Qed.

Lemma sqrt_unique_nonneg :
  forall r u : R, 0 <= u -> 0 <= r -> u * u = r -> sqrt r = u.
Proof.
  intros r u Hu Hr H. subst r. apply sqrt_square. exact Hu.
Qed.

(** The cosine of the two-argument arctangent, without a quotient. *)
Lemma cos_Ratan2 :
  forall y x : R, sqrt (x * x + y * y) * cos (Ratan2 y x) = x.
Proof.
  intros y x. unfold Ratan2.
  assert (Hxy : 0 <= x * x + y * y) by nra.
  destruct (Rlt_dec 0 x) as [Hx|Hx]; [|destruct (Rlt_dec x 0) as [Hx'|Hx']].
  - rewrite cos_atan. unfold Rsqr.
    set (t := y / x). assert (Ht : t * x = y) by (unfold t; field; lra).
    assert (Hu : 0 < sqrt (1 + t * t)) by (apply sqrt_lt_R0; nra).
    assert (Hu2 : sqrt (1 + t * t) * sqrt (1 + t * t) = 1 + t * t)
      by (apply sqrt_sqrt; nra).
    rewrite (@sqrt_unique_nonneg (x * x + y * y) (x * sqrt (1 + t * t)));
      [field; lra|nra|exact Hxy|].
    rewrite <- Ht. nra.
  - assert (Hc : forall s : R, cos (atan (y / x) + s * PI) = - cos (atan (y / x)) -> 
                 sqrt (x * x + y * y) * cos (atan (y / x) + s * PI) = x).
    { intros s Hs. rewrite Hs, cos_atan. unfold Rsqr.
      set (t := y / x). assert (Ht : t * x = y) by (unfold t; field; lra).
      assert (Hu : 0 < sqrt (1 + t * t)) by (apply sqrt_lt_R0; nra).
      assert (Hu2 : sqrt (1 + t * t) * sqrt (1 + t * t) = 1 + t * t)
        by (apply sqrt_sqrt; nra).
      rewrite (@sqrt_unique_nonneg (x * x + y * y) (- x * sqrt (1 + t * t)));
        [field; lra|nra|exact Hxy|].
      rewrite <- Ht. nra. }
    destruct (Rle_dec 0 y).
    + replace (atan (y / x) + PI) with (atan (y / x) + 1 * PI) by ring.
      apply Hc. rewrite Rmult_1_l. apply neg_cos.
    + replace (atan (y / x) - PI) with (atan (y / x) + (-1) * PI) by ring.
      apply Hc. replace (atan (y / x) + -1 * PI) with (atan (y / x) - PI) by ring.
      rewrite <- (Ropp_involutive (cos (atan (y / x) - PI))).
      rewrite <- neg_cos. f_equal. f_equal. ring.
  - assert (x = 0) by lra. subst x.
    destruct (Rlt_dec 0 y); [rewrite cos_PI2; ring|].
    destruct (Rlt_dec y 0); [rewrite cos_neg, cos_PI2; ring|].
    assert (y = 0) by lra. subst y.
    replace (0 * 0 + 0 * 0) with 0 by ring. rewrite sqrt_0. ring.
Qed.

(** The identities behind the closed form. *)
Lemma closed_form_norm :
  forall s c sd cd st ct : R,
    s * s + c * c = 1 -> sd * sd + cd * cd = 1 -> st * st + ct * ct = 1 ->
    let S := s * cd + c * sd * ct in
    let x := cd - s * S in
    let y := st * sd * c in
    x * x + y * y = (c * c) * (1 - S * S).
Proof.
  intros s c sd cd st ct Hs Hd Ht S x y. subst S x y.
  set (W := c * cd - s * sd * ct).
  assert (H : (cd - s * (s * cd + c * sd * ct)) * (cd - s * (s * cd + c * sd * ct))
              + st * sd * c * (st * sd * c)
              - c * c * (1 - (s * cd + c * sd * ct) * (s * cd + c * sd * ct))
              = (s * s + c * c - 1)
                * (- 2 * c * W * cd + cd * cd * (s * s + c * c - 1)
                   + c * c * (cd * cd + sd * sd * (ct * ct)))
                + c * c * (sd * sd + cd * cd - 1)
                + c * c * (sd * sd) * (st * st + ct * ct - 1))
    by (unfold W; ring).
  rewrite Hs, Hd, Ht in H.
  replace (1 - 1) with 0 in H by ring.
  rewrite !Rmult_0_l, !Rmult_0_r, !Rplus_0_l in H. lra.
Qed.

(** X3.  Over the real numbers, from a latitude in [[-90, 90]], the
    destination lies at the central angle [d / 6371] from the start: the
    spherical law of cosines between the two points gives [cos (d / 6371)]. *)
Theorem destination_at_distance :
  forall lat1 lon1 d b : R,
    -90 <= lat1 <= 90 ->
    let dest := Script33._calculate_destination exact_reals lat1 lon1 d b in
    let phi1 := radians exact_reals lat1 in
    let phi2 := radians exact_reals (fst dest) in
    let dlambda := radians exact_reals (snd dest) - radians exact_reals lon1 in
    sin phi1 * sin phi2 + cos phi1 * cos phi2 * cos dlambda = cos (d / 6371).
Proof.
  intros lat1 lon1 d b Hlat dest phi1 phi2 dlambda.
  subst dest phi2 dlambda.
  rewrite calculate_destination_33_reals_unfold. cbn [fst snd].
  rewrite !radians_degrees_over_reals.
  fold phi1.
  set (t := radians exact_reals b). set (dl := d / 6371).
  set (S := sin phi1 * cos dl + cos phi1 * sin dl * cos t).
  assert (HS : -1 <= S <= 1) by apply asin_argument_in_domain.
  rewrite (sin_asin S HS).
  set (y := sin t * sin dl * cos phi1). set (x := cos dl - sin phi1 * S).
  replace (radians exact_reals lon1 + Ratan2 y x - radians exact_reals lon1)
    with (Ratan2 y x) by ring.
  pose proof (asin_bound S) as [Hb1 Hb2].
  assert (Hc2 : 0 <= cos (asin S)) by (apply cos_ge_0; lra).
  assert (Hc1 : 0 <= cos phi1).
  { apply cos_ge_0; unfold phi1; rewrite radians_reals;
      pose proof PI_RGT_0; nra. }
  assert (Hsq2 : cos (asin S) * cos (asin S) = 1 - S * S).
  { pose proof (sin2_cos2 (asin S)) as H. unfold Rsqr in H.
    rewrite (sin_asin S HS) in H. lra. }
  assert (Hnorm : x * x + y * y = (cos phi1 * cos phi1) * (1 - S * S)).
  { pose proof (sin2_cos2 phi1) as H1. pose proof (sin2_cos2 dl) as H2.
    pose proof (sin2_cos2 t) as H3. unfold Rsqr in H1, H2, H3.
    exact (closed_form_norm H1 H2 H3). }
  assert (Hr : sqrt (x * x + y * y) = cos phi1 * cos (asin S)).
  { apply sqrt_unique_nonneg; [nra|nra|]. rewrite Hnorm. nra. }
  pose proof (cos_Ratan2 y x) as Hcos. rewrite Hr in Hcos.
  rewrite Hcos. unfold x. ring.
Qed.

(** X4.  Over the real numbers, due north (bearing 0) the latitude grows by
    the angle [d / 6371] in degrees and the longitude stays, as long as the
    pole is not reached. *)
Theorem due_north_adds_latitude :
  forall lat1 lon1 d : R,
    -90 < lat1 -> 0 <= d -> lat1 + degrees exact_reals (d / 6371) < 90 ->
    Script33._calculate_destination exact_reals lat1 lon1 d 0
    = (lat1 + degrees exact_reals (d / 6371), lon1)
    /\ Script88._calculate_destination exact_reals lat1 lon1 d 0
       = Ok (lat1 + degrees exact_reals (d / 6371), lon1).
Proof.
  intros lat1 lon1 d Hlat Hd Hsum.
  assert (H33 : Script33._calculate_destination exact_reals lat1 lon1 d 0
                = (lat1 + degrees exact_reals (d / 6371), lon1)).
  { rewrite calculate_destination_33_reals_unfold.
    set (a := radians exact_reals lat1). set (dl := d / 6371) in *.
    pose proof PI_RGT_0 as Hpi.
    assert (Hk : 0 < PI / 180) by (apply Rdiv_lt_0_compat; lra).
    assert (Hdl : 0 <= dl) by (unfold dl; apply Rle_mult_inv_pos; lra).
    assert (Ha : - (PI / 2) < a).
    { unfold a. rewrite radians_reals.
      replace (- (PI / 2)) with (-90 * (PI / 180)) by field. nra. }
    assert (Hadl : a + dl < PI / 2).
    { rewrite degrees_reals in Hsum. unfold a. rewrite radians_reals.
      replace (PI / 2) with (90 * (PI / 180)) by field.
      assert (E : lat1 * (PI / 180) + dl
                  = (lat1 + dl * (180 / PI)) * (PI / 180)) by (field; lra).
      rewrite E. apply Rmult_lt_compat_r; assumption. }
    replace (radians exact_reals 0) with 0 by (rewrite radians_reals; ring).
    rewrite sin_0, cos_0.
    replace (sin a * cos dl + cos a * sin dl * 1) with (sin (a + dl))
      by (rewrite sin_plus; ring).
    rewrite asin_sin by lra.
    replace (0 * sin dl * cos a) with 0 by ring.
    rewrite Ratan2_zero_right.
    - rewrite Rplus_0_r, degrees_radians_over_reals. f_equal.
      unfold a. rewrite !degrees_reals, radians_reals. field. lra.
    - assert (E : cos dl - sin a * sin (a + dl) = cos a * cos (a + dl)).
      { replace dl with ((a + dl) - a) at 1 by ring. rewrite cos_minus. ring. }
      rewrite E. apply Rmult_lt_0_compat; apply cos_gt_0; lra. }
  split; [exact H33|].
  rewrite calculate_destination_88_over_reals, H33. reflexivity.
Qed.

Lemma Ratan2_sin_cos :
  forall x : R, 0 <= x < PI / 2 -> Ratan2 (sin x) (cos x) = x.
Proof.
  intros x [H0 H1]. unfold Ratan2.
  assert (Hc : 0 < cos x) by (apply cos_gt_0; lra).
  destruct (Rlt_dec 0 (cos x)); [|contradiction].
  change (sin x / cos x) with (tan x). apply atan_tan. lra.
Qed.

(** X5.  Over the real numbers, due east (bearing 90) from the equator the
    latitude stays 0 and the longitude grows by the angle [d / 6371] in
    degrees, for less than a quarter of the circumference. *)
Theorem due_east_on_equator_adds_longitude :
  forall lon1 d : R,
    0 <= d -> d / 6371 < PI / 2 ->
    Script33._calculate_destination exact_reals 0 lon1 d 90
    = (0, lon1 + degrees exact_reals (d / 6371))
    /\ Script88._calculate_destination exact_reals 0 lon1 d 90
       = Ok (0, lon1 + degrees exact_reals (d / 6371)).
Proof.
  intros lon1 d Hd Hq.
  assert (H33 : Script33._calculate_destination exact_reals 0 lon1 d 90
                = (0, lon1 + degrees exact_reals (d / 6371))).
  { rewrite calculate_destination_33_reals_unfold.
    set (dl := d / 6371) in *.
    pose proof PI_RGT_0 as Hpi.
    assert (Hdl : 0 <= dl) by (unfold dl; apply Rle_mult_inv_pos; lra).
    replace (radians exact_reals 0) with 0 by (rewrite radians_reals; ring).
    replace (radians exact_reals 90) with (PI / 2)
      by (rewrite radians_reals; field).
    rewrite sin_0, cos_0, sin_PI2, cos_PI2.
    replace (0 * cos dl + 1 * sin dl * 0) with 0 by ring.
    rewrite asin_0, sin_0.
    replace (1 * sin dl * 1) with (sin dl) by ring.
    replace (cos dl - 0 * 0) with (cos dl) by ring.
    rewrite Ratan2_sin_cos by lra.
    f_equal.
    - rewrite degrees_reals. ring.
    - rewrite !degrees_reals, radians_reals. field. lra. }
  split; [exact H33|].
  rewrite calculate_destination_88_over_reals, H33. reflexivity.
Qed.

Lemma radians_full_turn :
  forall b : R, radians exact_reals (b + 360) = radians exact_reals b + 2 * INR 1 * PI.
Proof.
  intro b. rewrite !radians_reals. cbn [INR]. field.
Qed.

(** X6.  Over the real numbers a bearing and the same bearing plus 360
    degrees give the same destination, in both scripts. *)
Theorem bearing_full_turn :
  forall lat1 lon1 d b : R,
    Script33._calculate_destination exact_reals lat1 lon1 d (b + 360)
    = Script33._calculate_destination exact_reals lat1 lon1 d b
    /\ Script88._calculate_destination exact_reals lat1 lon1 d (b + 360)
       = Script88._calculate_destination exact_reals lat1 lon1 d b.
Proof.
  intros lat1 lon1 d b.
  assert (H33 : Script33._calculate_destination exact_reals lat1 lon1 d (b + 360)
                = Script33._calculate_destination exact_reals lat1 lon1 d b).
  { rewrite !calculate_destination_33_reals_unfold.
    rewrite radians_full_turn, sin_period, cos_period. reflexivity. }
  split; [exact H33|].
  rewrite !calculate_destination_88_over_reals, H33. reflexivity.
Qed.

(** X7.  Over the real numbers a shift of the starting longitude shifts the
    destination longitude by as much and leaves the destination latitude. *)
Theorem longitude_shift :
  forall lat1 lon1 d b c : R,
    Script33._calculate_destination exact_reals lat1 (lon1 + c) d b
    = (fst (Script33._calculate_destination exact_reals lat1 lon1 d b),
       snd (Script33._calculate_destination exact_reals lat1 lon1 d b) + c).
Proof.
  intros. rewrite !calculate_destination_33_reals_unfold. cbn [fst snd].
  f_equal. rewrite !degrees_reals, !radians_reals. field. apply PI_neq0.
Qed.

(** X3, witness: from (40, -74), 1000 km on bearing 45. *)
Lemma destination_at_distance_witness :
  (-90 <= 40 <= 90)
  /\ (let dest := Script33._calculate_destination exact_reals 40 (-74) 1000 45 in
      sin (radians exact_reals 40) * sin (radians exact_reals (fst dest))
      + cos (radians exact_reals 40) * cos (radians exact_reals (fst dest))
        * cos (radians exact_reals (snd dest) - radians exact_reals (-74))
      = cos (1000 / 6371)).
Proof.
  assert (H : -90 <= 40 <= 90) by lra.
  split; [exact H|].
  exact (destination_at_distance (-74) 1000 45 H).
Defined.

(** X4, witness: from (40, -74), 1000 km due north. *)
Lemma due_north_adds_latitude_witness :
  (-90 < 40) /\ (0 <= 1000) /\ (40 + degrees exact_reals (1000 / 6371) < 90)
  /\ Script33._calculate_destination exact_reals 40 (-74) 1000 0
     = (40 + degrees exact_reals (1000 / 6371), -74)
  /\ Script88._calculate_destination exact_reals 40 (-74) 1000 0
     = Ok (40 + degrees exact_reals (1000 / 6371), -74).
Proof.
  assert (H1 : -90 < 40) by lra.
  assert (H2 : 0 <= 1000) by lra.
  assert (H3 : 40 + degrees exact_reals (1000 / 6371) < 90).
  { rewrite degrees_reals. pose proof PI2_3_2 as Hpi.
    assert (Hq : 180 / PI * PI = 180) by (field; lra).
    assert (Hq0 : 0 < 180 / PI) by (apply Rdiv_lt_0_compat; lra).
    nra. }
  split; [exact H1|]. split; [exact H2|]. split; [exact H3|].
  exact (due_north_adds_latitude (-74) H1 H2 H3).
Defined.

(** X5, witness: from (0, 3), 1000 km due east. *)
Lemma due_east_on_equator_witness :
  (0 <= 1000) /\ (1000 / 6371 < PI / 2)
  /\ Script33._calculate_destination exact_reals 0 3 1000 90
     = (0, 3 + degrees exact_reals (1000 / 6371))
  /\ Script88._calculate_destination exact_reals 0 3 1000 90
     = Ok (0, 3 + degrees exact_reals (1000 / 6371)).
Proof.
  assert (H1 : 0 <= 1000) by lra.
  assert (H2 : 1000 / 6371 < PI / 2) by (pose proof PI2_3_2; lra).
  split; [exact H1|]. split; [exact H2|].
  exact (due_east_on_equator_adds_longitude 3 H1 H2).
Defined.
End RealGeometry.

(* ================================================================== *)
(** * Further properties of the creation methods *)

Section CreationSequences.
Context {F : Type} (h : Host F).
Variable create_satellite :
  SatelliteNetworkAnalyzer F -> string -> F -> F -> F -> F -> F -> F ->
  result (Satellite F * SatelliteNetworkAnalyzer F).
Variable create_aircraft :
  SatelliteNetworkAnalyzer F -> string -> F -> F -> F -> F -> F ->
  result (Aircraft F * SatelliteNetworkAnalyzer F).

Hypothesis step_grows :
  forall (c : @Creation F) (self self' : SatelliteNetworkAnalyzer F),
    creation_step h create_satellite create_aircraft self c = Ok self' ->
    grown_by c self self'.

Lemma names_app :
  forall cs1 cs2 : list (@Creation F),
    satellite_names (cs1 ++ cs2) = satellite_names cs1 ++ satellite_names cs2
    /\ ground_station_names (cs1 ++ cs2)
       = ground_station_names cs1 ++ ground_station_names cs2
    /\ aircraft_names (cs1 ++ cs2) = aircraft_names cs1 ++ aircraft_names cs2.
Proof.
  intros. unfold satellite_names, ground_station_names, aircraft_names.
  rewrite !flat_map_app. auto.
Qed.

(** The invariant along a sequence of calls that all return. *)
Lemma creations_grow :
  forall (cs : list (@Creation F)) (self self' : SatelliteNetworkAnalyzer F),
    foldM (creation_step h create_satellite create_aircraft) cs self = Ok self' ->
    scenario self' = scenario self
    /\ scenario_name self' = scenario_name self
    /\ map (@sat_InstanceName F) (satellites self')
       = map (@sat_InstanceName F) (satellites self) ++ satellite_names cs
    /\ map (@fac_InstanceName F) (ground_stations self')
       = map (@fac_InstanceName F) (ground_stations self)
         ++ ground_station_names cs
    /\ map (@ac_InstanceName F) (aircraft self')
       = map (@ac_InstanceName F) (aircraft self) ++ aircraft_names cs
    /\ (Forall (fun ac => List.length (ac_Waypoints ac) = 2) (aircraft self) ->
        Forall (fun ac => List.length (ac_Waypoints ac) = 2) (aircraft self')).
Proof.
  induction cs as [|c cs IH]; intros self self' H; cbn [foldM] in H.
  - injection H as <-. unfold satellite_names, ground_station_names,
      aircraft_names. cbn. rewrite !app_nil_r. auto 10.
  - destruct (creation_step h create_satellite create_aircraft self c)
      as [self1|e] eqn:E; cbn [bind] in H; [|discriminate H].
    destruct (step_grows _ _ E) as (H1 & H2 & H3 & H4 & H5 & H6).
    destruct (IH _ _ H) as (K1 & K2 & K3 & K4 & K5 & K6).
    destruct (names_app [c] cs) as (A1 & A2 & A3).
    change (c :: cs) with ([c] ++ cs).
    rewrite A1, A2, A3, !app_assoc, <- H3, <- H4, <- H5.
    repeat split; try congruence. auto.
Qed.
End CreationSequences.

Lemma creation_step_33_grows :
  forall (F : Type) (N : Numeric F) (h : Host F) (c : @Creation F)
         (self self' : SatelliteNetworkAnalyzer F),
    creation_step h (Script33.create_satellite h) (Script33.create_aircraft N h)
                  self c = Ok self' ->
    grown_by c self self'.
Proof.
  intros F N h c self self' H. unfold grown_by.
  destruct c; cbn [creation_step] in H.
  - unfold Script33.create_satellite, scenario_of in H.
    destruct (scenario self) as [sc|] eqn:E; [|discriminate H]. cbn [bind] in H.
    injection H as <-. cbn. rewrite ?E, !map_app, !app_nil_r. auto 10.
  - unfold create_ground_station, scenario_of in H.
    destruct (scenario self) as [sc|] eqn:E; [|discriminate H]. cbn [bind] in H.
    injection H as <-. cbn. rewrite ?E, !map_app, !app_nil_r. auto 10.
  - rewrite create_aircraft_33_route in H.
    destruct (scenario self) as [sc|] eqn:E; [|discriminate H]. cbn [bind] in H.
    injection H as <-. cbn. rewrite ?E, !map_app, !app_nil_r.
    repeat split; try reflexivity.
    intro Hall. apply Forall_app. split; [exact Hall|].
    constructor; [reflexivity|constructor].
Qed.

Lemma creation_step_88_grows :
  forall (F : Type) (N : Numeric F) (h : Host F) (c : @Creation F)
         (self self' : SatelliteNetworkAnalyzer F),
    creation_step h (Script88.create_satellite h) (Script88.create_aircraft N h)
                  self c = Ok self' ->
    grown_by c self self'.
Proof.
  intros F N h c self self' H. unfold grown_by.
  destruct c; cbn [creation_step] in H.
  - unfold Script88.create_satellite, scenario_of in H.
    destruct (scenario self) as [sc|] eqn:E; [|discriminate H]. cbn [bind] in H.
    injection H as <-. cbn. rewrite ?E, !map_app, !app_nil_r. auto 10.
  - unfold create_ground_station, scenario_of in H.
    destruct (scenario self) as [sc|] eqn:E; [|discriminate H]. cbn [bind] in H.
    injection H as <-. cbn. rewrite ?E, !map_app, !app_nil_r. auto 10.
  - rewrite create_aircraft_88_route in H.
    destruct (scenario self) as [sc|] eqn:E; [|discriminate H].
    destruct (Script88._calculate_destination N lat lon (of_Z N 1000) heading);
      [|discriminate H].
    cbn [bind] in H. injection H as <-. cbn. rewrite ?E, !map_app, !app_nil_r.
    repeat split; try reflexivity.
    intro Hall. apply Forall_app. split; [exact Hall|].
    constructor; [reflexivity|constructor].
Qed.

Lemma creations33_return :
  forall (F : Type) (N : Numeric F) (h : Host F) (cs : list (@Creation F))
         (self : SatelliteNetworkAnalyzer F),
    scenario self <> None ->
    exists self' : SatelliteNetworkAnalyzer F, creations33 N h cs self = Ok self'.
Proof.
  intros F N h cs. unfold creations33.
  induction cs as [|c cs IH]; intros self Hsc; cbn [foldM].
  - eexists. reflexivity.
  - assert (Hstep : exists self1,
               creation_step h (Script33.create_satellite h)
                             (Script33.create_aircraft N h) self c = Ok self1
               /\ scenario self1 = scenario self).
    { destruct c; cbn [creation_step].
      - unfold Script33.create_satellite, scenario_of.
        destruct (scenario self) eqn:E; [|contradiction]. cbn [bind].
        eexists. split; [reflexivity|]. cbn. congruence.
      - unfold create_ground_station, scenario_of.
        destruct (scenario self) eqn:E; [|contradiction]. cbn [bind].
        eexists. split; [reflexivity|]. cbn. congruence.
      - rewrite create_aircraft_33_route.
        destruct (scenario self) eqn:E; [|contradiction]. cbn [bind].
        eexists. split; [reflexivity|]. cbn. congruence. }
    destruct Hstep as (self1 & Hstep & Hsc1). rewrite Hstep. cbn [bind].
    apply IH. rewrite Hsc1. exact Hsc.
Qed.

Lemma creations_need_scenario :
  forall (F : Type) (N : Numeric F) (h : Host F) (c : @Creation F)
         (cs : list (@Creation F)) (self : SatelliteNetworkAnalyzer F),
    scenario self = None ->
    creations33 N h (c :: cs) self = Raise AttributeError
    /\ creations88 N h (c :: cs) self = Raise AttributeError.
Proof.
  intros F N h c cs self Hsc. unfold creations33, creations88. cbn [foldM].
  split; destruct c; cbn [creation_step];
    rewrite ?create_aircraft_33_route, ?create_aircraft_88_route;
    unfold Script33.create_satellite, Script88.create_satellite,
      create_ground_station, scenario_of;
    rewrite Hsc; reflexivity.
Qed.

(** X8.  Along any sequence of calls of [create_satellite],
    [create_ground_station] and [create_aircraft]: on an analyzer without a
    scenario the first call raises [AttributeError]; when the calls all
    return, the scenario is the one before, the names in [self.satellites],
    [self.ground_stations] and [self.aircraft] are the names before followed
    by the names given to the calls of that kind, in call order, and if
    every aircraft had two waypoints before, every aircraft has two
    waypoints after; and in the first script, on an analyzer with a
    scenario, every sequence returns. *)
Theorem creation_sequences_keep_names_in_order :
  forall (F : Type) (N : Numeric F) (h : Host F) (cs : list (@Creation F))
         (self : SatelliteNetworkAnalyzer F),
    (scenario self = None -> cs <> [] ->
     creations33 N h cs self = Raise AttributeError
     /\ creations88 N h cs self = Raise AttributeError)
    /\ (forall self' : SatelliteNetworkAnalyzer F,
           creations33 N h cs self = Ok self'
           \/ creations88 N h cs self = Ok self' ->
           scenario self' = scenario self
           /\ map (@sat_InstanceName F) (satellites self')
              = map (@sat_InstanceName F) (satellites self)
                ++ satellite_names cs
           /\ map (@fac_InstanceName F) (ground_stations self')
              = map (@fac_InstanceName F) (ground_stations self)
                ++ ground_station_names cs
           /\ map (@ac_InstanceName F) (aircraft self')
              = map (@ac_InstanceName F) (aircraft self) ++ aircraft_names cs
           /\ (Forall (fun ac => List.length (ac_Waypoints ac) = 2)
                      (aircraft self) ->
               Forall (fun ac => List.length (ac_Waypoints ac) = 2)
                      (aircraft self')))
    /\ (scenario self <> None ->
        exists self' : SatelliteNetworkAnalyzer F,
          creations33 N h cs self = Ok self').
Proof.
  intros F N h cs self. split; [|split].
  - intros Hsc Hne. destruct cs as [|c cs]; [contradiction|].
    apply creations_need_scenario. exact Hsc.
  - intros self' [H|H].
    + destruct (@creations_grow _ _ _ _ (@creation_step_33_grows F N h)
                                cs self self' H)
        as (H1 & _ & H3 & H4 & H5 & H6). auto.
    + destruct (@creations_grow _ _ _ _ (@creation_step_88_grows F N h)
                                cs self self' H)
        as (H1 & _ & H3 & H4 & H5 & H6). auto.
  - apply creations33_return.
Qed.

(** The calls of [main] for its first satellite, ground station and
    aircraft, in the sample scenario. *)
Example sample_creations_names :
  exists self',
    creations88 (binary64 sample_libm sample_libm) sample_host
                sample_creations sample_self
    = Ok self'
    /\ map (@sat_InstanceName float) (satellites self') = ["LEO_Sat_1"]%string
    /\ map (@fac_InstanceName float) (ground_stations self')
       = ["GS_NewYork"]%string
    /\ map (@ac_InstanceName float) (aircraft self') = ["Flight_AA100"]%string.
Proof.
  eexists. split; [vm_compute; reflexivity|]. repeat split; reflexivity.
Qed.

(* ================================================================== *)
(** * The elevation constraint inside [analyze_network] *)

Section ConstrainedAccesses.
Context {F : Type} (N : Numeric F) (h : Host F).
Variable self : SatelliteNetworkAnalyzer F.

Lemma Forall_product :
  forall (A B C : Type) (P : C -> Prop) (mk : A -> B -> C)
         (xs : list A) (ys : list B),
    (forall x y, P (mk x y)) ->
    Forall P (flat_map (fun x => map (mk x) ys) xs).
Proof.
  intros A B C P mk xs ys H. apply Forall_flat_map.
  apply Forall_forall. intros x _. apply Forall_map.
  apply Forall_forall. intros y _. apply H.
Qed.

(** The accesses [analyze_network] computes, in three runs. *)
Lemma product_accesses :
  forall (compute_access : StkObject F -> StkObject F -> F -> Access F) (m : F),
    map (access_of compute_access) (product_calls N self m)
    = flat_map (fun sat =>
                  map (fun gs => compute_access (ObjFacility gs)
                                                (ObjSatellite sat) m)
                      (ground_stations self)) (satellites self)
      ++ flat_map (fun sat =>
                     map (fun ac => compute_access (ObjAircraft ac)
                                                   (ObjSatellite sat)
                                                   (of_Z N 10))
                         (aircraft self)) (satellites self)
      ++ flat_map (fun gs =>
                     map (fun ac => compute_access (ObjFacility gs)
                                                   (ObjAircraft ac) m)
                         (aircraft self)) (ground_stations self).
Proof.
  intros. unfold product_calls. rewrite !map_app, !map_product. reflexivity.
Qed.
End ConstrainedAccesses.

(** X9.  The accesses [analyze_network] computes come in three runs: the
    satellite and ground-station pairs, computed from the ground station,
    the satellite and aircraft pairs, computed from the aircraft, and the
    ground-station and aircraft pairs, computed from the ground station.  In
    the first script every access of the first and third run has the
    minimum elevation enabled and set to [min_elevation_deg]; in both
    scripts no access of the second run has an elevation constraint: the
    default 10 its calls pass is never applied. *)
Theorem analyze_network_constrains_ground_station_accesses :
  forall (F : Type) (N : Numeric F) (h : Host F)
         (self : SatelliteNetworkAnalyzer F) (m : F),
    (exists (results : list (string * list (Interval F)))
            (from_gs_to_sat from_ac_to_sat from_gs_to_ac : list (Access F)),
        Script33.analyze_network N h self m
        = Ok (results, from_gs_to_sat ++ from_ac_to_sat ++ from_gs_to_ac)
        /\ List.length from_gs_to_sat
           = List.length (satellites self) * List.length (ground_stations self)
        /\ List.length from_ac_to_sat
           = List.length (satellites self) * List.length (aircraft self)
        /\ List.length from_gs_to_ac
           = List.length (ground_stations self) * List.length (aircraft self)
        /\ Forall (fun a => is_Facility (acc_from a) = true
                            /\ ClassName (acc_to a) = "Satellite"%string
                            /\ acc_ElevationMin a = Some m) from_gs_to_sat
        /\ Forall (fun a => ClassName (acc_from a) = "Aircraft"%string
                            /\ ClassName (acc_to a) = "Satellite"%string
                            /\ elevation_constraint a = None) from_ac_to_sat
        /\ Forall (fun a => is_Facility (acc_from a) = true
                            /\ ClassName (acc_to a) = "Aircraft"%string
                            /\ acc_ElevationMin a = Some m) from_gs_to_ac)
    /\ (exists (results : list (string * list (Interval F)))
               (from_gs_to_sat from_ac_to_sat from_gs_to_ac : list (Access F)),
           Script88.analyze_network N h self m
           = Ok (results, from_gs_to_sat ++ from_ac_to_sat ++ from_gs_to_ac)
           /\ List.length from_gs_to_sat
              = List.length (satellites self)
                * List.length (ground_stations self)
           /\ List.length from_ac_to_sat
              = List.length (satellites self) * List.length (aircraft self)
           /\ List.length from_gs_to_ac
              = List.length (ground_stations self)
                * List.length (aircraft self)
           /\ Forall (fun a => ClassName (acc_from a) = "Aircraft"%string
                               /\ ClassName (acc_to a) = "Satellite"%string
                               /\ elevation_constraint a = None)
                     from_ac_to_sat).
Proof.
  intros F N h self m. split.
  - destruct (analyze_network_with_products N h (@Script33.compute_access F)
                                            self m)
      as (results & accesses & Hres & _ & _ & Hacc & _ & _).
    rewrite product_accesses in Hacc. subst accesses.
    exists results. eexists. eexists. eexists.
    split; [exact Hres|].
    rewrite !length_product.
    split; [reflexivity|]. split; [reflexivity|]. split; [reflexivity|].
    split; [|split]; apply Forall_product; intros x y; cbn; auto.
  - destruct (analyze_network_with_products N h (@Script88.compute_access F)
                                            self m)
      as (results & accesses & Hres & _ & _ & Hacc & _ & _).
    rewrite product_accesses in Hacc. subst accesses.
    exists results. eexists. eexists. eexists.
    split; [exact Hres|].
    rewrite !length_product.
    split; [reflexivity|]. split; [reflexivity|]. split; [reflexivity|].
    apply Forall_product; intros x y; cbn; auto.
Qed.

(* ================================================================== *)
(** * Further properties of [analyze_network] *)


(** X10.  Without a scenario ([create_scenario] never called)
    [analyze_network] still computes every access of the three products and
    returns an entry for every pair, and every entry is the empty list. *)
Theorem analyze_network_without_scenario :
  forall (F : Type) (N : Numeric F) (h : Host F)
         (self : SatelliteNetworkAnalyzer F) (m : F),
    scenario self = None ->
    (exists (results : list (string * list (Interval F)))
            (accesses : list (Access F)),
        Script33.analyze_network N h self m = Ok (results, accesses)
        /\ (forall k : string,
               In k (dict_keys results) <-> In k (product_keys self))
        /\ (forall (k : string) (v : list (Interval F)),
               dict_get k results = Some v -> v = [])
        /\ List.length accesses = List.length (product_calls N self m))
    /\ (exists (results : list (string * list (Interval F)))
               (accesses : list (Access F)),
           Script88.analyze_network N h self m = Ok (results, accesses)
           /\ (forall k : string,
                  In k (dict_keys results) <-> In k (product_keys self))
           /\ (forall (k : string) (v : list (Interval F)),
                  dict_get k results = Some v -> v = [])
           /\ List.length accesses = List.length (product_calls N self m)).
Proof.
  intros F N h self m Hsc. split.
  - apply (analyze_network_with_no_scenario N h (@Script33.compute_access F)).
    exact Hsc.
  - apply (analyze_network_with_no_scenario N h (@Script88.compute_access F)).
    exact Hsc.
Qed.

(** X10, witness. *)
Lemma analyze_network_without_scenario_witness :
  scenario network_without_scenario = None
  /\ (exists results accesses,
         Script33.analyze_network (binary64 sample_libm sample_libm)
           sample_host network_without_scenario 10%float
         = Ok (results, accesses)
         /\ (forall k : string,
                In k (dict_keys results)
                <-> In k (product_keys network_without_scenario))
         /\ (forall (k : string) (v : list (Interval float)),
                dict_get k results = Some v -> v = [])
         /\ List.length accesses
            = List.length (product_calls (binary64 sample_libm sample_libm)
                             network_without_scenario 10%float)).
Proof.
  split; [reflexivity|].
  exact (proj1 (@analyze_network_without_scenario float
                  (binary64 sample_libm sample_libm) sample_host
                  network_without_scenario 10%float eq_refl)).
Defined.

Section ExportAfterAnalysis.
Context {F : Type} (N : Numeric F) (h : Host F).
Variable compute_access : StkObject F -> StkObject F -> F -> Access F.
Variable self : SatelliteNetworkAnalyzer F.

Lemma entries_interval_counts :
  forall calls : list (@Call F),
    map (fun item : string * list (Interval F) => List.length (snd item))
        (map (entry_of h compute_access self) calls)
    = map (fun a => List.length (intervals_of h self a))
          (map (access_of compute_access) calls).
Proof.
  intro calls. rewrite !map_map. apply map_ext. intro c. reflexivity.
Qed.

Lemma export_after_analysis_with :
  forall m : F,
    NoDup (product_keys self) ->
    exists (results : list (string * list (Interval F)))
           (accesses : list (Access F)),
      analyze_network_with N h compute_access self m = Ok (results, accesses)
      /\ List.length (values (export_results_to_csv results))
         = list_sum (map (fun a => List.length (intervals_of h self a))
                         accesses).
Proof.
  intros m Hnd.
  rewrite (analyze_network_with_distinct_keys N h compute_access self m Hnd).
  eexists. eexists. split; [reflexivity|].
  unfold export_results_to_csv, pd_DataFrame. cbn [values].
  rewrite length_map, export_data_rows, length_rows.
  rewrite entries_interval_counts. reflexivity.
Qed.
End ExportAfterAnalysis.

(** X11.  When the keys of the pairs, ["<sat>-<gs>"], ["<sat>-<aircraft>"]
    and ["<aircraft>-<gs>"], are pairwise distinct, the frame
    [export_results_to_csv] builds from the dictionary [analyze_network]
    returns has one row per interval of every access computed: the number of
    rows is the sum, over the accesses of the three products, of the number
    of intervals [get_access_intervals] returns for each. *)
Theorem export_after_analysis_counts_every_interval :
  forall (F : Type) (N : Numeric F) (h : Host F)
         (self : SatelliteNetworkAnalyzer F) (m : F),
    NoDup (product_keys self) ->
    (exists (results : list (string * list (Interval F)))
            (accesses : list (Access F)),
        Script33.analyze_network N h self m = Ok (results, accesses)
        /\ List.length (values (export_results_to_csv results))
           = list_sum (map (fun a => List.length (intervals_of h self a))
                           accesses))
    /\ (exists (results : list (string * list (Interval F)))
               (accesses : list (Access F)),
           Script88.analyze_network N h self m = Ok (results, accesses)
           /\ List.length (values (export_results_to_csv results))
              = list_sum (map (fun a => List.length (intervals_of h self a))
                              accesses)).
Proof.
  intros F N h self m Hnd. split.
  - apply (export_after_analysis_with N h (@Script33.compute_access F)).
    exact Hnd.
  - apply (export_after_analysis_with N h (@Script88.compute_access F)).
    exact Hnd.
Qed.

Lemma sample_network_keys : NoDup (product_keys sample_network).
Proof.
  vm_compute.
  repeat constructor; cbn; intuition discriminate.
Defined.

(** X11, witness: the sample network, three accesses of two intervals
    each. *)
Lemma export_after_analysis_witness :
  NoDup (product_keys sample_network)
  /\ exists results accesses,
       Script33.analyze_network (binary64 sample_libm sample_libm) sample_host
         sample_network 10%float
       = Ok (results, accesses)
       /\ List.length (values (export_results_to_csv results))
          = list_sum (map (fun a => List.length
                                      (intervals_of sample_host sample_network
                                                    a))
                          accesses).
Proof.
  split; [exact sample_network_keys|].
  exact (proj1 (@export_after_analysis_counts_every_interval float
                  (binary64 sample_libm sample_libm) sample_host
                  sample_network 10%float sample_network_keys)).
Defined.

(** X12.  When several pairs share a key, the entry under that key is the
    interval list of the last of them in the order of the loops: later
    results overwrite earlier ones. *)
Theorem analyze_network_last_result_wins :
  forall (F : Type) (N : Numeric F) (h : Host F)
         (self : SatelliteNetworkAnalyzer F) (m : F),
    (exists (results : list (string * list (Interval F)))
            (accesses : list (Access F)),
        Script33.analyze_network N h self m = Ok (results, accesses)
        /\ forall k : string,
             dict_get k results
             = last_entry k (map (entry_of h (@Script33.compute_access F) self)
                                 (product_calls N self m)))
    /\ (exists (results : list (string * list (Interval F)))
               (accesses : list (Access F)),
           Script88.analyze_network N h self m = Ok (results, accesses)
           /\ forall k : string,
                dict_get k results
                = last_entry k
                    (map (entry_of h (@Script88.compute_access F) self)
                         (product_calls N self m))).
Proof.
  intros F N h self m. split.
  - apply (analyze_network_with_last_wins N h (@Script33.compute_access F)).
  - apply (analyze_network_with_last_wins N h (@Script88.compute_access F)).
Qed.

(* ================================================================== *)
(** * Further properties of the outputs *)

Section Outputs.
Context {F : Type} (N : Numeric F) (format_2f : F -> string).

Lemma rows_of_empty_links :
  forall results : list (string * list (Interval F)),
    Forall (fun item => snd item = []) results ->
    flat_map (@rows_of_link F) results = [].
Proof.
  induction results as [|[link ivs] results IH]; intro H; cbn.
  - reflexivity.
  - inversion H as [|? ? H1 H2]; subst. cbn in H1. subst ivs.
    cbn. apply IH. exact H2.
Qed.

Lemma rows_of_some_link :
  forall results : list (string * list (Interval F)),
    Exists (fun item => snd item <> []) results ->
    exists (link : string) (interval : Interval F)
           (rows : list (list (string * Cell F))),
      flat_map (@rows_of_link F) results = row_of link interval :: rows.
Proof.
  induction results as [|[link ivs] results IH]; intro H.
  - inversion H.
  - destruct ivs as [|iv ivs].
    + inversion H as [? ? H1|? ? H1]; subst.
      * exfalso. apply H1. reflexivity.
      * destruct (IH H1) as (l & i & rows & Hrows).
        exists l, i, rows. cbn. exact Hrows.
    + exists link, iv. eexists. cbn. reflexivity.
Qed.

(** X13.  When no link has an interval, the exported frame has no row and
    no column, so the file gets no header line; as soon as one link has an
    interval the columns are the four names. *)
Theorem export_columns :
  forall results : list (string * list (Interval F)),
    (Forall (fun item => snd item = []) results ->
     export_results_to_csv results = {| columns := []; values := [] |})
    /\ (Exists (fun item => snd item <> []) results ->
        columns (export_results_to_csv results)
        = [ "Link"; "Start Time"; "Stop Time"; "Duration (sec)" ]%string).
Proof.
  intro results. unfold export_results_to_csv. cbv zeta.
  rewrite export_data_rows. split; intro H.
  - rewrite rows_of_empty_links by exact H. reflexivity.
  - destruct (rows_of_some_link H) as (link & iv & rows & Hrows).
    rewrite Hrows. reflexivity.
Qed.

Lemma report_link_length :
  forall item : string * list (Interval F),
  exists w : list string,
    report_link N format_2f item = Ok w
    /\ List.length w = lines_of_link item.
Proof.
  intros [link intervals]. unfold report_link, lines_of_link. cbn [snd].
  destruct intervals as [|iv ivs].
  - cbn. eexists. split; reflexivity.
  - cbn [truthy List.length Nat.eqb negb].
    rewrite truediv_int_nonzero by discriminate. cbn [bind].
    rewrite truediv_int_nonzero by (cbn [List.length]; lia). cbn [bind].
    eexists. split; reflexivity.
Qed.

Lemma write_links_length :
  forall (results : list (string * list (Interval F))) (written : list string),
  exists w : list string,
    write_links N format_2f written results = Ok w
    /\ List.length w
       = List.length written + list_sum (map (@lines_of_link F) results).
Proof.
  unfold write_links.
  induction results as [|item results IH]; intro written;
    cbn [foldM map list_sum fold_right].
  - eexists. split; [reflexivity|lia].
  - destruct (report_link_length item) as (w & Hw & Hlen). rewrite Hw.
    cbn [bind]. destruct (IH (written ++ w)) as (w' & Hw' & Hlen').
    exists w'. split; [exact Hw'|]. rewrite Hlen', length_app, Hlen.
    unfold list_sum. lia.
Qed.

(** X14.  [generate_report] on an analyzer without a scenario raises
    [AttributeError]; with a scenario it writes twelve strings before the
    loop and then, per link, four strings when the link has intervals and
    two when it has none. *)
Theorem generate_report_strings_written :
  forall (self : SatelliteNetworkAnalyzer F)
         (results : list (string * list (Interval F))),
    (scenario self = None ->
     generate_report N format_2f self results = Raise AttributeError)
    /\ (scenario self <> None ->
        exists written : list string,
          generate_report N format_2f self results = Ok written
          /\ List.length written
             = 12 + list_sum (map (@lines_of_link F) results)).
Proof.
  intros self results. unfold generate_report, scenario_of. split.
  - intros ->. reflexivity.
  - intro H. destruct (scenario self) as [sc|]; [|contradiction].
    cbn [bind]. cbv zeta.
    match goal with |- context [write_links _ _ ?p _] =>
      destruct (write_links_length results p) as (w & Hw & Hlen) end.
    exists w. split; [exact Hw|]. rewrite Hlen. reflexivity.
Qed.

Lemma getitem_seq :
  forall n i : nat, i < n -> getitem (seq 0 n) i = Ok i.
Proof.
  intros n i H. unfold getitem.
  rewrite (nth_error_nth' (seq 0 n) 0) by (rewrite length_seq; exact H).
  rewrite seq_nth by exact H. reflexivity.
Qed.

Lemma draw_bars_of_link :
  forall (n idx : nat) (link : string) (intervals : list (Interval F))
         (drawn : list (Bar F)),
    idx < n ->
    foldM (draw_bar N (seq 0 n) idx) intervals drawn
    = Ok (drawn ++ bars_of_link N (idx, (link, intervals))).
Proof.
  intros n idx link intervals drawn Hidx. revert drawn.
  induction intervals as [|iv ivs IH]; intro drawn; cbn [foldM].
  - unfold bars_of_link. cbn. rewrite app_nil_r. reflexivity.
  - unfold draw_bar at 1. rewrite (getitem_seq Hidx). cbn [bind].
    rewrite IH. unfold bars_of_link. cbn [fst snd map].
    rewrite <- app_assoc. reflexivity.
Qed.

Lemma draw_links :
  forall (n : nat) (entries : list (nat * (string * list (Interval F))))
         (drawn : list (Bar F)),
    Forall (fun e => fst e < n) entries ->
    foldM (draw_link N (seq 0 n)) entries drawn
    = Ok (drawn ++ flat_map (bars_of_link N) entries).
Proof.
  intros n entries. induction entries as [|[idx [link ivs]] entries IH];
    intros drawn H; cbn [foldM flat_map].
  - rewrite app_nil_r. reflexivity.
  - inversion H as [|? ? H1 H2]; subst. cbn [fst] in H1.
    unfold draw_link at 1.
    rewrite (draw_bars_of_link link ivs drawn H1). cbn [bind].
    rewrite IH by exact H2. rewrite <- app_assoc. reflexivity.
Qed.

Lemma enumerate_bounded :
  forall (A : Type) (l : list A),
    Forall (fun e => fst e < List.length l) (enumerate l).
Proof.
  intros A l. unfold enumerate. apply Forall_forall. intros [i x] Hin.
  apply in_combine_l in Hin. apply in_seq in Hin. cbn. lia.
Qed.

Lemma enumerate_snd :
  forall (A : Type) (l : list A), map snd (enumerate l) = l.
Proof.
  intros A l. unfold enumerate.
  generalize 0. induction l as [|x l IH]; intro k; cbn; [reflexivity|].
  rewrite IH. reflexivity.
Qed.

Lemma length_bars :
  forall entries : list (nat * (string * list (Interval F))),
    List.length (flat_map (bars_of_link N) entries)
    = list_sum (map (fun item => List.length (snd item)) (map snd entries)).
Proof.
  induction entries as [|[idx [link ivs]] entries IH]; cbn; [reflexivity|].
  rewrite length_app, IH. unfold bars_of_link. cbn. rewrite length_map.
  reflexivity.
Qed.

(** X15.  The drawing loop of [visualize_access_timeline] never indexes the
    color table out of range: it returns for every dictionary, with one bar
    per interval (as many bars as the exported frame has rows), each bar in
    the row of its link, starting at twice the row number and in the color
    of that row; the ticks are the row numbers and the labels the keys. *)
Theorem visualize_one_bar_per_interval :
  forall results : list (string * list (Interval F)),
  exists fig : Figure F,
    visualize_access_timeline N results = Ok fig
    /\ bars fig = flat_map (bars_of_link N) (enumerate results)
    /\ List.length (bars fig)
       = List.length (values (export_results_to_csv results))
    /\ Forall (fun b => bar_y b < List.length results
                        /\ bar_left b = 2 * bar_y b
                        /\ bar_color b = bar_y b) (bars fig)
    /\ yticks fig = seq 0 (List.length results)
    /\ yticklabels fig = dict_keys results.
Proof.
  intro results. unfold visualize_access_timeline. cbv zeta.
  assert (Hlen : List.length (dict_keys results) = List.length results)
    by (unfold dict_keys; apply length_map).
  rewrite Hlen.
  rewrite (draw_links [] (enumerate_bounded results)). cbn [bind app].
  eexists. split; [reflexivity|]. cbn [bars yticks yticklabels].
  split; [reflexivity|]. split; [|split; [|split; reflexivity]].
  - rewrite length_bars, enumerate_snd.
    unfold export_results_to_csv, pd_DataFrame. cbn [values].
    rewrite length_map, export_data_rows. symmetry. apply length_rows.
  - apply Forall_forall. intros b Hb. apply in_flat_map in Hb.
    destruct Hb as ([idx [link ivs]] & Hin & Hb).
    pose proof (enumerate_bounded results) as Hbd.
    rewrite Forall_forall in Hbd. specialize (Hbd _ Hin). cbn [fst] in Hbd.
    unfold bars_of_link in Hb. cbn [fst snd] in Hb. apply in_map_iff in Hb.
    destruct Hb as (iv & <- & _). cbn. repeat split; [exact Hbd|lia].
Qed.
End Outputs.

(* ================================================================== *)
(** * Properties of the scenario methods *)

Section ScenarioMethods.
Context {F : Type}.

(** X16.  [save_scenario] with a path never raises: it returns the path,
    or [None] exactly when [SaveScenarioAs] raised and then [Unload] raised
    or there was no scenario.  Without a path it may raise only from
    [os.makedirs], and otherwise behaves as with the path
    [<home>/Desktop/STK_Analysis_Output/<scenario_name>.sc]. *)
Theorem save_scenario_outcomes :
  forall (dk : Desktop) (self : SatelliteNetworkAnalyzer F),
    (forall p : string,
        (save_scenario dk self (Some p) = Ok (Some p)
         \/ save_scenario dk self (Some p) = Ok None)
        /\ (save_scenario dk self (Some p) = Ok None
            <-> (exists e, SaveScenarioAs dk p = Raise e)
                /\ (scenario self = None \/ exists e, Unload dk = Raise e)))
    /\ (let output_dir :=
          path_join dk [expanduser_home dk; "Desktop";
                        "STK_Analysis_Output"]%string in
        (forall e : exn,
            path_exists dk output_dir = false ->
            makedirs dk output_dir = Raise e ->
            save_scenario dk self None = Raise e)
        /\ (path_exists dk output_dir = true
            \/ makedirs dk output_dir = Ok tt ->
            save_scenario dk self None
            = save_scenario dk self
                (Some (path_join dk [output_dir;
                                     (scenario_name self ++ ".sc")%string])))).
Proof.
  intros dk self. split.
  - intro p. unfold save_scenario, scenario_of. cbn [bind].
    destruct (SaveScenarioAs dk p) as [[]|e1].
    + split; [left; reflexivity|]. split; [discriminate|].
      intros [[e He] _]. discriminate He.
    + destruct (scenario self) as [sc|]; cbn [bind].
      * destruct (Unload dk) as [[]|e2].
        -- split; [left; reflexivity|]. split; [discriminate|].
           intros [_ [H|[e He]]]; discriminate.
        -- split; [right; reflexivity|]. split; [|reflexivity].
           intros _. split; [eexists; reflexivity|right; eexists; reflexivity].
      * split; [right; reflexivity|]. split; [|reflexivity].
        intros _. split; [eexists; reflexivity|left; reflexivity].
  - cbv zeta. split.
    + intros e Hex Hmk. unfold save_scenario. rewrite Hex, Hmk. reflexivity.
    + intros [Hex|Hmk]; unfold save_scenario.
      * rewrite Hex. reflexivity.
      * rewrite Hmk. destruct (path_exists dk _); reflexivity.
Qed.

(** X17.  [open_3d_graphics] and [zoom_to_objects] never raise.  The first
    always sends the command that creates the window, and the command that
    sets the view volume only when the first command did not raise; the
    second sends its one command. *)
Theorem graphics_commands_never_raise :
  forall dk : Desktop,
    open_3d_graphics dk
    = (Ok tt,
       match ExecuteCommand dk "Graphics * CreateWindow" with
       | Ok _ => [ "Graphics * CreateWindow";
                   "Window3D * ViewVolume 0 45000000" ]%string
       | Raise _ => [ "Graphics * CreateWindow" ]%string
       end)
    /\ zoom_to_objects dk = (Ok tt, [ "VO * View ZoomToAllObjects" ]%string).
Proof.
  intro dk. unfold open_3d_graphics, zoom_to_objects, try_except, send,
    block_bind, modify, lift, block_ret. cbn [app].
  split.
  - destruct (ExecuteCommand dk "Graphics * CreateWindow") as [[]|e]; cbn.
    + destruct (ExecuteCommand dk "Window3D * ViewVolume 0 45000000") as [[]|e];
        reflexivity.
    + reflexivity.
  - destruct (ExecuteCommand dk "VO * View ZoomToAllObjects") as [[]|e];
      reflexivity.
Qed.

Lemma substring_prefix :
  forall s t : string,
    String.substring 0 (String.length s) (s ++ t)%string = s.
Proof.
  induction s as [|c s IH]; intro t; cbn.
  - destruct t; reflexivity.
  - rewrite IH. reflexivity.
Qed.

Lemma length_append :
  forall s t : string,
    String.length (s ++ t)%string = String.length s + String.length t.
Proof.
  induction s as [|c s IH]; intro t; cbn; [reflexivity|].
  rewrite IH. reflexivity.
Qed.

Lemma drop_last3_append :
  forall s t : string, String.length t = 3 -> drop_last3 (s ++ t)%string = s.
Proof.
  intros s t Ht. unfold drop_last3. rewrite length_append, Ht.
  replace (String.length s + 3 - 3) with (String.length s) by lia.
  apply substring_prefix.
Qed.

(** X18.  [create_scenario] always leaves the analyzer with a scenario and
    with its three lists unchanged.  When the start time does not parse (or
    the sum overflows) it raises after the new scenario was stored, so the
    scenario keeps the host's default period; when it returns, the start
    time is the given string, and the stop time is the formatted stop
    date-time without its last three characters. *)
Theorem create_scenario_outcomes :
  forall (dt : Datetime F) (dk : Desktop) (self : SatelliteNetworkAnalyzer F)
         (start_time : string) (duration_hours : F),
    let r := create_scenario dt dk self start_time duration_hours in
    scenario (snd r) <> None
    /\ satellites (snd r) = satellites self
    /\ ground_stations (snd r) = ground_stations self
    /\ aircraft (snd r) = aircraft self
    /\ (forall e : exn,
           fst r = Raise e ->
           scenario (snd r) = Some (NewScenario dk (scenario_name self)))
    /\ (fst r = Ok tt ->
        exists sc : Scenario,
          scenario (snd r) = Some sc /\ StartTime sc = start_time)
    /\ (forall (t0 t1 : DT dt) (body micros : string),
           strptime dt start_time = Ok t0 ->
           plus_hours dt t0 duration_hours = Ok t1 ->
           strftime dt t1 = (body ++ micros)%string ->
           String.length micros = 3 ->
           r = (Ok tt,
                with_scenario
                  (Some {| StartTime := start_time; StopTime := body |}) self)).
Proof.
  intros dt dk self start_time duration_hours r. subst r.
  unfold create_scenario.
  destruct (strptime dt start_time) as [t0|e0] eqn:E0.
  - destruct (plus_hours dt t0 duration_hours) as [t1|e1] eqn:E1; cbn.
    + repeat split; try discriminate.
      * eexists. split; reflexivity.
      * intros t0' t1' body micros H0 H1 Hs Hm.
        assert (t0' = t0) by congruence. subst t0'.
        assert (t1' = t1) by congruence. subst t1'.
        rewrite Hs, (drop_last3_append body micros Hm). reflexivity.
    + repeat split; try discriminate.
      * intros t0' t1' body micros H0 H1.
        assert (t0' = t0) by congruence. subst t0'. congruence.
  - cbn. repeat split; try discriminate.
Qed.
End ScenarioMethods.
